(* ===== verification/_CoqProject ===== *)
-Q . S2P
Prelude.v
PyStr.v
PyNum.v
Json.v
Protocol.v
TkRender.v
TkGui.v
TkFrame.v
TkDemo.v
TkGuiFacts.v
TkFiles.v
Terminal.v
TerminalDemo.v
TerminalFacts.v
ChatGpt.v
ChatGptDemo.v
ChatGptFacts.v
Flask.v
PyQt.v
PyQtApp.v
