(* ===== verification/Prelude.v ===== *)
(** * A verification library for the OlamaUI chat clients

    The repository holds five front ends to one local language-model
    HTTP service (the Ollama API).  Each one keeps a chat history,
    builds a JSON payload from it, posts it to [{base}/chat], reads the
    reply and appends it to the history; the GUIs also save and load
    the history as JSON files.  The clients do not talk to each other:
    each one talks to the service, and they share only the shape of the
    messages, the payload and the reply.

    - [src/gui_app/ollama_gui.py], class [OllamaChatGUI]: a Tkinter GUI.
      A worker thread makes the HTTP call and hands its results back to
      the UI thread through [root.after(0, ...)] callbacks.  A flag
      [is_generating] guards against a second send.
    - [src/gui_app/chatgpt.py], class [ChatGPTStyle]: a second Tkinter
      GUI with chat titles in a sidebar, a settings dialog and files.
    - [src/terminal_app/ollama_chat.py], class [OllamaChat]: a curses
      client that makes the call synchronously, with slash commands.
    - [src/python_app/app.py]: a Flask proxy that forwards [/api/chat],
      [/api/models] and [/api/version] to the service.
    - [src/gui_app/ollama_pyqt.py], class [OllamaChatApp]: a PyQt GUI
      with one history per tab.  Its [ApiThread] makes the call and
      emits a Qt signal that the main thread handles later; every
      message is a [MessageWidget] that cuts its text into text and
      code parts.

    ** Files, in dependency order (see [_CoqProject])

    - [Prelude] (this file): the Python exception/state monad [pyM]
      with its notations in [py_scope]; the generic lemmas; the
      invariant combinator [preserves] with the tactic [preserve_step]
      and the hint database [preserve]; the tactics [py_unfold] (unfold
      the monad), [py_run] (run a handler statement by statement),
      [bool_arith] (boolean comparisons to propositions for [lia]) and
      [neq_by_compute].
    - [PyStr], [PyNum]: the Python string operations ([strip], [find],
      slicing, [in], [lower], [repr], [basename], [split] on one
      character with its join round trip) and [int()],
      [float()], [str()] and [repr()] on numbers, as CPython defines
      them on ASCII text.
    - [Json]: decoded JSON values as the Python code sees them,
      truthiness, [dict.get], [d[k]], [str()], [==], iteration and
      [list.append].
    - [Protocol]: the message dicts, the payload, the reply test
      [data.get("message") and data["message"].get("content")] that
      the clients share, and the specification's reading of a reply.
    - [TkRender]: [OllamaChatGUI.add_to_chat], the rendering of a
      message into tagged text segments (fenced and inline code).
    - [TkGui]: [OllamaChatGUI]: its state record [tk_state], one
      definition per handler, the worker threads and the [after] queue,
      and the step relation [tk_step] of the whole program (a UI event,
      a worker step or a queued callback, in any order).  A worker
      that catches an exception stays inside its [except] block, with
      a fresh frame number for [e], until a step of its own leaves
      it; a queued callback that formats [e] shows it while the
      worker is inside and raises [NameError] after, so the race of
      the source between the two threads is a choice of [tk_step].
    - [TkFrame], [TkDemo], [TkGuiFacts], [TkFiles]: the bookkeeping
      lemmas of the Tk client, a concrete session, and its theorems.
    - [Terminal], [TerminalDemo], [TerminalFacts]: [OllamaChat] with
      its state [term_state], the selection prompt, [send_message],
      [redraw_chat], the command loop as the step relation [term_step],
      [run] and [__main__]; concrete inputs; and the theorems.
    - [ChatGpt], [ChatGptDemo], [ChatGptFacts]: [ChatGPTStyle] with its
      state [cg_state] (module globals included), every handler, the
      workers and callbacks (with the same [except] blocks as the Tk
      client, through [cg_run_thread]), the step relation [cg_step]; a
      concrete session; and the theorems.
    - [Flask]: the module [FlaskApp], the three handlers of the proxy
      over a log of the requests sent upstream, the routing of a
      request as Flask and Werkzeug do it ([HEAD] added to the [GET]
      rules, [OPTIONS] answered without the view, 405 for another
      method), and their theorems.
    - [PyQt]: the module [MessageWidget]: [process_text] as a fold over
      the lines with its four locals, a reference definition of the
      same cutting by two mutually recursive functions, and their
      equivalence.
    - [PyQtApp]: the module [PyQtApp] with the window's state
      [pq_state] (the pages that [create_chat_tab] builds, the tabs,
      [current_chats], the widgets the handlers name through [self]
      bound to the last page, the threads and the queued signals),
      every slot, [main] and the step relation [pq_step]; then a
      concrete session and the theorems.

    ** What the theorems show

    They are listed in PROJECT.json with their claim ids C1-C40.  For
    the Tk client: at most one request in flight in every reachable
    state (by rule induction on [tk_step]); every request ends back in
    the idle state (liveness); the guards of [send_message] and the
    request it builds; how each kind of reply lands in the history and
    on screen, each failure with its own line, an exception through
    the callback that formats its [e] (and, without a claim id, that
    this callback shows the error or raises [NameError] depending on
    which thread runs first); the save/load round trip; a reply filed into a chat
    cleared meanwhile; a file without history loading as an empty
    chat; text rendered twice around an unmatched backtick or fence.
    For the terminal client: the history is well formed in every
    reachable state; the errors of [send_message]; the error text is
    thrown away; a long reply ends the session; notices sent to the
    model.  Further theorems of the same files (the commands, the
    window that does not scroll, [--model] still prompting, a load
    applied halfway, the model line shown twice, a concrete session)
    are proved beside them without a claim id.  For the proxy: what [chat]
    posts and answers, the upstream status dropped, the error paths,
    the keys of the payload (a type property), at most one upstream
    call per request, made only for the route's method or the [HEAD]
    of a [GET] route (a bound).  For the ChatGPT-style client: saving
    fails in every reachable state, starting fails without
    [--api-url], the system prompt is always sent, a new API URL never
    refreshes the models, and the sidebar list drifts from the
    sidebar after a rename and a delete.  The reply test refines the
    specification's reading of a reply where the specification reads
    a content.  For the PyQt client: [process_text] equals its
    two-mode reference (equivalence); plain text comes back whole
    (split/join round trip); a code block left open is dropped; in
    every reachable state the tabs, the chat list and the histories
    agree and at least one tab exists (rule induction on [pq_step]),
    and the settings stay in the slider's and spin box's ranges
    (bounds); what [send_message] posts; and the consequences of the
    handlers naming the widgets of the last page: Send reads the
    newest page's input, a reply goes to the tab current when it
    arrives, closing the newest tab hides every later message, the
    chat list selects the first of equal titles, and only the newest
    page's send button is re-enabled.

    ** Bounds and fuel

    The two [while] loops of [add_to_chat] are [Fixpoint]s with fuel;
    [TkRender] proves that [length text + 1] units always suffice,
    because each turn drops at least one character.  [str(n)] takes
    [log2 n] units of fuel, and [nat_fuel_enough] shows
    [n < 10 ^ (log2 n + 1)], so no digit is lost ([PyNum]).  The
    other loops are structural on a list.  Integers are [Z], because
    Python integers do not overflow; floats are rationals [Q], only
    compared, copied and printed.

    ** Not modelled

    Widget layout, colours, fonts, icons, scrolling and the curses
    window geometry are presentation.  The HTTP transport and the JSON
    codec are library code: a reply enters the model as a decoded value
    or as the exception the library raises.  [textwrap.wrap] is a class
    the terminal theorems quantify over.  Tkinter's modal dialogs are
    modelled by which events the main window accepts.  The wall clock
    and the answers to dialogs are inputs.  Strings are ASCII.  The
    ChatGPT-style client's [invite_friends], [download_model] and
    model listbox of the settings window, the PyQt client's Copy
    button (the clipboard) and syntax highlighter, and the
    [/] route of the proxy are not modelled, nor the [Allow] header
    of an automatic [OPTIONS] answer and the HTML page of a 405.  The
    Tk [load_chat] sets the model from [data.get("model")] where line
    492 reads [data["model"]]; they differ only when a file has no
    model while [None] is among the listed models.  In the PyQt client an
    exception that escapes a slot aborts the program, as PyQt 5.5 and
    later do; the tab widget moves the current tab as Qt's default
    [SelectRightTab]; [insert_code_snippet] inserts at the end of the
    input box. *)

From stdpp Require Export base list strings decidable relations.
From Stdlib Require Export ZArith Lia.

(** ** Python exceptions and a state/exception monad

    A Python handler runs statement by statement.  An exception stops
    it, and the effects made before the failing statement stay.
    [pyM S A] models exactly that: the state is always returned, and
    the result is a value or the exception raised. *)

Inductive exn : Type :=
| PyExn (cls : string) (msg : string).

(** [str(e)], the text an [except Exception as e] clause formats. *)
Definition exn_str (e : exn) : string :=
  match e with PyExn _ m => m end.

Inductive res (A : Type) : Type :=
| Ok (a : A)
| Raise (e : exn).
Arguments Ok {A} a.
Arguments Raise {A} e.

(** Sequencing of computations that may raise, without state. *)
Definition res_bind {A B} (r : res A) (f : A -> res B) : res B :=
  match r with Ok a => f a | Raise e => Raise e end.

Notation "'let?' x ':=' r 'in' k" := (res_bind r (fun x => k))
  (at level 10, x name, r at level 100, k at level 200).

Definition pyM (S A : Type) : Type := S -> S * res A.

Definition pret {S A} (a : A) : pyM S A := fun s => (s, Ok a).

Definition pbind {S A B} (c : pyM S A) (k : A -> pyM S B) : pyM S B :=
  fun s =>
    match c s with
    | (s', Ok a) => k a s'
    | (s', Raise e) => (s', Raise e)
    end.

Definition praise {S A} (e : exn) : pyM S A := fun s => (s, Raise e).
Definition pget {S} : pyM S S := fun s => (s, Ok s).
Definition pmodify {S} (f : S -> S) : pyM S unit := fun s => (f s, Ok tt).
Definition plift {S A} (r : res A) : pyM S A := fun s => (s, r).

(** [try: c except Exception as e: h(e)]. *)
Definition ptry {S A} (c : pyM S A) (h : exn -> pyM S A) : pyM S A :=
  fun s =>
    match c s with
    | (s', Raise e) => h e s'
    | o => o
    end.

Declare Scope py_scope.
Delimit Scope py_scope with py.
Notation "x <- c ;; k" := (pbind c (fun x => k))
  (at level 100, c at next level, right associativity) : py_scope.
Notation "c ;; k" := (pbind c (fun _ : unit => k))
  (at level 100, right associativity) : py_scope.

(** ** Generic lemmas *)

Lemma pbind_pret {S A B} (a : A) (k : A -> pyM S B) s :
  pbind (pret a) k s = k a s.
Proof. reflexivity. Qed.

Lemma pbind_assoc {S A B C} (c : pyM S A) (k : A -> pyM S B)
  (k' : B -> pyM S C) s :
  pbind (pbind c k) k' s = pbind c (fun a => pbind (k a) k') s.
Proof. unfold pbind. by destruct (c s) as [s' []]. Qed.

Lemma pbind_ok {S A B} (c : pyM S A) (k : A -> pyM S B) s s' a :
  c s = (s', Ok a) -> pbind c k s = k a s'.
Proof. unfold pbind. by intros ->. Qed.

Lemma pbind_raise {S A B} (c : pyM S A) (k : A -> pyM S B) s s' e :
  c s = (s', Raise e) -> pbind c k s = (s', Raise e).
Proof. unfold pbind. by intros ->. Qed.

Lemma pbind_pget {S B} (k : S -> pyM S B) s : pbind pget k s = k s s.
Proof. reflexivity. Qed.

Lemma pbind_pmodify {S B} (f : S -> S) (k : unit -> pyM S B) s :
  pbind (pmodify f) k s = k tt (f s).
Proof. reflexivity. Qed.

Lemma pbind_plift_ok {S A B} (a : A) (k : A -> pyM S B) s : pbind (plift (Ok a)) k s = k a s.
Proof. reflexivity. Qed.

(** Deleting the element at [i] forgets what was stored there. *)
Lemma delete_insert_same {A} (l : list A) (i : nat) (x : A) :
  delete i (<[i := x]> l) = delete i l.
Proof. revert i. induction l as [|y l IH]; intros [|i]; cbn; rewrite ?IH; done. Qed.

Create HintDb olama.
Create Rewrite HintDb olama_rw.
#[export] Hint Rewrite @pbind_pret @pbind_assoc : olama_rw.
#[export] Hint Resolve pbind_ok pbind_raise : olama.


(** ** Invariants of handlers

    [preserves P c]: running [c] from a state where [P] holds leaves a
    state where [P] holds, whether [c] returns or raises.  The lemmas
    below take a handler apart statement by statement; [preserve_step]
    applies them, and the hint database [preserve] holds the facts
    proved for the handlers of each client. *)

Section Preserves.
Context {S : Type} (P : S -> Prop).

Definition preserves {A} (c : pyM S A) : Prop := forall s, P s -> P (fst (c s)).

Lemma preserves_pret {A} (a : A) : preserves (pret a).
Proof. by intros s. Qed.

Lemma preserves_praise {A} (e : exn) : preserves (A := A) (praise e).
Proof. by intros s. Qed.

Lemma preserves_pget : preserves pget.
Proof. by intros s. Qed.

Lemma preserves_plift {A} (r : res A) : preserves (plift r).
Proof. by intros s. Qed.

Lemma preserves_pbind {A B} (c : pyM S A) (k : A -> pyM S B) :
  preserves c -> (forall a, preserves (k a)) -> preserves (pbind c k).
Proof.
  intros Hc Hk s Hs. unfold pbind. specialize (Hc s Hs).
  destruct (c s) as [s' [a|e]]; [by apply Hk | done].
Qed.

Lemma preserves_ptry {A} (c : pyM S A) (h : exn -> pyM S A) :
  preserves c -> (forall e, preserves (h e)) -> preserves (ptry c h).
Proof.
  intros Hc Hh s Hs. unfold ptry. specialize (Hc s Hs).
  destruct (c s) as [s' [a|e]]; [done | by apply Hh].
Qed.

Lemma preserves_pmodify (f : S -> S) :
  (forall s, P s -> P (f s)) -> preserves (pmodify f).
Proof. done. Qed.

Lemma preserves_if {A} (b : bool) (c1 c2 : pyM S A) :
  preserves c1 -> preserves c2 -> preserves (if b then c1 else c2).
Proof. by destruct b. Qed.

End Preserves.

Create HintDb preserve.
#[export] Hint Resolve preserves_pret preserves_praise preserves_pget preserves_plift : preserve.

(** One structural step of a [preserves] proof; [tac] closes the
    obligations of the state updates. *)
Ltac preserve_step tac :=
  match goal with
  | |- forall _, _ => intro
  | |- preserves _ (pbind _ _) => apply preserves_pbind
  | |- preserves _ (ptry _ _) => apply preserves_ptry
  | |- preserves _ (pmodify _) => apply preserves_pmodify; intros ? ?; tac
  | |- preserves _ (if _ then _ else _) => apply preserves_if
  | |- preserves _ (match ?x with _ => _ end) => destruct x
  | |- preserves _ (let _ := _ in _) => cbv zeta
  | |- preserves _ _ => solve [eauto with preserve]
  end.

(** ** Tactics *)

(** Unfold the monad plumbing of a handler applied to a concrete state. *)
Ltac py_unfold :=
  cbv [pbind pret praise pget pmodify plift ptry] in *.

(** Split the [if]s and [match]es of a goal produced by a handler. *)
Ltac py_cases :=
  repeat match goal with
    | |- context [match ?x with _ => _ end] =>
        lazymatch x with
        | context [match _ with _ => _ end] => fail
        | _ => destruct x eqn:?
        end
    end.

Ltac invc H := inversion H; subst; clear H.

(** Run the statements of a handler that read or update the state,
    one at a time, without normalising the whole state; [tac]
    simplifies the state after each statement.  Records of many fields
    updated many times grow too large under [cbv]. *)
Ltac py_run_with tac :=
  repeat (first [rewrite pbind_pget | rewrite pbind_pmodify | rewrite pbind_plift_ok];
          cbv beta; tac).

Ltac py_run := py_run_with idtac.

(** Turn the boolean comparisons of [nat] and [Z] in the hypotheses
    into propositions for [lia]. *)
Ltac bool_arith :=
  repeat match goal with
    | H : (_ <? _) = true |- _ => apply Nat.ltb_lt in H
    | H : (_ <? _) = false |- _ => apply Nat.ltb_ge in H
    | H : (_ <=? _) = true |- _ => apply Nat.leb_le in H
    | H : (_ <=? _) = false |- _ => apply Nat.leb_gt in H
    | H : (_ =? _) = true |- _ => apply Nat.eqb_eq in H
    | H : (_ =? _) = false |- _ => apply Nat.eqb_neq in H
    | H : (_ <? _)%Z = true |- _ => apply Z.ltb_lt in H
    | H : (_ <? _)%Z = false |- _ => apply Z.ltb_ge in H
    | H : (_ <=? _)%Z = true |- _ => apply Z.leb_le in H
    | H : (_ <=? _)%Z = false |- _ => apply Z.leb_gt in H
    | H : (_ =? _)%Z = true |- _ => apply Z.eqb_eq in H
    | H : (_ =? _)%Z = false |- _ => apply Z.eqb_neq in H
    end.

(** Close [a <> b] for closed terms [a] and [b] by computing both. *)
Ltac neq_by_compute :=
  let H := fresh "H" in intro H; vm_compute in H; discriminate H.
