(* ===== verification/PyStr.v ===== *)
(** * Python string operations used by the clients

    [str.strip()], [str.find(sub, start)], slicing [s[a:b]], the
    operator [sub in s], [str.lower()], [repr()] of a string and
    [os.path.basename], over ASCII [string].  Each one is written the way CPython defines it, and
    the lemmas below describe the values the clients depend on. *)

From S2P Require Import Prelude.
From Stdlib Require Import Ascii.
Open Scope string_scope.
Open Scope list_scope.
Open Scope nat_scope.

(** The strings ["\n"] and ["\n\n"] of the source. *)
Definition nl : string := String (Ascii.ascii_of_nat 10) "".
Definition nl2 : string := nl +:+ nl.

(** ** Whitespace and [strip] *)

(** [str.isspace] on one ASCII character: tab, newline, vertical tab,
    form feed, carriage return, the separators 0x1c..0x1f, and space. *)
Definition py_isspace (c : Ascii.ascii) : bool :=
  let n := Ascii.nat_of_ascii c in (
  ((9 <=? n) && (n <=? 13)) || ((28 <=? n) && (n <=? 32)))%nat.

Fixpoint drop_space (l : list Ascii.ascii) : list Ascii.ascii :=
  match l with
  | [] => []
  | c :: l' => if py_isspace c then drop_space l' else l
  end.

(** [s.lstrip()], [s.rstrip()] and [s.strip()] with no argument. *)
Definition py_lstrip (s : string) : string :=
  String.string_of_list_ascii (drop_space (String.list_ascii_of_string s)).

Definition py_rstrip (s : string) : string :=
  String.string_of_list_ascii
    (rev (drop_space (rev (String.list_ascii_of_string s)))).

Definition py_strip (s : string) : string := py_rstrip (py_lstrip s).

(** Every character of [s] is whitespace. *)
Definition py_all_space (s : string) : bool :=
  forallb py_isspace (String.list_ascii_of_string s).

(** ** Searching and slicing *)

(** Index of the first occurrence of [sub] in [s]. *)
Fixpoint find_idx (sub s : string) : option nat :=
  if String.prefix sub s then Some 0
  else match s with
       | EmptyString => None
       | String _ s' => S <$> find_idx sub s'
       end.

(** [s[a:]] and [s[a:b]] for non-negative [a], [b]. *)
Definition py_slice_from (s : string) (a : nat) : string :=
  String.substring a (String.length s - a) s.

Definition py_slice (s : string) (a b : nat) : string :=
  String.substring a (b - a) s.

(** [s.find(sub, start)]: the lowest index [>= start] where [sub]
    occurs, or [-1]; a start past the end finds nothing. *)
Definition py_find (s sub : string) (start : nat) : Z :=
  if start <=? String.length s then
    match find_idx sub (py_slice_from s start) with
    | Some i => Z.of_nat (start + i)
    | None => (-1)%Z
    end
  else (-1)%Z.

(** [s[:stop]] for any integer [stop]; a negative one counts from
    the end. *)
Definition py_slice_to (s : string) (stop : Z) : string :=
  let n := Z.of_nat (String.length s) in
  let k := if (stop <? 0)%Z then Z.max 0 (n + stop) else Z.min stop n in
  String.substring 0 (Z.to_nat k) s.

(** [sub in s]. *)
Definition py_in (sub s : string) : bool :=
  match find_idx sub s with Some _ => true | None => false end.

(** ** [str.lower()] *)

(** [str.lower()] on code points below 256: the ASCII capitals and
    the Latin-1 capitals U+00C0..U+00DE other than U+00D7. *)
Definition py_lower_char (c : Ascii.ascii) : Ascii.ascii :=
  let n := Ascii.nat_of_ascii c in
  if ((65 <=? n) && (n <=? 90)) || ((192 <=? n) && (n <=? 222) && negb (n =? 215))
  then Ascii.ascii_of_nat (n + 32) else c.

Definition py_lower (s : string) : string :=
  String.string_of_list_ascii (map py_lower_char (String.list_ascii_of_string s)).

(** ** [repr()] of a string *)

(** [repr(s)] of a string: single quotes unless the text holds a
    single quote and no double quote; the backslash, the chosen quote
    and the control characters are escaped. *)
Definition hex_digit (n : nat) : Ascii.ascii :=
  Ascii.ascii_of_nat (if n <? 10 then 48 + n else 87 + n).

Definition repr_char (q : Ascii.ascii) (c : Ascii.ascii) : string :=
  let n := Ascii.nat_of_ascii c in
  if Ascii.eqb c q then String "\"%char (String c "")
  else if n =? 92 then "\\"
  else if n =? 10 then "\n"
  else if n =? 13 then "\r"
  else if n =? 9 then "\t"
  else if (n <? 32) || (n =? 127) then
    String "\"%char (String "x"%char
      (String (hex_digit (n / 16)) (String (hex_digit (n mod 16)) "")))
  else String c "".

Definition dquote : Ascii.ascii := Ascii.ascii_of_nat 34.

Definition py_repr_str (s : string) : string :=
  let q := if py_in "'" s && negb (py_in (String dquote "") s) then dquote
           else "'"%char in
  String q (String.concat "" (map (repr_char q) (String.list_ascii_of_string s))
            +:+ String q "").


(** ** Lemmas *)

(** stdpp makes [String.append] opaque to [simpl]; these are its two
    defining equations. *)
Lemma append_empty_l (r : string) : "" +:+ r = r.
Proof. reflexivity. Qed.

Lemma append_cons (c : Ascii.ascii) (a r : string) :
  String c a +:+ r = String c (a +:+ r).
Proof. reflexivity. Qed.

Lemma append_empty_r (a : string) : a +:+ "" = a.
Proof. induction a as [|c a IH]; [done | by rewrite append_cons, IH]. Qed.

#[export] Hint Rewrite append_empty_l append_cons : olama_rw.

Lemma list_ascii_of_string_app (a b : string) :
  String.list_ascii_of_string (a +:+ b)
  = (String.list_ascii_of_string a ++ String.list_ascii_of_string b)%list.
Proof. induction a as [|c a IH]; simpl; [done | by rewrite IH]. Qed.

Lemma string_of_list_ascii_inv (s : string) :
  String.string_of_list_ascii (String.list_ascii_of_string s) = s.
Proof. induction s as [|c s IH]; simpl; [done | by rewrite IH]. Qed.

Lemma drop_space_nil_iff (l : list Ascii.ascii) :
  drop_space l = [] <-> forallb py_isspace l = true.
Proof.
  induction l as [|c l IH]; simpl; [done |].
  destruct (py_isspace c); simpl; [done | split; discriminate].
Qed.

Lemma forallb_rev_eq {A} (f : A -> bool) (l : list A) :
  forallb f (rev l) = forallb f l.
Proof.
  induction l as [|x l IH]; simpl; [done |].
  rewrite forallb_app, IH. simpl. by rewrite andb_true_r, andb_comm.
Qed.

Lemma drop_space_idem (l : list Ascii.ascii) :
  drop_space (drop_space l) = drop_space l.
Proof.
  induction l as [|c l IH]; simpl; [done |].
  destruct (py_isspace c) eqn:Hc; simpl; [done | by rewrite Hc].
Qed.

Lemma drop_space_rev_nil (l : list Ascii.ascii) :
  forallb py_isspace l = false -> drop_space (rev (drop_space l)) <> [].
Proof.
  intros Hl Hnil. apply drop_space_nil_iff in Hnil.
  rewrite forallb_rev_eq in Hnil.
  apply drop_space_nil_iff in Hnil. rewrite drop_space_idem in Hnil.
  apply drop_space_nil_iff in Hnil. congruence.
Qed.

Lemma list_ascii_of_string_inv (l : list Ascii.ascii) :
  String.list_ascii_of_string (String.string_of_list_ascii l) = l.
Proof. induction l as [|c l IH]; simpl; [done | by rewrite IH]. Qed.

Lemma string_of_list_ascii_nil (l : list Ascii.ascii) :
  String.string_of_list_ascii l = "" <-> l = [].
Proof. destruct l; simpl; split; congruence. Qed.

(** [s.strip()] is empty exactly when [s] is all whitespace: the test
    [if not message] of every client. *)
Lemma drop_space_keep (l : list Ascii.ascii) :
  Forall (fun c => py_isspace c = false) l -> drop_space l = l.
Proof. intros [|c l' Hc _]; cbn; [done | by rewrite Hc]. Qed.

(** [strip()] leaves a text without whitespace as it is. *)
Lemma py_strip_nospace (s : string) :
  Forall (fun c => py_isspace c = false) (String.list_ascii_of_string s) -> py_strip s = s.
Proof.
  intros Hs. unfold py_strip, py_rstrip, py_lstrip.
  rewrite (drop_space_keep _ Hs), list_ascii_of_string_inv.
  rewrite (drop_space_keep (rev _)) by (by apply Forall_rev).
  by rewrite rev_involutive, string_of_list_ascii_inv.
Qed.

Lemma py_strip_empty_iff (s : string) :
  py_strip s = "" <-> py_all_space s = true.
Proof.
  unfold py_strip, py_rstrip, py_lstrip, py_all_space.
  rewrite list_ascii_of_string_inv, string_of_list_ascii_nil.
  destruct (forallb py_isspace (String.list_ascii_of_string s)) eqn:E.
  - split; [done |]. intros _.
    apply drop_space_nil_iff in E. by rewrite E.
  - split; [| discriminate]. intros H. exfalso.
    apply (drop_space_rev_nil _ E).
    apply (f_equal (@rev _)) in H. by rewrite rev_involutive in H.
Qed.

Lemma py_all_space_app (a b : string) :
  py_all_space (a +:+ b) = py_all_space a && py_all_space b.
Proof.
  unfold py_all_space. by rewrite list_ascii_of_string_app, forallb_app.
Qed.

Lemma string_length_app (a b : string) :
  String.length (a +:+ b) = String.length a + String.length b.
Proof. induction a as [|c a IH]; simpl; [done | by rewrite IH]. Qed.

Lemma substring_app_r (a b : string) (n m : nat) :
  String.substring (String.length a + n) m (a +:+ b) = String.substring n m b.
Proof. induction a as [|c a IH]; simpl; [done | exact IH]. Qed.

Lemma substring_full (s : string) :
  String.substring 0 (String.length s) s = s.
Proof. induction s as [|c s IH]; simpl; [done | by rewrite IH]. Qed.

Lemma substring_0_app (a b : string) :
  String.substring 0 (String.length a) (a +:+ b) = a.
Proof. induction a as [|c a IH]; simpl; [by destruct b | by rewrite IH]. Qed.

Lemma py_slice_from_app (a b : string) :
  py_slice_from (a +:+ b) (String.length a) = b.
Proof.
  unfold py_slice_from. rewrite string_length_app.
  replace (String.length a + String.length b - String.length a)
    with (String.length b) by lia.
  rewrite <- (Nat.add_0_r (String.length a)) at 1.
  by rewrite substring_app_r, substring_full.
Qed.

Lemma py_slice_prefix (a b : string) :
  py_slice (a +:+ b) 0 (String.length a) = a.
Proof.
  unfold py_slice. rewrite Nat.sub_0_r. apply substring_0_app.
Qed.

#[export] Hint Rewrite string_length_app py_slice_from_app py_slice_prefix
  : olama_rw.

(** ** Searching for a pattern that starts with a backtick

    The renderers search for ["```"] and ["`"].  A string with no
    backtick cannot hold either pattern, which fixes where [find]
    stops on the strings the theorems about rendering are stated on. *)

Definition no_backtick (s : string) : bool := negb (py_in "`" s).

Lemma find_idx_empty (sub : string) :
  find_idx sub "" = if String.prefix sub "" then Some 0 else None.
Proof. reflexivity. Qed.

Lemma find_idx_cons (sub : string) (c : Ascii.ascii) (s : string) :
  find_idx sub (String c s)
  = if String.prefix sub (String c s) then Some 0 else S <$> find_idx sub s.
Proof. reflexivity. Qed.

Lemma prefix_cons_cons (x c : Ascii.ascii) (t r : string) :
  String.prefix (String x t) (String c r)
  = if decide (x = c) then String.prefix t r else false.
Proof.
  cbn [String.prefix]. by destruct (Ascii.ascii_dec x c), (decide (x = c)).
Qed.

Lemma prefix_empty (s : string) : String.prefix "" s = true.
Proof. by destruct s. Qed.

Lemma no_backtick_cons (c : Ascii.ascii) (s : string) :
  no_backtick (String c s) = true -> c <> "`"%char /\ no_backtick s = true.
Proof.
  unfold no_backtick, py_in. rewrite find_idx_cons, prefix_cons_cons.
  case_decide as Hc; [by rewrite prefix_empty |].
  destruct (find_idx "`" s); simpl; [discriminate | auto].
Qed.

Lemma find_idx_backtick_skip (t a r : string) :
  no_backtick a = true ->
  find_idx (String "`" t) (a +:+ r)
  = Nat.add (String.length a) <$> find_idx (String "`" t) r.
Proof.
  induction a as [|c a IH]; intros Ha;
    rewrite ?append_empty_l, ?append_cons; cbn [String.length].
  - destruct (find_idx (String "`" t) r); reflexivity.
  - apply no_backtick_cons in Ha as [Hc Ha].
    rewrite find_idx_cons, prefix_cons_cons.
    case_decide; [congruence |].
    rewrite (IH Ha). destruct (find_idx (String "`" t) r); reflexivity.
Qed.

Lemma find_idx_backtick_none (t b : string) :
  no_backtick b = true -> find_idx (String "`" t) b = None.
Proof.
  intros Hb. pose proof (find_idx_backtick_skip t b "" Hb) as H.
  rewrite append_empty_r in H. rewrite H. done.
Qed.

(** ** Where [find] stops *)

Lemma append_assoc_str (a b c : string) : (a +:+ b) +:+ c = a +:+ (b +:+ c).
Proof. induction a as [|x a IH]; [done | by rewrite !append_cons, IH]. Qed.

Lemma prefix_app_self (s r : string) : String.prefix s (s +:+ r) = true.
Proof.
  induction s as [|c s IH]; [apply prefix_empty |].
  rewrite append_cons, prefix_cons_cons. by case_decide.
Qed.

Lemma find_idx_app_self (s r : string) : find_idx s (s +:+ r) = Some 0.
Proof.
  destruct s as [|c s].
  - by rewrite append_empty_l; destruct r; cbn.
  - by rewrite append_cons, find_idx_cons, <- append_cons, prefix_app_self.
Qed.

Lemma prefix_length (sub s : string) :
  String.prefix sub s = true -> String.length sub <= String.length s.
Proof.
  revert s. induction sub as [|c sub IH]; intros [|d s]; cbn [String.length];
    try lia; [discriminate |].
  rewrite prefix_cons_cons. case_decide; [|discriminate].
  intros Hp%IH. lia.
Qed.

Lemma find_idx_bound (sub s : string) (i : nat) :
  find_idx sub s = Some i -> i + String.length sub <= String.length s.
Proof.
  revert i. induction s as [|c s IH]; intros i.
  - rewrite find_idx_empty. destruct (String.prefix sub "") eqn:E; [|discriminate].
    intros [= <-]. apply prefix_length in E. cbn in *. lia.
  - rewrite find_idx_cons. destruct (String.prefix _ _) eqn:E.
    + intros [= <-]. apply prefix_length in E. lia.
    + destruct (find_idx sub s) as [j|] eqn:Ej; cbn; [|discriminate].
      intros [= <-]. specialize (IH j eq_refl). cbn. lia.
Qed.

Lemma substring_length (n m : nat) (s : string) :
  String.length (String.substring n m s) = Nat.min m (String.length s - n).
Proof.
  revert n m. induction s as [|c s IH]; intros [|n] [|m]; cbn; try lia;
    rewrite IH; repeat case_match; lia.
Qed.

Lemma py_slice_from_length (s : string) (a : nat) :
  String.length (py_slice_from s a) = String.length s - a.
Proof. unfold py_slice_from. rewrite substring_length. lia. Qed.

(** A successful [find] lies inside the string. *)
Lemma py_find_cases (s sub : string) (k : nat) :
  py_find s sub k = (-1)%Z \/
  exists i, py_find s sub k = Z.of_nat i /\ k <= i /\
            i + String.length sub <= String.length s.
Proof.
  unfold py_find. destruct (Nat.leb_spec k (String.length s)); [|by left].
  destruct (find_idx sub (py_slice_from s k)) as [j|] eqn:E; [|by left].
  right. exists (k + j). split; [done|].
  apply find_idx_bound in E. rewrite py_slice_from_length in E. lia.
Qed.

Lemma py_find_at (a r sub : string) :
  py_find (a +:+ r) sub (String.length a)
  = match find_idx sub r with
    | Some i => Z.of_nat (String.length a + i)
    | None => (-1)%Z
    end.
Proof.
  unfold py_find. rewrite py_slice_from_app, string_length_app.
  destruct (Nat.leb_spec (String.length a) (String.length a + String.length r));
    [done | lia].
Qed.

Lemma py_find_0 (s sub : string) :
  py_find s sub 0
  = match find_idx sub s with
    | Some i => Z.of_nat i
    | None => (-1)%Z
    end.
Proof. exact (py_find_at "" s sub). Qed.

Lemma py_slice_mid (a b c : string) :
  py_slice (a +:+ b +:+ c) (String.length a) (String.length a + String.length b) = b.
Proof.
  unfold py_slice. replace (String.length a + String.length b - String.length a)
    with (String.length b) by lia.
  rewrite <- (Nat.add_0_r (String.length a)) at 1.
  by rewrite substring_app_r, substring_0_app.
Qed.

Lemma py_find_after (a p r sub : string) (n : nat) :
  n = String.length a + String.length p ->
  py_find (a +:+ p +:+ r) sub n
  = match find_idx sub r with
    | Some i => Z.of_nat (n + i)
    | None => (-1)%Z
    end.
Proof.
  intros ->. rewrite <- append_assoc_str, <- string_length_app, py_find_at.
  by rewrite string_length_app.
Qed.

Lemma py_in_find (sub s : string) :
  py_in sub s = negb (py_find s sub 0 =? -1)%Z.
Proof.
  rewrite py_find_0. unfold py_in.
  destruct (find_idx sub s); [|done]. by destruct (Z.eqb_spec (Z.of_nat n) (-1)); [lia|].
Qed.

Lemma Z_of_nat_eqb_m1 (n : nat) : (Z.of_nat n =? -1)%Z = false.
Proof. destruct (Z.eqb_spec (Z.of_nat n) (-1)); [lia | done]. Qed.

Lemma py_in_backtick_none (t b : string) :
  no_backtick b = true -> py_in (String "`"%char t) b = false.
Proof. intros Hb. unfold py_in. by rewrite find_idx_backtick_none. Qed.

(** The first backtick pattern of [a +:+ pat +:+ r] sits right after [a]. *)
Lemma find_first_backtick (t a r : string) :
  no_backtick a = true ->
  find_idx (String "`"%char t) (a +:+ String "`"%char t +:+ r)
  = Some (String.length a).
Proof.
  intros Ha. rewrite find_idx_backtick_skip by done.
  rewrite find_idx_app_self. cbn. f_equal. lia.
Qed.

Lemma py_find_first_backtick (t a r : string) :
  no_backtick a = true ->
  py_find (a +:+ String "`"%char t +:+ r) (String "`"%char t) 0
  = Z.of_nat (String.length a).
Proof. intros Ha. by rewrite py_find_0, find_first_backtick. Qed.

Definition not_backtick (c : Ascii.ascii) : bool :=
  if decide (c = "`"%char) then false else true.

Lemma no_backtick_spec (s : string) :
  no_backtick s = forallb not_backtick (String.list_ascii_of_string s).
Proof.
  induction s as [|c s IH]; [done |].
  unfold no_backtick, py_in in *. rewrite find_idx_cons, prefix_cons_cons.
  cbn [String.list_ascii_of_string forallb]. unfold not_backtick at 1.
  destruct (decide ("`"%char = c)) as [<-|Hc].
  - rewrite decide_True by done. by rewrite prefix_empty.
  - rewrite decide_False by congruence. rewrite <- IH.
    by destruct (find_idx "`" s).
Qed.

Lemma no_backtick_app (a b : string) :
  no_backtick (a +:+ b) = no_backtick a && no_backtick b.
Proof.
  by rewrite !no_backtick_spec, list_ascii_of_string_app, forallb_app.
Qed.

Lemma py_slice_empty (s : string) (n : nat) : py_slice s n n = "".
Proof.
  unfold py_slice. rewrite Nat.sub_diag. revert n.
  induction s as [|c s IH]; intros [|n]; cbn; auto.
Qed.

Lemma py_slice_from_at (x y : string) (n : nat) :
  n = String.length x -> py_slice_from (x +:+ y) n = y.
Proof. intros ->. apply py_slice_from_app. Qed.

Lemma py_slice_at (x y z : string) (i j : nat) :
  i = String.length x -> j = String.length x + String.length y ->
  py_slice (x +:+ y +:+ z) i j = y.
Proof. intros -> ->. apply py_slice_mid. Qed.

Lemma prefix_backtick_false (t x : string) :
  no_backtick x = true -> String.prefix (String "`"%char t) x = false.
Proof.
  destruct x as [|c x]; [done |]. intros [Hc _]%no_backtick_cons.
  rewrite prefix_cons_cons. by rewrite decide_False by congruence.
Qed.

Lemma append_nonempty (a : string) (x : Ascii.ascii) (y r : string) :
  String.eqb (a +:+ String x y +:+ r) "" = false.
Proof. destruct a; reflexivity. Qed.

(** Two backticks apart, or one alone, hold no fence ["```"]. *)
Lemma find_fence_none_two (a c b : string) :
  no_backtick a = true -> no_backtick c = true -> no_backtick b = true ->
  find_idx "```" (a +:+ "`" +:+ c +:+ "`" +:+ b) = None.
Proof.
  intros Ha Hc Hb. rewrite (find_idx_backtick_skip "``" a) by done.
  rewrite append_cons, append_empty_l, find_idx_cons.
  destruct c as [|ch c].
  - rewrite append_empty_l, append_cons, append_empty_l, prefix_cons_cons,
      decide_True, prefix_cons_cons, decide_True, prefix_backtick_false by done.
    rewrite find_idx_cons, prefix_cons_cons, decide_True,
      prefix_backtick_false, find_idx_backtick_none by done. done.
  - pose proof (no_backtick_cons _ _ Hc) as [Hch _].
    rewrite prefix_cons_cons, decide_True, append_cons, prefix_cons_cons,
      decide_False, <- append_cons by done.
    rewrite (find_idx_backtick_skip "``" (String ch c)) by done.
    rewrite append_cons, append_empty_l, find_idx_cons, prefix_cons_cons,
      decide_True, prefix_backtick_false, find_idx_backtick_none by done.
    done.
Qed.

Lemma find_fence_none_one (a b : string) :
  no_backtick a = true -> no_backtick b = true ->
  find_idx "```" (a +:+ "`" +:+ b) = None.
Proof.
  intros Ha Hb. rewrite (find_idx_backtick_skip "``" a) by done.
  rewrite append_cons, append_empty_l, find_idx_cons, prefix_cons_cons,
    decide_True, prefix_backtick_false, find_idx_backtick_none by done.
  done.
Qed.

Fixpoint after_last_slash (l acc : list Ascii.ascii) : list Ascii.ascii :=
  match l with
  | [] => acc
  | c :: l' => if Ascii.eqb c "/"%char then after_last_slash l' []
               else after_last_slash l' (acc ++ [c])
  end.

(** [os.path.basename(p)]: the part after the last ["/"]. *)
Definition py_basename (p : string) : string :=
  String.string_of_list_ascii (after_last_slash (String.list_ascii_of_string p) []).

#[global] Arguments py_strip : simpl never.
#[global] Arguments py_basename : simpl never.

(** ** [str.split(sep)] for a one-character separator

    The pieces between the occurrences of [sep], the empty ones
    included: ["a\n".split("\n")] is [["a"; ""]] and [""] splits into
    [[""]]. *)
Fixpoint split_on_aux (sep : Ascii.ascii) (l cur : list Ascii.ascii) : list string :=
  match l with
  | [] => [String.string_of_list_ascii (rev cur)]
  | c :: l' =>
      if Ascii.eqb c sep then String.string_of_list_ascii (rev cur) :: split_on_aux sep l' []
      else split_on_aux sep l' (c :: cur)
  end.

Definition py_split_on (sep : Ascii.ascii) (s : string) : list string :=
  split_on_aux sep (String.list_ascii_of_string s) [].

(** [sep.join] of the pieces, each followed by [sep]: what a loop
    that appends [line + sep] for each piece builds. *)
Definition join_after (sep : Ascii.ascii) (ls : list string) : string :=
  fold_right (fun l acc => l +:+ String sep acc) "" ls.

Lemma string_of_list_ascii_app (a b : list Ascii.ascii) :
  String.string_of_list_ascii (a ++ b)
  = String.string_of_list_ascii a +:+ String.string_of_list_ascii b.
Proof. induction a as [|c a IH]; simpl; [done | by rewrite IH]. Qed.

Lemma split_on_aux_app (sep : Ascii.ascii) (a b cur : list Ascii.ascii) :
  split_on_aux sep (a ++ sep :: b) cur = split_on_aux sep a cur ++ split_on_aux sep b [].
Proof.
  revert cur; induction a as [|c a IH]; intros cur; simpl.
  - by rewrite Ascii.eqb_refl.
  - destruct (Ascii.eqb c sep); simpl; by rewrite IH.
Qed.

(** Splitting at a separator splits the two sides apart. *)
Lemma py_split_on_app (sep : Ascii.ascii) (a b : string) :
  py_split_on sep (a +:+ String sep b) = py_split_on sep a ++ py_split_on sep b.
Proof.
  unfold py_split_on. rewrite list_ascii_of_string_app. apply split_on_aux_app.
Qed.

Lemma join_after_split_aux (sep : Ascii.ascii) (l cur : list Ascii.ascii) :
  join_after sep (split_on_aux sep l cur)
  = String.string_of_list_ascii (rev cur ++ l ++ [sep]).
Proof.
  revert cur; induction l as [|c l IH]; intros cur; simpl.
  - by rewrite string_of_list_ascii_app.
  - destruct (Ascii.eqb c sep) eqn:E; simpl.
    + apply Ascii.eqb_eq in E as ->. rewrite IH. simpl.
      rewrite !string_of_list_ascii_app. simpl. by rewrite !string_of_list_ascii_app.
    + rewrite IH. simpl. by rewrite <- app_assoc.
Qed.

(** Joining the pieces of a split, each followed by the separator,
    gives back the string with one separator more at its end. *)
Lemma join_after_split (sep : Ascii.ascii) (s : string) :
  join_after sep (py_split_on sep s) = s +:+ String sep "".
Proof.
  unfold py_split_on. rewrite join_after_split_aux. cbn [rev app].
  by rewrite string_of_list_ascii_app, string_of_list_ascii_inv.
Qed.

(** No piece of a split contains the separator. *)
Lemma split_on_aux_no_sep (sep : Ascii.ascii) (l cur : list Ascii.ascii) :
  ~ In sep cur ->
  Forall (fun p => ~ In sep (String.list_ascii_of_string p)) (split_on_aux sep l cur).
Proof.
  revert cur; induction l as [|c l IH]; intros cur Hc; simpl.
  - constructor; [|done]. rewrite list_ascii_of_string_inv. intros Hin; apply Hc; by apply in_rev.
  - destruct (Ascii.eqb c sep) eqn:E.
    + constructor; [rewrite list_ascii_of_string_inv; intros Hin; apply Hc; by apply in_rev|]. apply IH; intros [].
    + apply IH. intros [->|H]; [by rewrite Ascii.eqb_refl in E | done].
Qed.
