(* ===== verification/PyNum.v ===== *)
(** * Python's [int()], [float()] and [str()] on numbers

    The terminal client reads a model number with [int(choice)] and a
    temperature with [float(...)], and every client formats integers
    with [str()].  This file writes the three conversions the way
    CPython defines them on ASCII text: [int] and [float] strip the
    surrounding whitespace, take an optional sign and decimal digits
    in which single underscores may separate digits; [float] also
    takes a fraction, an exponent, and [inf], [infinity] and [nan] in
    any case.  A finite float is kept as the exact rational its text
    denotes: the rounding to a binary double is not modelled, only the
    overflow of values past the largest double to infinity.  The
    round trip [int(str(n)) = n] is proved at the end. *)

From S2P Require Import Prelude PyStr.
From Stdlib Require Import Ascii QArith.
Open Scope string_scope.
Open Scope list_scope.
Open Scope nat_scope.

(** ** [str(n)] *)

Definition digit_char (d : Z) : ascii := ascii_of_nat (48 + Z.to_nat d).

(** The decimal digits of [n >= 0], most significant first, in front
    of [acc]; [fuel] bounds the number of digits. *)
Fixpoint dec_digits (fuel : nat) (n : Z) (acc : list ascii) : list ascii :=
  match fuel with
  | O => digit_char n :: acc
  | S f =>
      if (n <? 10)%Z then digit_char n :: acc
      else dec_digits f (n / 10) (digit_char (n mod 10) :: acc)
  end.

Definition nat_fuel (n : Z) : nat := Z.to_nat (Z.log2 n).

(** [str(n)] for a Python [int]. *)
Definition py_str_int (z : Z) : string :=
  if (z <? 0)%Z then "-" +:+ String.string_of_list_ascii (dec_digits (nat_fuel (- z)) (- z) [])
  else String.string_of_list_ascii (dec_digits (nat_fuel z) z []).

(** ** [repr()] of a float

    CPython prints the shortest digit string that reads back as the
    same double, in fixed notation when the decimal point falls at
    most 16 places right and fewer than 4 places left of the first
    digit, and as [d.ddde+XX] otherwise.  A value written with at most
    15 significant digits reads back as itself, so its shortest digits
    are the digits of its exact decimal expansion, which is what this
    definition prints.  A rational whose expansion does not terminate
    does not arise from decimal text; it is cut after 17 digits. *)

(** How many times [b] divides [p], and what is left. *)
Fixpoint factor_count (fuel : nat) (p : Z) (b : Z) : nat * Z :=
  match fuel with
  | O => (O, p)
  | S f => if (p mod b =? 0)%Z then let '(k, r) := factor_count f (p / b) b in (S k, r)
           else (O, p)
  end.

(** The number of decimals of [n / d] when it terminates. *)
Definition dec_scale (d : positive) : option nat :=
  let '(a, r) := factor_count (Pos.size_nat d) (Zpos d) 2 in
  let '(b, r') := factor_count (Pos.size_nat d) r 5 in
  if (r' =? 1)%Z then Some (Nat.max a b) else None.

Fixpoint drop_zeros (l : list ascii) : list ascii :=
  match l with
  | c :: l' => if Ascii.eqb c "0" then drop_zeros l' else l
  | [] => []
  end.

Definition zeros (n : nat) : list ascii := repeat "0"%char n.

(** The significant digits of a positive [q] and the position of the
    decimal point: [q = 0.d1d2... * 10^decpt]. *)
Definition q_digits (q : Q) : list ascii * Z :=
  let n := Z.abs (Qnum q) in
  let d := Qden q in
  let k := match dec_scale d with Some k => k | None => 17 end in
  let big := (n * 10 ^ Z.of_nat k / Zpos d)%Z in
  let ds := dec_digits (nat_fuel big) big [] in
  (rev (drop_zeros (rev ds)), (Z.of_nat (length ds) - Z.of_nat k)%Z).

Definition repr_exponent (e : Z) : string :=
  let a := Z.abs e in
  (if (e <? 0)%Z then "-" else "+") +:+ (if (a <? 10)%Z then "0" else "") +:+ py_str_int a.

Definition py_repr_float (q : Q) : string :=
  let q' := Qred q in
  if (Qnum q' =? 0)%Z then "0.0" else
  let sign := if (Qnum q' <? 0)%Z then "-" else "" in
  let '(ds, decpt) := q_digits q' in
  let n := Z.of_nat (length ds) in
  let body :=
    if ((-4 <? decpt) && (decpt <=? 16))%Z then
      if (decpt <=? 0)%Z then "0." +:+ String.string_of_list_ascii (zeros (Z.to_nat (- decpt)) ++ ds)
      else if (n <=? decpt)%Z then
        String.string_of_list_ascii (ds ++ zeros (Z.to_nat (decpt - n))) +:+ ".0"
      else String.string_of_list_ascii (firstn (Z.to_nat decpt) ds) +:+ "." +:+
           String.string_of_list_ascii (skipn (Z.to_nat decpt) ds)
    else
      String.string_of_list_ascii (firstn 1 ds)
      +:+ (if (n <=? 1)%Z then "" else "." +:+ String.string_of_list_ascii (skipn 1 ds))
      +:+ "e" +:+ repr_exponent (decpt - 1) in
  sign +:+ body.

(** ** Decimal digits with underscores *)

Definition digit_val (c : ascii) : option Z :=
  let n := nat_of_ascii c in
  if (48 <=? n) && (n <=? 57) then Some (Z.of_nat (n - 48)) else None.

(** The longest prefix of [l] of the form [digit (["_"] digit)*] after
    [k] digits read so far, with the value [acc] of those: the value,
    the number of digits and the rest of [l]. *)
Fixpoint scan_digits (l : list ascii) (acc : Z) (k : nat) : Z * nat * list ascii :=
  match l with
  | [] => (acc, k, [])
  | c :: l' =>
      match digit_val c with
      | Some d => scan_digits l' (10 * acc + d)%Z (S k)
      | None =>
          if Ascii.eqb c "_" && negb (k =? 0) then
            match l' with
            | c' :: l'' =>
                match digit_val c' with
                | Some d => scan_digits l'' (10 * acc + d)%Z (S k)
                | None => (acc, k, l)
                end
            | [] => (acc, k, l)
            end
          else (acc, k, l)
      end
  end.

(** An optional sign. *)
Definition scan_sign (l : list ascii) : bool * list ascii :=
  match l with
  | c :: l' => if Ascii.eqb c "-" then (true, l')
               else if Ascii.eqb c "+" then (false, l') else (false, l)
  | [] => (false, [])
  end.

(** ** [int(s)] *)

Definition int_error (s : string) : exn :=
  PyExn "ValueError" ("invalid literal for int() with base 10: " +:+ py_repr_str s).

Definition py_int (s : string) : res Z :=
  let '(neg, l) := scan_sign (String.list_ascii_of_string (py_strip s)) in
  match scan_digits l 0 0 with
  | (v, S _, []) => Ok (if neg then - v else v)%Z
  | _ => Raise (int_error s)
  end.

(** ** [float(s)] *)

Inductive pyfloat : Type :=
| PFloat (q : Q)
| PInf (neg : bool)
| PNaN.

Definition float_error (s : string) : exn :=
  PyExn "ValueError" ("could not convert string to float: " +:+ py_repr_str s).

(** The value [m * 10^e] as a float: past the largest double
    ([(2^53 - 1) * 2^971]) by half an ulp or more it is infinite.  A
    value below [10^-330] is [0.0].  The tests on the number [nd] of
    digits of [m] decide the far cases without computing [10^e]. *)
Definition max_double_half : Z := (2 ^ 1024 - 2 ^ 970)%Z.

Definition decimal_value (neg : bool) (m : Z) (nd : nat) (e : Z) : pyfloat :=
  let sgn (q : Q) := if neg then Qopp q else q in
  if (m =? 0)%Z then PFloat 0
  else if (Z.of_nat nd + e - 1 >? 309)%Z then PInf neg
  else if (Z.of_nat nd + e <? -330)%Z then PFloat 0
  else
    let q := if (e >=? 0)%Z then inject_Z (m * 10 ^ e) else Qmake m (Z.to_pos (10 ^ (- e))) in
    if Qle_bool (inject_Z max_double_half) q then PInf neg else PFloat (sgn q).

Definition float_special (w : string) (neg : bool) : option pyfloat :=
  if String.eqb w "inf" || String.eqb w "infinity" then Some (PInf neg)
  else if String.eqb w "nan" then Some PNaN else None.

Definition py_float (s : string) : res pyfloat :=
  let '(neg, l) := scan_sign (String.list_ascii_of_string (py_strip s)) in
  match float_special (py_lower (String.string_of_list_ascii l)) neg with
  | Some f => Ok f
  | None =>
      let '(ip, ni, r1) := scan_digits l 0 0 in
      let '(m, nf, r2) :=
        match r1 with
        | c :: r => if Ascii.eqb c "." then scan_digits r ip 0 else (ip, 0, r1)
        | [] => (ip, 0, [])
        end in
      let exp :=
        match r2 with
        | [] => Some 0%Z
        | c :: r3 =>
            if Ascii.eqb c "e" || Ascii.eqb c "E" then
              let '(eneg, r4) := scan_sign r3 in
              match scan_digits r4 0 0 with
              | (ev, S _, []) => Some (if eneg then - ev else ev)%Z
              | _ => None
              end
            else None
        end in
      match exp with
      | Some ev =>
          if (ni + nf =? 0) then Raise (float_error s)
          else Ok (decimal_value neg m (if (m =? 0)%Z then 1 else String.length (String.string_of_list_ascii (dec_digits (nat_fuel m) m []))) (ev - Z.of_nat nf))
      | None => Raise (float_error s)
      end
  end.

(** ** [int(str(n)) = n] *)

Definition is_digit (c : ascii) : Prop := exists d, digit_val c = Some d.

Definition digits_value (l : list ascii) (a : Z) : Z :=
  fold_left (fun a c => match digit_val c with Some d => 10 * a + d | None => a end)%Z l a.

Lemma digit_val_char (d : Z) : (0 <= d < 10)%Z -> digit_val (digit_char d) = Some d.
Proof.
  intros Hd. unfold digit_val, digit_char.
  rewrite nat_ascii_embedding by lia.
  replace (48 <=? 48 + Z.to_nat d) with true by (symmetry; apply Nat.leb_le; lia).
  replace (48 + Z.to_nat d <=? 57) with true by (symmetry; apply Nat.leb_le; lia).
  cbn. f_equal. lia.
Qed.

Lemma scan_digits_app (l r : list ascii) (a : Z) (k : nat) :
  Forall is_digit l ->
  scan_digits (l ++ r) a k = scan_digits r (digits_value l a) (k + length l).
Proof.
  intros Hl. revert a k. induction Hl as [|c l [d Hd] _ IH]; intros a k.
  - by rewrite Nat.add_0_r.
  - cbn -[digit_val]. rewrite Hd, IH. f_equal. lia.
Qed.

Lemma digits_value_snoc (l : list ascii) (c : ascii) (a d : Z) :
  digit_val c = Some d -> digits_value (l ++ [c]) a = (10 * digits_value l a + d)%Z.
Proof. intros Hd. unfold digits_value. rewrite fold_left_app. cbn -[digit_val]. by rewrite Hd. Qed.

Lemma dec_digits_spec (f : nat) (n : Z) (acc : list ascii) :
  (0 <= n < 10 ^ Z.of_nat (S f))%Z ->
  exists ds, dec_digits f n acc = ds ++ acc /\ ds <> [] /\ Forall is_digit ds /\
             forall a, digits_value ds a = (a * 10 ^ Z.of_nat (length ds) + n)%Z.
Proof.
  revert n acc. induction f as [|f IH]; intros n acc Hn.
  - exists [digit_char n]. split_and!; [done | done | |].
    + constructor; [| done]. exists n. apply digit_val_char. lia.
    + intros a. unfold digits_value. cbn -[digit_val]. rewrite digit_val_char by lia. lia.
  - cbn [dec_digits]. destruct (Z.ltb_spec n 10) as [Hlt|Hge].
    + exists [digit_char n]. split_and!; [done | done | |].
      * constructor; [| done]. exists n. apply digit_val_char. lia.
      * intros a. unfold digits_value. cbn -[digit_val]. rewrite digit_val_char by lia. lia.
    + destruct (IH (n / 10)%Z (digit_char (n mod 10)%Z :: acc)) as (ds & Hds & Hne & Hall & Hv).
      { split; [apply Z.div_pos; lia |].
        apply Z.div_lt_upper_bound; [lia |]. rewrite <- Z.pow_succ_r by lia. lia. }
      exists (ds ++ [digit_char (n mod 10)%Z]). rewrite Hds, <- app_assoc. split_and!; [done | | |].
      * by destruct ds.
      * apply Forall_app. split; [done |]. constructor; [| done].
        exists (n mod 10)%Z. apply digit_val_char. apply Z.mod_pos_bound. lia.
      * intros a. rewrite (digits_value_snoc _ _ _ (n mod 10)%Z)
          by (apply digit_val_char, Z.mod_pos_bound; lia).
        rewrite Hv, length_app, Nat2Z.inj_add, Z.pow_add_r by lia. cbn.
        pose proof (Z.div_mod n 10). lia.
Qed.

Lemma nat_fuel_enough (n : Z) : (0 <= n)%Z -> (n < 10 ^ Z.of_nat (S (nat_fuel n)))%Z.
Proof.
  intros Hn. unfold nat_fuel. rewrite Nat2Z.inj_succ, Z2Nat.id by apply Z.log2_nonneg.
  destruct (Z.eq_dec n 0) as [->|Hn0]; [cbn; lia |].
  destruct (Z.log2_spec n) as [_ Hlt]; [lia |].
  eapply Z.lt_le_trans; [exact Hlt |].
  apply Z.pow_le_mono_l. split; [lia | lia].
Qed.

Lemma digit_not_space (c : ascii) : is_digit c -> py_isspace c = false.
Proof.
  intros [d Hd]. unfold digit_val in Hd. unfold py_isspace.
  destruct ((48 <=? nat_of_ascii c) && (nat_of_ascii c <=? 57)) eqn:E; [| done].
  apply andb_true_iff in E as [E1 E2]. apply Nat.leb_le in E1, E2.
  replace (nat_of_ascii c <=? 13) with false by (symmetry; apply Nat.leb_gt; lia).
  replace (nat_of_ascii c <=? 32) with false by (symmetry; apply Nat.leb_gt; lia).
  by rewrite !andb_false_r.
Qed.

Lemma dec_digits_of (n : Z) :
  (0 <= n)%Z ->
  exists ds, dec_digits (nat_fuel n) n [] = ds /\ ds <> [] /\ Forall is_digit ds /\
             digits_value ds 0 = n.
Proof.
  intros Hn. destruct (dec_digits_spec (nat_fuel n) n [])
    as (ds & Hds & Hne & Hall & Hv); [split; [done | by apply nat_fuel_enough] |].
  exists ds. rewrite Hds, app_nil_r. split_and!; [done .. |]. rewrite Hv. lia.
Qed.

Lemma scan_sign_digits (ds : list ascii) :
  ds <> [] -> Forall is_digit ds -> scan_sign ds = (false, ds).
Proof.
  intros Hne Hall. destruct ds as [|c ds]; [done |]. inversion Hall as [|? ? [d Hd] _]; subst.
  unfold scan_sign. destruct (Ascii.eqb_spec c "-") as [->|]; [discriminate Hd |].
  destruct (Ascii.eqb_spec c "+") as [->|]; [discriminate Hd | done].
Qed.

Lemma scan_digits_all (ds : list ascii) :
  ds <> [] -> Forall is_digit ds ->
  scan_digits ds 0 0 = (digits_value ds 0, length ds, []).
Proof.
  intros Hne Hall. rewrite <- (app_nil_r ds) at 1. by rewrite scan_digits_app.
Qed.

(** [int(str(n)) = n] for every integer. *)
Lemma py_int_str (z : Z) : py_int (py_str_int z) = Ok z.
Proof.
  unfold py_int, py_str_int. destruct (Z.ltb_spec z 0) as [Hz|Hz].
  - destruct (dec_digits_of (- z)) as (ds & -> & Hne & Hall & Hv); [lia |].
    rewrite py_strip_nospace; cycle 1.
    { rewrite list_ascii_of_string_app, list_ascii_of_string_inv. constructor; [done |].
      eapply Forall_impl; [exact Hall | apply digit_not_space]. }
    rewrite list_ascii_of_string_app, list_ascii_of_string_inv. cbn -[scan_digits].
    rewrite scan_digits_all by done. destruct ds; [done |]. cbn -[digits_value].
    f_equal. lia.
  - destruct (dec_digits_of z) as (ds & -> & Hne & Hall & Hv); [lia |].
    rewrite py_strip_nospace, list_ascii_of_string_inv;
      [| rewrite list_ascii_of_string_inv;
         eapply Forall_impl; [exact Hall | apply digit_not_space]].
    rewrite scan_sign_digits, scan_digits_all by done.
    destruct ds; [done |]. cbn -[digits_value]. by rewrite Hv.
Qed.

#[global] Arguments py_str_int : simpl never.
