(* ===== verification/Json.v ===== *)
(** * Decoded JSON values as the Python clients handle them

    [response.json()] and [json.load] give the clients Python values:
    dicts, lists, strings, numbers, booleans and [None].  The clients
    test them for truth ([if data.get("message") and ...]), read them
    with [d.get(k)] and [d[k]], and format them into messages with
    f-strings, which call [str()].  This file models those values and
    the four operations.  A dict keeps its keys in insertion order; a
    key that a JSON text repeats keeps its last value, as [json.loads]
    does.  Floats are rationals. *)

From S2P Require Import Prelude PyStr PyNum.
From Stdlib Require Import Ascii QArith.
Open Scope string_scope.
Open Scope list_scope.
Open Scope nat_scope.

#[local] Set Warnings "-register-all".
Inductive json : Type :=
| JNull
| JBool (b : bool)
| JInt (z : Z)
| JFloat (q : Q)
| JStr (s : string)
| JArr (l : list json)
| JObj (kv : list (string * json)).

(** A dict literal with string values, such as [{"role": "user",
    "content": message}]. *)
Definition jstr_obj (kv : list (string * string)) : json :=
  JObj (map (fun '(k, v) => (k, JStr v)) kv).

(** [bool(v)]: empty containers, [""], [0], [0.0], [False] and [None]
    are false. *)
Definition py_truthy (v : json) : bool :=
  match v with
  | JNull => false
  | JBool b => b
  | JInt z => negb (Z.eqb z 0)
  | JFloat q => negb (Qeq_bool q 0)
  | JStr s => negb (String.eqb s "")
  | JArr l => negb (length l =? 0)
  | JObj kv => negb (length kv =? 0)
  end.

(** The name [type(v).__name__] that Python's error messages quote. *)
Definition py_type_name (v : json) : string :=
  match v with
  | JNull => "NoneType"
  | JBool _ => "bool"
  | JInt _ => "int"
  | JFloat _ => "float"
  | JStr _ => "str"
  | JArr _ => "list"
  | JObj _ => "dict"
  end.

(** The value bound to [k] in a dict, the last binding winning. *)
Fixpoint assoc_last (kv : list (string * json)) (k : string) : option json :=
  match kv with
  | [] => None
  | (k', v) :: kv' =>
      match assoc_last kv' k with
      | Some w => Some w
      | None => if String.eqb k' k then Some v else None
      end
  end.

(** [d.get(k, default)]: only a dict has [get]; other values raise
    [AttributeError]. *)
Definition py_get_default (d : json) (k : string) (default : json) : res json :=
  match d with
  | JObj kv =>
      match assoc_last kv k with Some v => Ok v | None => Ok default end
  | _ => Raise (PyExn "AttributeError"
                  ("'" +:+ py_type_name d +:+ "' object has no attribute 'get'"))
  end.

(** [d.get(k)], whose default is [None]. *)
Definition py_get (d : json) (k : string) : res json := py_get_default d k JNull.

(** [k in d] for a dict [d]; for a list it tests the elements. *)
Definition py_has_key (d : json) (k : string) : bool :=
  match d with
  | JObj kv => if assoc_last kv k is Some _ then true else false
  | JArr l => existsb (fun v => if v is JStr s then String.eqb s k else false) l
  | JStr s => py_in k s
  | _ => false
  end.

(** [k in d] as Python evaluates it: [TypeError] for a value that is
    not a container. *)
Definition py_contains (d : json) (k : string) : res bool :=
  match d with
  | JObj _ | JArr _ | JStr _ => Ok (py_has_key d k)
  | _ => Raise (PyExn "TypeError"
                  ("argument of type '" +:+ py_type_name d +:+ "' is not iterable"))
  end.

(** [d[k]] with a string key: [KeyError] for a missing key of a dict,
    [TypeError] for a list, a string or a scalar. *)
Definition py_getitem (d : json) (k : string) : res json :=
  match d with
  | JObj kv =>
      match assoc_last kv k with
      | Some v => Ok v
      | None => Raise (PyExn "KeyError" ("'" +:+ k +:+ "'"))
      end
  | JArr _ => Raise (PyExn "TypeError" "list indices must be integers or slices, not str")
  | JStr _ => Raise (PyExn "TypeError" "string indices must be integers, not 'str'")
  | _ => Raise (PyExn "TypeError"
                  ("'" +:+ py_type_name d +:+ "' object is not subscriptable"))
  end.

(** ** [repr()] and [str()] *)

Fixpoint py_repr (v : json) : string :=
  match v with
  | JNull => "None"
  | JBool true => "True"
  | JBool false => "False"
  | JInt z => py_str_int z
  | JFloat q => py_repr_float q
  | JStr s => py_repr_str s
  | JArr l => "[" +:+ String.concat ", " (map py_repr l) +:+ "]"
  | JObj kv =>
      "{" +:+ String.concat ", "
                (map (fun '(k, x) => py_repr_str k +:+ ": " +:+ py_repr x) kv)
      +:+ "}"
  end.

(** [str(v)]: a string is itself, anything else its [repr]. *)
Definition py_str (v : json) : string :=
  match v with JStr s => s | _ => py_repr v end.

(** [for x in v]: the items a list, dict (its keys) or string (its
    characters) yields; other values are not iterable. *)
Definition py_iter (v : json) : res (list json) :=
  match v with
  | JArr l => Ok l
  | JObj kv => Ok (map (fun '(k, _) => JStr k) kv)
  | JStr s => Ok (map (fun c => JStr (String c "")) (String.list_ascii_of_string s))
  | _ => Raise (PyExn "TypeError" ("'" +:+ py_type_name v +:+ "' object is not iterable"))
  end.

(** [l.append(x)]: only a list has [append]. *)
Definition py_append (l : json) (x : json) : res json :=
  match l with
  | JArr xs => Ok (JArr (xs ++ [x]))
  | _ => Raise (PyExn "AttributeError"
                  ("'" +:+ py_type_name l +:+ "' object has no attribute 'append'"))
  end.

(** [reversed(v)]. *)
Definition py_reversed (v : json) : res (list json) :=
  match v with
  | JArr _ | JObj _ | JStr _ =>
      match py_iter v with Ok l => Ok (rev l) | Raise e => Raise e end
  | _ => Raise (PyExn "TypeError" ("'" +:+ py_type_name v +:+ "' object is not reversible"))
  end.

(** [[f(x) for x in xs]] where [f] may raise. *)
Fixpoint res_map {A B} (f : A -> res B) (xs : list A) : res (list B) :=
  match xs with
  | [] => Ok []
  | x :: xs' =>
      match f x with
      | Raise e => Raise e
      | Ok y => match res_map f xs' with Raise e => Raise e | Ok ys => Ok (y :: ys) end
      end
  end.

(** [a == b]: numbers compare by value across [bool], [int] and
    [float]; dicts compare their bindings whatever their order (the
    dicts [json.load] builds have no repeated key). *)
Definition py_num (v : json) : option Q :=
  match v with
  | JBool b => Some (if b then 1 else 0)%Q
  | JInt z => Some (inject_Z z)
  | JFloat q => Some q
  | _ => None
  end.

Fixpoint py_eq (a b : json) : bool :=
  match a, b with
  | JNull, JNull => true
  | JStr x, JStr y => String.eqb x y
  | JArr l1, JArr l2 =>
      (fix go (l1 l2 : list json) : bool :=
         match l1, l2 with
         | [], [] => true
         | x :: r1, y :: r2 => py_eq x y && go r1 r2
         | _, _ => false
         end) l1 l2
  | JObj kv1, JObj kv2 =>
      (length kv1 =? length kv2) &&
      (fix go (kv : list (string * json)) : bool :=
         match kv with
         | [] => true
         | (k, v) :: r =>
             match assoc_last kv2 k with
             | Some w => py_eq v w && go r
             | None => false
             end
         end) kv1
  | _, _ =>
      match py_num a, py_num b with
      | Some x, Some y => Qeq_bool x y
      | _, _ => false
      end
  end.

(** [x in l] for a list [l]. *)
Definition py_in_list (x : json) (l : list json) : bool := existsb (py_eq x) l.

(** ** Lemmas *)

Lemma assoc_last_app (kv1 kv2 : list (string * json)) (k : string) :
  assoc_last (kv1 ++ kv2) k
  = match assoc_last kv2 k with Some v => Some v | None => assoc_last kv1 k end.
Proof.
  induction kv1 as [|[k' v] kv1 IH]; simpl; [by destruct (assoc_last kv2 k) |].
  rewrite IH. by destruct (assoc_last kv2 k).
Qed.

Lemma py_get_obj (kv : list (string * json)) (k : string) :
  py_get (JObj kv) k = Ok (match assoc_last kv k with Some v => v | None => JNull end).
Proof. unfold py_get, py_get_default. by destruct (assoc_last kv k). Qed.
