(* ===== verification/Protocol.v ===== *)
(** * The exchange with the chat service

    All the GUI clients and the terminal client build the same request
    body and read the reply the same way:

    - the payload [{"model": m, "messages": [...], "stream": False,
      "options": {"temperature": t, "num_predict": n}}];
    - the test [if data.get("message") and data["message"].get("content")]
      and then [content = data["message"]["content"]].

    This file holds that shared part: the message dicts, the payload
    record, [read_reply], and the outcomes of one HTTP call that the
    clients distinguish.  It also states what the specification asks
    of a reply (its cases [EmptyModelResponse] and [MalformedResponse]),
    and how the code's single test relates to those cases. *)

From S2P Require Import Prelude PyStr Json.
From Stdlib Require Import QArith.
Open Scope string_scope.
Open Scope list_scope.
Open Scope nat_scope.

(** [{"role": role, "content": content}]. *)
Definition chat_msg (role : string) (content : json) : json :=
  JObj [("role", JStr role); ("content", content)].

(** The body posted to [{base}/chat].  [stream] is always [False]. *)
Record payload : Type := Payload {
  p_model : string;
  p_messages : list json;
  p_temperature : json;
  p_num_predict : json
}.

(** What one [requests.get] or [requests.post] gives the client: a
    response with its status code, its body as text
    ([response.text]) and as [response.json()] decodes it (or the
    exception decoding raises), or the exception raised by the
    transport (connection refused, timeout, ...). *)
Inductive http_result : Type :=
| HttpResp (status : Z) (text : string) (body : res json)
| HttpExn (e : exn).

(** The clients' reading of a decoded 200 reply:
    [Ok (Some content)] when [data.get("message")] and
    [data["message"].get("content")] are both true, [Ok None] when one
    is false, and the [AttributeError] raised when [data] or
    [data["message"]] is not a dict. *)
Definition read_reply (data : json) : res (option json) :=
  match py_get data "message" with
  | Raise e => Raise e
  | Ok m =>
      if py_truthy m then
        match py_get m "content" with
        | Raise e => Raise e
        | Ok c => if py_truthy c then Ok (Some c) else Ok None
        end
      else Ok None
  end.

(** [except requests.exceptions.Timeout]: the class and its two
    subclasses. *)
Definition is_timeout (e : exn) : bool :=
  match e with
  | PyExn cls _ => String.eqb cls "Timeout" || String.eqb cls "ConnectTimeout"
                   || String.eqb cls "ReadTimeout"
  end.

(** ** The specification's reading of a reply (spec section 4.1)

    The specification separates a reply with an empty content
    ([EmptyModelResponse]) from one with no [message] key at all
    ([MalformedResponse]). *)
Inductive spec_reply : Type :=
| SpecContent (c : string)
| SpecEmptyModelResponse
| SpecMalformedResponse.

Definition spec_apply_response (data : json) : spec_reply :=
  match data with
  | JObj kv =>
      match assoc_last kv "message" with
      | None => SpecMalformedResponse
      | Some m =>
          match m with
          | JObj kv' =>
              match assoc_last kv' "content" with
              | Some (JStr c) => if String.eqb c "" then SpecEmptyModelResponse
                                 else SpecContent c
              | _ => SpecEmptyModelResponse
              end
          | _ => SpecMalformedResponse
          end
      end
  | _ => SpecMalformedResponse
  end.

(** ** The code's reading against the specification's *)

(** C12: whenever the specification reads a content [c] from a reply,
    the clients' test reads the same content: the code refines the
    specification on the replies it accepts. *)
Theorem read_reply_refines_spec (data : json) (c : string) :
  spec_apply_response data = SpecContent c -> read_reply data = Ok (Some (JStr c)).
Proof.
  unfold spec_apply_response, read_reply. destruct data as [| | | | | |kv]; try discriminate.
  rewrite py_get_obj. destruct (assoc_last kv "message") as [m|]; [| discriminate].
  destruct m as [| | | | | |kv']; try discriminate.
  rewrite py_get_obj.
  destruct (assoc_last kv' "content") as [[| | | |c'| |]|] eqn:Ec; try discriminate.
  destruct (String.eqb_spec c' "") as [->|Hc]; [discriminate |].
  intros [= ->]. destruct kv'; [discriminate Ec |].
  cbn. apply String.eqb_neq in Hc. by rewrite Hc.
Qed.

Lemma read_reply_refines_spec_witness :
  read_reply (JObj [("message", JObj [("role", JStr "assistant"); ("content", JStr "Hi")])])
  = Ok (Some (JStr "Hi")).
Proof. apply read_reply_refines_spec. reflexivity. Defined.

(** C13 (divergence from the specification): a dict with no
    ["message"] key, which the specification calls
    [MalformedResponse], is read as an empty reply; a [message] whose
    content is a true value that is not a string, which the
    specification calls [EmptyModelResponse], is accepted as the
    content; and a reply that is not a dict raises [AttributeError]. *)
Theorem read_reply_spec_divergence (kv : list (string * json)) (v : json) :
  assoc_last kv "message" = None -> py_truthy v = true ->
  (forall s, v <> JStr s) ->
  spec_apply_response (JObj kv) = SpecMalformedResponse /\ read_reply (JObj kv) = Ok None /\
  spec_apply_response (JObj [("message", JObj [("content", v)])]) = SpecEmptyModelResponse /\
  read_reply (JObj [("message", JObj [("content", v)])]) = Ok (Some v) /\
  (forall arr, exists e, read_reply (JArr arr) = Raise e).
Proof.
  intros Hkv Hv Hs. unfold spec_apply_response, read_reply. rewrite !py_get_obj, Hkv.
  split_and!; [done | done | | | by eexists].
  - cbn. destruct v; try done. by destruct (Hs s).
  - cbn. by rewrite Hv.
Qed.

Lemma read_reply_spec_divergence_witness :
  spec_apply_response (JObj [("done", JBool true)]) = SpecMalformedResponse /\
  read_reply (JObj [("done", JBool true)]) = Ok None /\
  spec_apply_response (JObj [("message", JObj [("content", JInt 5)])]) = SpecEmptyModelResponse /\
  read_reply (JObj [("message", JObj [("content", JInt 5)])]) = Ok (Some (JInt 5)) /\
  (forall arr, exists e, read_reply (JArr arr) = Raise e).
Proof.
  apply (read_reply_spec_divergence [("done", JBool true)] (JInt 5));
    [reflexivity | reflexivity | intros s H; discriminate H].
Defined.
