(* ===== verification/TkRender.v ===== *)
(** * Rendering one chat message in the Tkinter client

    [OllamaChatGUI.add_to_chat] (src/gui_app/ollama_gui.py, lines
    253-324) writes a message into the [chat_display] text widget as a
    sequence of inserts, each with an optional tag.  For a user or
    assistant message it first cuts out fenced code blocks (the loop
    at lines 274-294), then inline code spans (the loop at lines
    299-316).  This file models the two loops as [Fixpoint]s with fuel.
    It proves that [length message + 1] units of fuel always suffice,
    computes the inserts for the common shapes of message, and shows
    that a message with an unmatched backtick is inserted twice. *)

From S2P Require Import Prelude PyStr.
From Stdlib Require Import Ascii.
Open Scope string_scope.
Open Scope list_scope.
Open Scope nat_scope.

(** One [chat_display.insert(tk.END, text[, tag])]. *)
Record segment : Type := Seg { seg_text : string; seg_tag : option string }.

Definition ins (t : string) : segment := Seg t None.
Definition ins_tag (t tag : string) : segment := Seg t (Some tag).

(** Lines 299-316: [while "`" in remaining_text: ...].  The result is
    the list of inserts and the value of [remaining_text] at the end
    of the loop, which line 319 inserts once more when it is not empty.
    On a missing closing backtick the loop inserts [remaining_text]
    and breaks without changing it (lines 303-305). *)
Fixpoint inline_loop (fuel : nat) (rem : string)
  : option (list segment * string) :=
  match fuel with
  | 0 => None
  | S f =>
      if py_in "`" rem then
        let st := Z.to_nat (py_find rem "`" 0) in
        let en := py_find rem "`" (st + 1) in
        if (en =? -1)%Z then Some ([ins rem], rem)
        else
          let pre := if 0 <? st then [ins (py_slice rem 0 st)] else [] in
          let inline_code := py_slice rem (st + 1) (Z.to_nat en) in
          match inline_loop f (py_slice_from rem (Z.to_nat en + 1)) with
          | Some (segs, rem') => Some ((pre ++ [ins_tag inline_code "code"] ++ segs)%list, rem')
          | None => None
          end
      else Some ([], rem)
  end.

(** Lines 274-294: [while "```" in remaining_text: ...].  On a missing
    closing fence the loop inserts [remaining_text[start_idx:]] and
    breaks, again leaving [remaining_text] as it was. *)
Fixpoint fence_loop (fuel : nat) (rem : string)
  : option (list segment * string) :=
  match fuel with
  | 0 => None
  | S f =>
      if py_in "```" rem then
        let st := Z.to_nat (py_find rem "```" 0) in
        let pre := if 0 <? st then [ins (py_slice rem 0 st)] else [] in
        let en := py_find rem "```" (st + 3) in
        if (en =? -1)%Z then Some ((pre ++ [ins (py_slice_from rem st)])%list, rem)
        else
          let code_block := py_strip (py_slice rem (st + 3) (Z.to_nat en)) in
          match fence_loop f (py_slice_from rem (Z.to_nat en + 3)) with
          | Some (segs, rem') =>
              Some ((pre ++ [ins nl; ins_tag code_block "code"; ins nl]
                     ++ segs)%list, rem')
          | None => None
          end
      else Some ([], rem)
  end.

(** Lines 272-322: the body inserted after the role prefix. *)
Definition render_body_fuel (fuel : nat) (message : string)
  : option (list segment) :=
  match fence_loop fuel message with
  | None => None
  | Some (s1, rem) =>
      if String.eqb rem "" then Some (s1 ++ [ins nl2])%list
      else
        match inline_loop fuel rem with
        | None => None
        | Some (s2, rem') =>
            Some (s1 ++ s2 ++ (if String.eqb rem' "" then [] else [ins rem'])
                     ++ [ins nl2])%list
        end
  end.

(** The fuel the body is run with: one more than the message length. *)
Definition render_body (message : string) : list segment :=
  match render_body_fuel (S (String.length message)) message with
  | Some l => l
  | None => []
  end.

(** [if 0 < len(s)] on a prefix is [if s]. *)
Definition ins_nonempty (t : string) : list segment :=
  if String.eqb t "" then [] else [ins t].

(** ** One turn of each loop *)

Lemma fence_loop_absent (f : nat) (rem : string) :
  0 < f -> py_in "```" rem = false -> fence_loop f rem = Some ([], rem).
Proof. destruct f; [lia |]. intros _ H. cbn [fence_loop]. by rewrite H. Qed.

Lemma inline_loop_absent (f : nat) (rem : string) :
  0 < f -> py_in "`" rem = false -> inline_loop f rem = Some ([], rem).
Proof. destruct f; [lia |]. intros _ H. cbn [inline_loop]. by rewrite H. Qed.

Lemma fence_loop_unclosed (f : nat) (rem : string) (st : nat) :
  py_find rem "```" 0 = Z.of_nat st ->
  py_find rem "```" (st + 3) = (-1)%Z ->
  fence_loop (S f) rem
  = Some (((if 0 <? st then [ins (py_slice rem 0 st)] else [])
           ++ [ins (py_slice_from rem st)])%list, rem).
Proof.
  intros H1 H2. cbn [fence_loop].
  by rewrite py_in_find, H1, Z_of_nat_eqb_m1, Nat2Z.id, H2.
Qed.

Lemma fence_loop_found (f : nat) (rem : string) (st en : nat) :
  py_find rem "```" 0 = Z.of_nat st ->
  py_find rem "```" (st + 3) = Z.of_nat en ->
  fence_loop (S f) rem
  = match fence_loop f (py_slice_from rem (en + 3)) with
    | Some (segs, rem') =>
        Some (((if 0 <? st then [ins (py_slice rem 0 st)] else [])
               ++ [ins nl; ins_tag (py_strip (py_slice rem (st + 3) en)) "code";
                   ins nl] ++ segs)%list, rem')
    | None => None
    end.
Proof.
  intros H1 H2. cbn [fence_loop].
  by rewrite py_in_find, H1, Z_of_nat_eqb_m1, Nat2Z.id, H2, Z_of_nat_eqb_m1, Nat2Z.id.
Qed.

Lemma inline_loop_unclosed (f : nat) (rem : string) (st : nat) :
  py_find rem "`" 0 = Z.of_nat st ->
  py_find rem "`" (st + 1) = (-1)%Z ->
  inline_loop (S f) rem = Some ([ins rem], rem).
Proof.
  intros H1 H2. cbn [inline_loop].
  by rewrite py_in_find, H1, Z_of_nat_eqb_m1, Nat2Z.id, H2.
Qed.

Lemma inline_loop_found (f : nat) (rem : string) (st en : nat) :
  py_find rem "`" 0 = Z.of_nat st ->
  py_find rem "`" (st + 1) = Z.of_nat en ->
  inline_loop (S f) rem
  = match inline_loop f (py_slice_from rem (en + 1)) with
    | Some (segs, rem') =>
        Some (((if 0 <? st then [ins (py_slice rem 0 st)] else [])
               ++ [ins_tag (py_slice rem (st + 1) en) "code"] ++ segs)%list, rem')
    | None => None
    end.
Proof.
  intros H1 H2. cbn [inline_loop].
  by rewrite py_in_find, H1, Z_of_nat_eqb_m1, Nat2Z.id, H2, Z_of_nat_eqb_m1, Nat2Z.id.
Qed.

(** ** Fuel

    Each turn of either loop continues on a strict suffix of
    [remaining_text], so fuel above the length of the text is never
    exhausted and the result does not depend on how much there is. *)

Lemma fence_loop_fuel (f1 f2 : nat) (rem : string) :
  String.length rem < f1 -> String.length rem < f2 ->
  fence_loop f1 rem = fence_loop f2 rem /\ fence_loop f1 rem <> None.
Proof.
  revert f2 rem. induction f1 as [|f1 IH]; intros [|f2] rem H1 H2; try lia.
  cbn [fence_loop]. destruct (py_in "```" rem); [|done].
  destruct (py_find_cases rem "```" (Z.to_nat (py_find rem "```" 0) + 3))
    as [E|(i & E & _ & Hi)]; rewrite E; [done |].
  rewrite Z_of_nat_eqb_m1, Nat2Z.id.
  destruct (IH f2 (py_slice_from rem (i + 3))) as [-> Hn];
    [rewrite py_slice_from_length; cbn in Hi; lia .. |].
  split; [done |]. by destruct (fence_loop f2 _) as [[]|].
Qed.

Lemma inline_loop_fuel (f1 f2 : nat) (rem : string) :
  String.length rem < f1 -> String.length rem < f2 ->
  inline_loop f1 rem = inline_loop f2 rem /\ inline_loop f1 rem <> None.
Proof.
  revert f2 rem. induction f1 as [|f1 IH]; intros [|f2] rem H1 H2; try lia.
  cbn [inline_loop]. destruct (py_in "`" rem); [|done].
  destruct (py_find_cases rem "`" (Z.to_nat (py_find rem "`" 0) + 1))
    as [E|(i & E & _ & Hi)]; rewrite E; [done |].
  rewrite Z_of_nat_eqb_m1, Nat2Z.id.
  destruct (IH f2 (py_slice_from rem (i + 1))) as [-> Hn];
    [rewrite py_slice_from_length; cbn in Hi; lia .. |].
  split; [done |]. by destruct (inline_loop f2 _) as [[]|].
Qed.

Lemma fence_loop_rem_length (f : nat) (rem rem' : string) (segs : list segment) :
  fence_loop f rem = Some (segs, rem') -> String.length rem' <= String.length rem.
Proof.
  revert rem segs. induction f as [|f IH]; intros rem segs; [discriminate |].
  cbn [fence_loop]. destruct (py_in "```" rem); [| by intros [= _ <-]].
  destruct (py_find_cases rem "```" (Z.to_nat (py_find rem "```" 0) + 3))
    as [E|(i & E & _ & Hi)]; rewrite E; [by intros [= _ <-] |].
  rewrite Z_of_nat_eqb_m1, Nat2Z.id.
  destruct (fence_loop f _) as [[s r]|] eqn:Ef; [|discriminate].
  intros [= _ <-]. apply IH in Ef. rewrite py_slice_from_length in Ef. lia.
Qed.

(** C14: the body does not depend on the fuel once there is more of it
    than characters in the message: the two loops terminate. *)
Lemma render_body_fuel_enough (f : nat) (message : string) :
  String.length message < f ->
  render_body_fuel f message = Some (render_body message).
Proof.
  intros Hf. unfold render_body, render_body_fuel.
  destruct (fence_loop_fuel f (S (String.length message)) message)
    as [<- Hn]; [lia .. |].
  destruct (fence_loop f message) as [[s1 rem]|] eqn:E1; [|done].
  apply fence_loop_rem_length in E1.
  destruct (String.eqb rem ""); [done |].
  destruct (inline_loop_fuel f (S (String.length message)) rem)
    as [<- Hn2]; [lia .. |].
  by destruct (inline_loop f rem) as [[s2 rem']|].
Qed.

Lemma render_body_fuel_enough_witness :
  render_body_fuel 20 "use `x` here" = Some (render_body "use `x` here").
Proof. apply render_body_fuel_enough. cbn. lia. Defined.


Lemma render_body_by_fuel (message : string) (l : list segment) :
  render_body_fuel (S (S (String.length message))) message = Some l ->
  render_body message = l.
Proof.
  intros H. rewrite render_body_fuel_enough in H by lia. congruence.
Qed.

Lemma pre_nonempty (a : string) :
  (if 0 <? String.length a then [ins a] else []) = ins_nonempty a.
Proof. by destruct a. Qed.

(** The tail of a message after its last code span: inserted once
    when it is not empty. *)
Lemma render_tail (f : nat) (s1 : list segment) (b : string) :
  0 < f -> no_backtick b = true ->
  (if String.eqb b "" then Some (s1 ++ [ins nl2])%list
   else match inline_loop f b with
        | None => None
        | Some (s2, rem') =>
            Some (s1 ++ s2 ++ (if String.eqb rem' "" then [] else [ins rem'])
                     ++ [ins nl2])%list
        end) = Some (s1 ++ ins_nonempty b ++ [ins nl2])%list.
Proof.
  intros Hf Hb. unfold ins_nonempty. destruct (String.eqb_spec b "") as [->|Hne]; [done |].
  rewrite inline_loop_absent by (done || by apply py_in_backtick_none).
  by destruct (String.eqb_spec b "").
Qed.

(** A message with no backtick is inserted as it is. *)
Theorem render_plain (message : string) :
  no_backtick message = true ->
  render_body message = (ins_nonempty message ++ [ins nl2])%list.
Proof.
  intros Hm. apply render_body_by_fuel. unfold render_body_fuel.
  rewrite fence_loop_absent by (lia || by apply py_in_backtick_none).
  by rewrite render_tail by (lia || done).
Qed.

Lemma render_plain_witness :
  render_body "Hello there" = (ins_nonempty "Hello there" ++ [ins nl2])%list.
Proof. apply render_plain. reflexivity. Defined.


(** A closed fenced block becomes a newline, the stripped code
    tagged ["code"], and a newline, between the text around it. *)
Theorem render_fenced (a c b : string) :
  no_backtick a = true -> no_backtick c = true -> no_backtick b = true ->
  render_body (a +:+ "```" +:+ c +:+ "```" +:+ b)
  = (ins_nonempty a ++ [ins nl; ins_tag (py_strip c) "code"; ins nl]
     ++ ins_nonempty b ++ [ins nl2])%list.
Proof.
  intros Ha Hc Hb. apply render_body_by_fuel. unfold render_body_fuel.
  rewrite (fence_loop_found _ _ (String.length a)
             (String.length a + 3 + String.length c)).
  2: by apply py_find_first_backtick.
  2: { rewrite (py_find_after a "```" _ "```" _) by (cbn; lia).
       rewrite find_first_backtick by done.
       f_equal. }
  assert (Hcode : py_slice (a +:+ "```" +:+ c +:+ "```" +:+ b)
            (String.length a + 3) (String.length a + 3 + String.length c) = c).
  { rewrite <- append_assoc_str. apply py_slice_at; by rewrite ?string_length_app. }
  assert (Hrest : py_slice_from (a +:+ "```" +:+ c +:+ "```" +:+ b)
            (String.length a + 3 + String.length c + 3) = b).
  { replace (a +:+ "```" +:+ c +:+ "```" +:+ b)
      with ((a +:+ "```" +:+ c +:+ "```") +:+ b) by (by rewrite !append_assoc_str).
    apply py_slice_from_at. rewrite !string_length_app. cbn. lia. }
  rewrite Hcode, Hrest, py_slice_prefix, pre_nonempty.
  rewrite fence_loop_absent by (rewrite ?string_length_app; cbn; lia
                                || by apply py_in_backtick_none).
  rewrite render_tail by (rewrite ?string_length_app; cbn; lia || done).
  by rewrite <- !app_assoc.
Qed.

Lemma render_fenced_witness :
  render_body ("Run:" +:+ "```" +:+ " ls -l " +:+ "```" +:+ "done")
  = (ins_nonempty "Run:" ++ [ins nl; ins_tag (py_strip " ls -l ") "code"; ins nl]
     ++ ins_nonempty "done" ++ [ins nl2])%list.
Proof. apply render_fenced; reflexivity. Defined.


(** An inline code span [`c`] is inserted tagged ["code"], without
    its backticks. *)
Theorem render_inline (a c b : string) :
  no_backtick a = true -> no_backtick c = true -> no_backtick b = true ->
  render_body (a +:+ "`" +:+ c +:+ "`" +:+ b)
  = (ins_nonempty a ++ [ins_tag c "code"] ++ ins_nonempty b ++ [ins nl2])%list.
Proof.
  intros Ha Hc Hb. apply render_body_by_fuel. unfold render_body_fuel.
  rewrite fence_loop_absent by (lia || unfold py_in; by rewrite find_fence_none_two).
  rewrite append_nonempty.
  rewrite (inline_loop_found _ _ (String.length a)
             (String.length a + 1 + String.length c)).
  2: by apply py_find_first_backtick.
  2: { rewrite (py_find_after a "`" _ "`" _) by (cbn; lia).
       rewrite find_first_backtick by done.
       f_equal. }
  assert (Hcode : py_slice (a +:+ "`" +:+ c +:+ "`" +:+ b)
            (String.length a + 1) (String.length a + 1 + String.length c) = c).
  { rewrite <- append_assoc_str. apply py_slice_at; by rewrite ?string_length_app. }
  assert (Hrest : py_slice_from (a +:+ "`" +:+ c +:+ "`" +:+ b)
            (String.length a + 1 + String.length c + 1) = b).
  { replace (a +:+ "`" +:+ c +:+ "`" +:+ b)
      with ((a +:+ "`" +:+ c +:+ "`") +:+ b) by (by rewrite !append_assoc_str).
    apply py_slice_from_at. rewrite !string_length_app. cbn. lia. }
  rewrite Hcode, Hrest, py_slice_prefix, pre_nonempty.
  rewrite inline_loop_absent by (rewrite ?string_length_app; cbn; lia
                                 || by apply py_in_backtick_none).
  unfold ins_nonempty. by rewrite app_nil_l, app_nil_r, <- !app_assoc.
Qed.

Lemma render_inline_witness :
  render_body ("call " +:+ "`" +:+ "f()" +:+ "`" +:+ " now")
  = (ins_nonempty "call " ++ [ins_tag "f()" "code"] ++ ins_nonempty " now" ++ [ins nl2])%list.
Proof. apply render_inline; reflexivity. Defined.


(** C8 (code bug): a message with one unmatched backtick is inserted
    twice.  The inline loop inserts [remaining_text] and breaks on the
    missing closing backtick (lines 303-305), and line 319 inserts the
    unchanged [remaining_text] again. *)
Theorem render_stray_backtick_twice (a b : string) :
  no_backtick a = true -> no_backtick b = true ->
  render_body (a +:+ "`" +:+ b)
  = [ins (a +:+ "`" +:+ b); ins (a +:+ "`" +:+ b); ins nl2].
Proof.
  intros Ha Hb. apply render_body_by_fuel. unfold render_body_fuel.
  rewrite fence_loop_absent by (lia || unfold py_in; by rewrite find_fence_none_one).
  rewrite append_nonempty.
  rewrite (inline_loop_unclosed _ _ (String.length a)).
  2: by apply py_find_first_backtick.
  2: { rewrite (py_find_after a "`" b "`" _) by (cbn; lia).
       by rewrite find_idx_backtick_none. }
  by rewrite append_nonempty.
Qed.

Lemma render_stray_backtick_twice_witness :
  render_body ("it" +:+ "`" +:+ "s")
  = [ins ("it" +:+ "`" +:+ "s"); ins ("it" +:+ "`" +:+ "s"); ins nl2].
Proof. apply render_stray_backtick_twice; reflexivity. Defined.


(** C9 (code bug): an unclosed fence shows the text from the fence on,
    then the whole message again through the inline loop, whose last
    piece is inserted a third time. *)
Theorem render_unclosed_fence (a b : string) :
  no_backtick a = true -> no_backtick b = true ->
  render_body (a +:+ "```" +:+ b)
  = (ins_nonempty a ++ [ins ("```" +:+ b)] ++ ins_nonempty a
     ++ [ins_tag "" "code"; ins ("`" +:+ b); ins ("`" +:+ b); ins nl2])%list.
Proof.
  intros Ha Hb. apply render_body_by_fuel. unfold render_body_fuel.
  rewrite (fence_loop_unclosed _ _ (String.length a)).
  2: by apply py_find_first_backtick.
  2: { rewrite (py_find_after a "```" b "```" _) by (cbn; lia).
       by rewrite find_idx_backtick_none. }
  rewrite py_slice_prefix, pre_nonempty, py_slice_from_app, append_nonempty.
  rewrite (inline_loop_found _ _ (String.length a) (String.length a + 1)).
  2: by apply (py_find_first_backtick "" a ("``" +:+ b)).
  2: { rewrite (py_find_after a "`" ("``" +:+ b) "`" _) by (cbn; lia).
       change ("``" +:+ b) with ("`" +:+ ("`" +:+ b)).
       rewrite find_idx_app_self. f_equal. lia. }
  assert (Hrest : py_slice_from (a +:+ "```" +:+ b) (String.length a + 1 + 1)
                  = "`" +:+ b).
  { replace (a +:+ "```" +:+ b) with ((a +:+ "``") +:+ "`" +:+ b)
      by (by rewrite append_assoc_str).
    apply py_slice_from_at. rewrite string_length_app. cbn. lia. }
  rewrite Hrest, py_slice_empty, py_slice_prefix, pre_nonempty.
  rewrite (inline_loop_unclosed _ _ 0).
  2: by apply (py_find_first_backtick "" "" b).
  2: { rewrite (py_find_after "" "`" b "`" _) by (cbn; lia).
       by rewrite find_idx_backtick_none. }
  cbn. by rewrite <- !app_assoc.
Qed.

Lemma render_unclosed_fence_witness :
  render_body ("See " +:+ "```" +:+ "code")
  = (ins_nonempty "See " ++ [ins ("```" +:+ "code")] ++ ins_nonempty "See "
     ++ [ins_tag "" "code"; ins ("`" +:+ "code"); ins ("`" +:+ "code"); ins nl2])%list.
Proof. apply render_unclosed_fence; reflexivity. Defined.


(** Proofs about the handlers treat the rendering of a message as a
    value: [simpl] and [cbn] leave it folded. *)
#[global] Arguments render_body : simpl never.
