(* ===== verification/TkGui.v ===== *)
(** * The Tkinter client [OllamaChatGUI] (src/gui_app/ollama_gui.py)

    The state is the record [tk_state]: the instance attributes
    ([models], [chat_history], [is_generating]), the values of the Tk
    variables and widgets that the handlers read or write
    ([selected_model], [temperature], [max_tokens], the system prompt
    and input text boxes, the chat display, the status label), the
    dialogs shown, and the two things the threads share with the UI
    thread: the workers started by [send_message] and [fetch_models],
    and the queue of callbacks scheduled with [root.after(0, ...)].

    Each handler is a [pyM tk_state unit] computation, so an exception
    stops it with its earlier effects kept, as in Tkinter.  A worker
    thread is two steps: [generate_start] builds the payload, and
    [generate_finish] applies one HTTP outcome.  The callbacks it
    schedules run later, one at a time, through [run_callback].  A
    callback that formats the caught exception [e] is scheduled from
    inside an [except ... as e:] block, and reads [e] when it runs.
    Python deletes [e] when that block ends.  So a thread that enters
    the block becomes an [InExcept] worker with a fresh frame number,
    its callbacks carry that number, and leaving the block is a step
    of its own ([leave_except]).  The callback sees [e] only while the
    worker is still inside; otherwise it raises [NameError].  Which of
    the two steps comes first is the scheduler's choice, as in the
    program, where the worker waits for the UI thread in its second
    [root.after] call. *)

From S2P Require Import Prelude PyStr PyNum Json Protocol TkRender.
From Stdlib Require Import QArith.
Open Scope string_scope.
Open Scope list_scope.
Open Scope nat_scope.
Local Open Scope py_scope.

(** ** State *)

Inductive dialog : Type :=
| ShowWarning (title text : string)
| ShowError (title text : string)
| ShowInfo (title text : string)
| AskYesNo (title text : string).

(** A thread started by the client.  [GenWorker] is [generate] of
    [send_message] with the [model] and [messages] it closes over,
    and the payload once it has built it; [FetchWorker] is [fetch] of
    [fetch_models]. *)
Inductive worker : Type :=
| GenWorker (model : string) (messages : list json) (built : option payload)
| FetchWorker
(** A thread inside its [except Exception as e:] block, with the frame
    number of its [e]; [gen] tells a [generate] thread, whose
    [finally] still has to run, from a [fetch] thread. *)
| InExcept (frame : nat) (gen : bool).

(** A callback waiting in Tk's [after] queue. *)
Inductive callback : Type :=
| CbAddToChat (message : json) (role : string)
| CbAddToChatExn (frame : nat) (e : exn) (role : string)
| CbStatus (text : string)
| CbStatusExn (frame : nat) (e : exn)
| CbErrorDialogExn (frame : nat) (e : exn) (title : string)
| CbUpdateModels (models : list json)
| CbDoneGenerating.

Record tk_state : Type := TkState {
  models : list json;
  selected_model : string;
  temperature : json;
  max_tokens : json;
  system_prompt_text : string;
  user_input : string;
  chat_history : json;
  is_generating : bool;
  chat_display : list segment;
  status_label : string;
  dialogs : list dialog;
  workers : list worker;
  after_queue : list callback;
  clipboard : string;
  clock : string;
  now_iso : string;
  files : list (string * option json);
  closed : bool;
  api_url : string;
  next_frame : nat
}.

(** [Text.get("1.0", tk.END)]: the widget's text and the newline Tk
    always keeps at its end. *)
Definition text_get (contents : string) : string := contents +:+ nl.

(** ** Effects the handlers share *)

(** [self.chat_display.insert(tk.END, ...)] for a list of inserts. *)
Definition insert_display (segs : list segment) : pyM tk_state unit :=
  pmodify (fun s => {| s with chat_display := chat_display s ++ segs |}).

Definition set_status (text : string) : pyM tk_state unit :=
  pmodify (fun s => {| s with status_label := text |}).

Definition show_dialog (d : dialog) : pyM tk_state unit :=
  pmodify (fun s => {| s with dialogs := dialogs s ++ [d] |}).

Definition schedule (cbs : list callback) : pyM tk_state unit :=
  pmodify (fun s => {| s with after_queue := after_queue s ++ cbs |}).

(** [self.chat_history.append(x)]. *)
Definition append_history (x : json) : pyM tk_state unit :=
  s <- pget;;
  h <- plift (py_append (chat_history s) x);;
  pmodify (fun s => {| s with chat_history := h |}).

(** ** [add_to_chat] (lines 253-324) *)

(** The body of a user or assistant message.  For a string it is
    [render_body].  A value that is not a string reaches lines 274-320
    only from a reply or a loaded file: a number, boolean or [None]
    makes ["```" in message] raise [TypeError].  A list or dict is
    inserted through Tcl's list conversion, which the model replaces
    by its Python [str]. *)
Definition message_body (message : json) : res (list segment) :=
  match message with
  | JStr m => Ok (render_body m)
  | JArr _ | JObj _ =>
      if py_has_key message "```" || py_has_key message "`" then
        Raise (PyExn "AttributeError"
                 ("'" +:+ py_type_name message +:+ "' object has no attribute 'find'"))
      else Ok ((if py_truthy message then [ins (py_str message)] else [])
               ++ [ins nl2])%list
  | _ => Raise (PyExn "TypeError"
                  ("argument of type '" +:+ py_type_name message +:+ "' is not iterable"))
  end.

Definition add_to_chat (message : json) (role : string) : pyM tk_state unit :=
  s <- pget;;
  let timestamp := clock s in
  if String.eqb role "user" then
    insert_display [ins_tag ("[" +:+ timestamp +:+ "] You: ") "user"];;
    body <- plift (message_body message);;
    insert_display body
  else if String.eqb role "assistant" then
    insert_display [ins_tag ("[" +:+ timestamp +:+ "] AI: ") "assistant"];;
    body <- plift (message_body message);;
    insert_display body
  else
    insert_display [ins_tag (nl +:+ "--- " +:+ py_str message +:+ " ---" +:+ nl2)
                      "system"].

(** [add_to_chat(msg["content"], msg["role"])] in [load_chat]: a role
    that is not a string is compared unequal to ["user"] and
    ["assistant"] and takes the system branch. *)
Definition role_text (role : json) : string :=
  match role with JStr r => r | _ => "" end.

(** ** [send_message] (lines 326-421) *)

(** The messages array: the stripped system prompt when it is not
    empty, then the history (lines 352-364). *)
Definition build_messages (system_prompt : string) (history : list json) : list json :=
  (if String.eqb system_prompt "" then [] else [chat_msg "system" (JStr system_prompt)])
  ++ history.

Definition send_message : pyM tk_state unit :=
  s <- pget;;
  if is_generating s then pret tt else
  let message := py_strip (text_get (user_input s)) in
  if String.eqb message "" then pret tt else
  let model := selected_model s in
  if String.eqb model "" then
    show_dialog (ShowWarning "No Model Selected" "Please select a model first.")
  else
    add_to_chat (JStr message) "user";;
    pmodify (fun s => {| s with user_input := "" |});;
    append_history (chat_msg "user" (JStr message));;
    s <- pget;;
    let system_prompt := py_strip (text_get (system_prompt_text s)) in
    history <- plift (py_iter (chat_history s));;
    let messages := build_messages system_prompt history in
    pmodify (fun s => {| s with is_generating := true |});;
    set_status "Generating response...";;
    pmodify (fun s => {| s with workers := workers s ++ [GenWorker model messages None] |}).

(** ** The worker thread of [send_message] (lines 370-418) *)

(** [DoubleVar.get()] and [IntVar.get()]: Tcl reads the stored value
    back as a number.  A value set from a loaded file that is not a
    number makes them raise; the model counts numeric strings among
    those values, although Tcl would parse them. *)
Definition tk_double_get (v : json) : res json :=
  match v with
  | JInt z => Ok (JFloat (inject_Z z))
  | JFloat q => Ok (JFloat q)
  | JBool b => Ok (JFloat (if b then 1 else 0))
  | _ => Raise (PyExn "TclError" ("expected floating-point number but got " +:+ py_str v))
  end.

Definition tk_int_get (v : json) : res json :=
  match v with
  | JInt z => Ok (JInt z)
  | JFloat q => Ok (JInt (Z.quot (Qnum q) (Zpos (Qden q))))
  | JBool b => Ok (JInt (if b then 1 else 0)%Z)
  | _ => Raise (PyExn "TclError" ("expected integer but got " +:+ py_str v))
  end.

(** The worker [i] enters an [except Exception as e:] block: its [e]
    gets the next frame number. *)
Definition enter_except (i : nat) (gen : bool) : pyM tk_state nat :=
  s <- pget;;
  let f := next_frame s in
  pmodify (fun s => {| s with next_frame := S f;
                              workers := <[i := InExcept f gen]> (workers s) |});;
  pret f.

(** Lines 413-416: the callbacks of [except Exception as e:]. *)
Definition generate_failed (i : nat) (e : exn) : pyM tk_state unit :=
  f <- enter_except i true;;
  schedule [CbAddToChatExn f e "system"; CbStatus "Error"].

(** Lines 372-380: the payload, with the Tk variables read by the
    worker. *)
Definition build_payload (model : string) (messages : list json) : pyM tk_state payload :=
  s <- pget;;
  t <- plift (tk_double_get (temperature s));;
  n <- plift (tk_int_get (max_tokens s));;
  pret (Payload model messages t n).

(** Lines 402-409: the text of a non-200 reply. *)
Definition http_error_msg (status : Z) (body : res json) : string :=
  let default := "Error: API returned " +:+ py_str_int status in
  match body with
  | Ok error_data =>
      match py_get error_data "error" with
      | Ok v => if py_truthy v then "Error: " +:+ py_str v else default
      | Raise _ => default
      end
  | Raise _ => default
  end.

(** Lines 382-412: from the HTTP outcome to the history and the
    callbacks. *)
Definition generate_body (r : http_result) : pyM tk_state unit :=
  match r with
  | HttpExn e => praise e
  | HttpResp status _ body =>
      if Z.eqb status 200 then
        data <- plift body;;
        reply <- plift (read_reply data);;
        match reply with
        | Some content =>
            append_history (chat_msg "assistant" content);;
            schedule [CbAddToChat content "assistant"; CbStatus "Ready"]
        | None =>
            schedule [CbAddToChat (JStr "Error: Received empty response from model.")
                        "system"; CbStatus "Error"]
        end
      else schedule [CbAddToChat (JStr (http_error_msg status body)) "system";
                     CbStatus "Error"]
  end.

(** [finally: self.root.after(0, lambda: setattr(self, 'is_generating', False))]. *)
Definition generate_done : pyM tk_state unit := schedule [CbDoneGenerating].

Definition remove_worker (i : nat) : pyM tk_state unit :=
  pmodify (fun s => {| s with workers := delete i (workers s) |}).

Definition set_worker (i : nat) (w : worker) : pyM tk_state unit :=
  pmodify (fun s => {| s with workers := <[i := w]> (workers s) |}).

(** The worker [i] builds its payload.  If reading the Tk variables
    raises, the worker ends through its [except] and [finally]. *)
Definition generate_start (i : nat) (model : string) (messages : list json)
  : pyM tk_state unit :=
  ptry (p <- build_payload model messages;;
        set_worker i (GenWorker model messages (Some p)))
       (generate_failed i).

(** The worker [i] receives [r].  Without an exception it runs its
    [finally] and ends; with one it stays in its [except] block. *)
Definition generate_finish (i : nat) (r : http_result) : pyM tk_state unit :=
  ok <- ptry (generate_body r;; pret true) (fun e => generate_failed i e;; pret false);;
  if ok then generate_done;; remove_worker i else pret tt.

(** The worker [i] leaves its [except] block, which deletes its [e];
    a [generate] thread then runs its [finally]. *)
Definition leave_except (i : nat) (gen : bool) : pyM tk_state unit :=
  (if gen then generate_done else pret tt);;
  remove_worker i.

(** ** Models (lines 203-251) *)

Definition fetch_models : pyM tk_state unit :=
  set_status "Fetching models...";;
  pmodify (fun s => {| s with workers := workers s ++ [FetchWorker] |}).

(** The [fetch] thread (lines 207-226) receives [r] and ends. *)
Definition fetch_body (r : http_result) : pyM tk_state unit :=
  match r with
  | HttpExn e => praise e
  | HttpResp status _ body =>
      if Z.eqb status 200 then
        data <- plift body;;
        listed <- plift (py_get_default data "models" (JArr []));;
        items <- plift (py_iter listed);;
        names <- plift (res_map (fun m => py_getitem m "name") items);;
        schedule [CbUpdateModels names]
      else schedule [CbStatus ("Error: API returned " +:+ py_str_int status)]
  end.

(** Lines 237-243: the callbacks of [except Exception as e:]. *)
Definition fetch_failed (i : nat) (e : exn) : pyM tk_state unit :=
  f <- enter_except i false;;
  schedule [CbStatusExn f e; CbErrorDialogExn f e "Connection Error"].

Definition fetch_finish (i : nat) (r : http_result) : pyM tk_state unit :=
  ok <- ptry (fetch_body r;; pret true) (fun e => fetch_failed i e;; pret false);;
  if ok then remove_worker i else pret tt.

Definition update_models (ms : list json) : pyM tk_state unit :=
  pmodify (fun s => {| s with models := ms |});;
  match ms with
  | _ :: _ => set_status ("Found " +:+ py_str_int (Z.of_nat (length ms)) +:+ " models")
  | [] =>
      set_status "No models found";;
      show_dialog (ShowWarning "No Models Found"
        ("No models were found in your Ollama installation." +:+ nl +:+ nl
         +:+ "Please install at least one model using 'ollama pull <model>'"))
  end.

(** ** Clearing (lines 423-442, 246-251) *)

Definition welcome_text : string :=
  "Welcome to Ollama Chat! Select a model to start chatting.".

Definition model_selected_text (model : string) : string :=
  "Model '" +:+ model +:+ "' selected. Start chatting!".

Definition clear_chat : pyM tk_state unit :=
  pmodify (fun s => {| s with chat_history := JArr [] |});;
  pmodify (fun s => {| s with chat_display := [] |});;
  s <- pget;;
  let model := selected_model s in
  if String.eqb model "" then add_to_chat (JStr welcome_text) "system"
  else add_to_chat (JStr (model_selected_text model)) "system".

(** [new_chat]: [yes] is the answer to the confirmation, asked only
    when the history is not empty. *)
Definition new_chat (yes : bool) : pyM tk_state unit :=
  s <- pget;;
  if py_truthy (chat_history s) then
    show_dialog (AskYesNo "New Chat" "This will clear the current chat. Continue?");;
    (if yes then clear_chat else pret tt)
  else clear_chat.

(** The user picks [model] in the combobox; [on_model_selected]. *)
Definition on_model_selected (model : string) : pyM tk_state unit :=
  pmodify (fun s => {| s with selected_model := model |});;
  if String.eqb model "" then pret tt
  else clear_chat;; add_to_chat (JStr (model_selected_text model)) "system".

(** ** The [after] queue *)

Definition name_error : exn :=
  PyExn "NameError"
    "cannot access free variable 'e' where it is not associated with a value".

(** The [e] of frame [f] is still bound: its thread has not left the
    [except] block. *)
Definition frame_live (f : nat) (s : tk_state) : bool :=
  existsb (fun w => match w with InExcept f' _ => Nat.eqb f f' | _ => false end) (workers s).

(** A callback formatting the [e] of frame [f]. *)
Definition with_exn (f : nat) (c : pyM tk_state unit) : pyM tk_state unit :=
  s <- pget;;
  if frame_live f s then c else praise name_error.

Definition connection_error_text (url : string) (e : exn) : string :=
  "Could not connect to Ollama API at " +:+ url +:+ "." +:+ nl2 +:+
  "Make sure Ollama is running and try again." +:+ nl2 +:+ "Error: " +:+ exn_str e.

Definition run_one (cb : callback) : pyM tk_state unit :=
  match cb with
  | CbAddToChat m role => add_to_chat m role
  | CbAddToChatExn f e role => with_exn f (add_to_chat (JStr ("Error: " +:+ exn_str e)) role)
  | CbStatusExn f e => with_exn f (set_status ("Error connecting to Ollama API: " +:+ exn_str e))
  | CbErrorDialogExn f e title =>
      with_exn f (s <- pget;; show_dialog (ShowError title (connection_error_text (api_url s) e)))
  | CbStatus t => set_status t
  | CbUpdateModels ms => update_models ms
  | CbDoneGenerating => pmodify (fun s => {| s with is_generating := false |})
  end.

(** Tk runs the oldest callback; an exception it raises is reported
    on stderr and the event loop goes on. *)
Definition run_callback (s : tk_state) : tk_state :=
  match after_queue s with
  | [] => s
  | cb :: rest => fst (run_one cb {| s with after_queue := rest |})
  end.

(** ** Files (lines 444-519)

    [files] maps a path to what [json.load] reads back from it: the
    document written by [json.dump], or [None] for a file that open
    truncated and nothing then filled (it no longer parses). *)

Definition read_file (s : tk_state) (path : string) : res json :=
  match list_find (fun '(p, _) => p = path) (files s) with
  | Some (_, (_, Some doc)) => Ok doc
  | Some (_, (_, None)) =>
      Raise (PyExn "JSONDecodeError" "Expecting value: line 1 column 1 (char 0)")
  | None =>
      Raise (PyExn "FileNotFoundError"
               ("[Errno 2] No such file or directory: " +:+ py_repr_str path))
  end.

Definition write_file (path : string) (contents : option json) : pyM tk_state unit :=
  pmodify (fun s => {| s with files := (path, contents) :: files s |}).

Definition app_version : string := "1.0.0".

(** [save_chat]: [path] is what the save dialog returns ([""] when it
    is cancelled); [open_error] is the error [open] raises, if any. *)
Definition save_chat (path : string) (open_error : option exn) : pyM tk_state unit :=
  s <- pget;;
  if negb (py_truthy (chat_history s)) then
    show_dialog (ShowInfo "Info" "No chat to save.")
  else if String.eqb path "" then pret tt
  else
    ptry
      (match open_error with Some e => praise e | None => pret tt end;;
       write_file path None;;
       s <- pget;;
       t <- plift (tk_double_get (temperature s));;
       n <- plift (tk_int_get (max_tokens s));;
       write_file path (Some (JObj [
         ("model", JStr (selected_model s));
         ("system_prompt", JStr (py_strip (text_get (system_prompt_text s))));
         ("temperature", t);
         ("max_tokens", n);
         ("history", chat_history s);
         ("timestamp", JStr (now_iso s));
         ("app_version", JStr app_version)]));;
       set_status ("Chat saved to " +:+ py_basename path))
      (fun e => show_dialog (ShowError "Error" ("Failed to save chat: " +:+ exn_str e))).

(** [StringVar.set(v)] and [Text.insert("1.0", v)] store [str(v)]. *)
Definition tk_str (v : json) : string := py_str v.

Fixpoint display_messages (items : list json) : pyM tk_state unit :=
  match items with
  | [] => pret tt
  | msg :: rest =>
      content <- plift (py_getitem msg "content");;
      role <- plift (py_getitem msg "role");;
      add_to_chat content (role_text role);;
      display_messages rest
  end.

(** [load_chat]: [path] is what the open dialog returns.  Line 492
    reads [data["model"]] once [data.get("model")] is in the list;
    the model uses the value [get] returned, which differs only for a
    file without ["model"] while [None] is among the models, where
    Python raises [KeyError]. *)
Definition load_chat (path : string) : pyM tk_state unit :=
  if String.eqb path "" then pret tt else
  ptry
    (s <- pget;;
     data <- plift (read_file s path);;
     m <- plift (py_get data "model");;
     (if py_in_list m (models s)
      then pmodify (fun s => {| s with selected_model := tk_str m |}) else pret tt);;
     (if py_has_key data "system_prompt" then
        v <- plift (py_getitem data "system_prompt");;
        pmodify (fun s => {| s with system_prompt_text := tk_str v |})
      else pret tt);;
     (if py_has_key data "temperature" then
        v <- plift (py_getitem data "temperature");;
        pmodify (fun s => {| s with temperature := v |})
      else pret tt);;
     (if py_has_key data "max_tokens" then
        v <- plift (py_getitem data "max_tokens");;
        pmodify (fun s => {| s with max_tokens := v |})
      else pret tt);;
     h <- plift (py_get_default data "history" (JArr []));;
     pmodify (fun s => {| s with chat_history := h |});;
     pmodify (fun s => {| s with chat_display := [] |});;
     add_to_chat (JStr ("Chat loaded from " +:+ py_basename path)) "system";;
     items <- plift (py_iter h);;
     display_messages items;;
     set_status ("Chat loaded from " +:+ py_basename path))
    (fun e => show_dialog (ShowError "Error" ("Failed to load chat: " +:+ exn_str e))).

(** ** Lines 521-571 *)

(** [copy_selected]: [sel] is the selection [selection_get] returns,
    [None] when it raises because nothing is selected. *)
Definition copy_selected (sel : option string) : pyM tk_state unit :=
  match sel with
  | Some t =>
      pmodify (fun s => {| s with clipboard := t |});;
      set_status "Text copied to clipboard"
  | None => set_status "No text selected"
  end.

Fixpoint copy_first_assistant (items : list json) : pyM tk_state unit :=
  match items with
  | [] => set_status "No assistant response to copy"
  | msg :: rest =>
      role <- plift (py_getitem msg "role");;
      if py_eq role (JStr "assistant") then
        content <- plift (py_getitem msg "content");;
        pmodify (fun s => {| s with clipboard := tk_str content |});;
        set_status "Last response copied to clipboard"
      else copy_first_assistant rest
  end.

Definition copy_last_response : pyM tk_state unit :=
  s <- pget;;
  items <- plift (py_reversed (chat_history s));;
  copy_first_assistant items.

(** [on_close]: [yes_generating] and [yes_exit] answer the two
    confirmations, each asked only when its condition holds. *)
Definition on_close (yes_generating yes_exit : bool) : pyM tk_state unit :=
  s <- pget;;
  (if is_generating s then
     show_dialog (AskYesNo "Generating in Progress"
       "A response is currently being generated. Are you sure you want to exit?")
   else pret tt);;
  if is_generating s && negb yes_generating then pret tt else
  (if py_truthy (chat_history s) then
     show_dialog (AskYesNo "Exit" "Do you want to exit? Any unsaved chat will be lost.")
   else pret tt);;
  if py_truthy (chat_history s) && negb yes_exit then pret tt else
  pmodify (fun s => {| s with closed := true |}).

(** ** The program

    A UI event runs its handler on the UI thread.  A worker thread and
    a queued callback take steps of their own, interleaved with the
    events in any order. *)

Inductive tk_event : Type :=
| EvType (text : string)
| EvEditSystemPrompt (text : string)
| EvSetTemperature (t : Q)
| EvSetMaxTokens (n : Z)
| EvTick (hms iso : string)
| EvSend
| EvClear
| EvNewChat (yes : bool)
| EvSelectModel (i : nat)
| EvRefreshModels
| EvSave (path : string) (open_error : option exn)
| EvLoad (path : string)
| EvCopySelected (sel : option string)
| EvCopyLast
| EvClose (yes_generating yes_exit : bool).

Definition handle (ev : tk_event) : pyM tk_state unit :=
  match ev with
  | EvType text => pmodify (fun s => {| s with user_input := text |})
  | EvEditSystemPrompt text => pmodify (fun s => {| s with system_prompt_text := text |})
  | EvSetTemperature t => pmodify (fun s => {| s with temperature := JFloat t |})
  | EvSetMaxTokens n => pmodify (fun s => {| s with max_tokens := JInt n |})
  | EvTick hms iso => pmodify (fun s => {| s with clock := hms; now_iso := iso |})
  | EvSend => send_message
  | EvClear => clear_chat
  | EvNewChat yes => new_chat yes
  | EvSelectModel i =>
      s <- pget;;
      match models s !! i with
      | Some m => on_model_selected (tk_str m)
      | None => pret tt
      end
  | EvRefreshModels => fetch_models
  | EvSave path err => save_chat path err
  | EvLoad path => load_chat path
  | EvCopySelected sel => copy_selected sel
  | EvCopyLast => copy_last_response
  | EvClose y1 y2 => on_close y1 y2
  end.

(** [OllamaChatGUI.__init__] (lines 22-58), with [url] the value of
    [OLLAMA_API_URL] (line 18, or [--api-url] in [main]): the widgets start empty,
    [setup_chat_panel] shows the welcome line, and [fetch_models]
    starts its thread. *)
Definition tk_blank (url hms iso : string) : tk_state := {|
  models := []; selected_model := ""; temperature := JFloat (7 # 10);
  max_tokens := JInt 1024; system_prompt_text := ""; user_input := "";
  chat_history := JArr []; is_generating := false; chat_display := [];
  status_label := "Ready"; dialogs := []; workers := []; after_queue := [];
  clipboard := ""; clock := hms; now_iso := iso; files := []; closed := false;
  api_url := url; next_frame := 0 |}.

Definition tk_init (url hms iso : string) : tk_state :=
  fst ((add_to_chat (JStr welcome_text) "system";; fetch_models) (tk_blank url hms iso)).

Inductive tk_step : tk_state -> tk_state -> Prop :=
| TkUi (ev : tk_event) (s : tk_state) :
    closed s = false -> tk_step s (fst (handle ev s))
| TkGenStart (i : nat) (model : string) (msgs : list json) (s : tk_state) :
    workers s !! i = Some (GenWorker model msgs None) ->
    tk_step s (fst (generate_start i model msgs s))
| TkGenFinish (i : nat) (model : string) (msgs : list json) (p : payload)
    (r : http_result) (s : tk_state) :
    workers s !! i = Some (GenWorker model msgs (Some p)) ->
    tk_step s (fst (generate_finish i r s))
| TkFetchFinish (i : nat) (r : http_result) (s : tk_state) :
    workers s !! i = Some FetchWorker -> tk_step s (fst (fetch_finish i r s))
| TkLeaveExcept (i f : nat) (gen : bool) (s : tk_state) :
    workers s !! i = Some (InExcept f gen) -> tk_step s (fst (leave_except i gen s))
| TkCallback (s : tk_state) :
    closed s = false -> after_queue s <> [] -> tk_step s (run_callback s).

Definition tk_reachable (s : tk_state) : Prop :=
  exists url hms iso, rtc tk_step (tk_init url hms iso) s.
