(* ===== verification/TkFrame.v ===== *)
(** * The bookkeeping of the Tkinter client's requests

    The lemmas the theorems of [TkGuiFacts] are proved from.  Most
    handlers do not touch the three things the in-flight invariant
    counts: the [is_generating] flag, the [generate] workers and the
    [is_generating = False] callbacks.  The predicate [frame] says so
    of a computation, and the tactic [solve_frame] proves it for a
    handler from its parts with the lemmas of the hint database
    [tk_frame].  The file also proves that every step of [tk_step]
    keeps the invariant [tk_inv], and that the queued callbacks never
    schedule new ones, which the liveness theorem rests on. *)

From S2P Require Import Prelude PyStr PyNum Json Protocol TkRender TkGui.
From Stdlib Require Import QArith.
Open Scope string_scope.
Open Scope list_scope.
Open Scope nat_scope.
Local Open Scope py_scope.

(** ** Requests in flight *)

Definition is_gen_worker (w : worker) : bool :=
  match w with GenWorker _ _ _ => true | FetchWorker => false | InExcept _ gen => gen end.

Definition is_done_cb (cb : callback) : bool :=
  match cb with CbDoneGenerating => true | _ => false end.

(** The [generate] threads running (inside their [except] block
    included), and the callbacks that will reset
    [is_generating]. *)
Definition inflight (s : tk_state) : nat :=
  length (filter is_gen_worker (workers s)) + length (filter is_done_cb (after_queue s)).

(** What a [frame] computation keeps: the flag, the threads, and the
    number of pending [is_generating = False] callbacks. *)
Definition gen_view (s : tk_state) : bool * list worker * nat :=
  (is_generating s, workers s, length (filter is_done_cb (after_queue s))).

Lemma gen_view_inflight (s s' : tk_state) :
  gen_view s' = gen_view s ->
  is_generating s' = is_generating s /\ workers s' = workers s /\ inflight s' = inflight s.
Proof. unfold gen_view, inflight. intros [= -> -> ->]. auto. Qed.

Definition frame {A} (c : pyM tk_state A) : Prop :=
  forall s, gen_view (fst (c s)) = gen_view s.

Lemma frame_pret {A} (a : A) : frame (pret a).
Proof. done. Qed.

Lemma frame_praise {A} (e : exn) : frame (A := A) (praise e).
Proof. done. Qed.

Lemma frame_pget : frame pget.
Proof. done. Qed.

Lemma frame_plift {A} (r : res A) : frame (plift r).
Proof. done. Qed.

Lemma frame_pbind {A B} (c : pyM tk_state A) (k : A -> pyM tk_state B) :
  frame c -> (forall a, frame (k a)) -> frame (pbind c k).
Proof.
  intros Hc Hk s. unfold pbind. specialize (Hc s).
  destruct (c s) as [s' [a|e]] eqn:E; simpl in *; [by rewrite Hk | done].
Qed.

Lemma frame_ptry {A} (c : pyM tk_state A) (h : exn -> pyM tk_state A) :
  frame c -> (forall e, frame (h e)) -> frame (ptry c h).
Proof.
  intros Hc Hh s. unfold ptry. specialize (Hc s).
  destruct (c s) as [s' [a|e]] eqn:E; simpl in *; [done | by rewrite Hh].
Qed.

Lemma frame_pmodify (f : tk_state -> tk_state) :
  (forall s, gen_view (f s) = gen_view s) -> frame (pmodify f).
Proof. done. Qed.

Lemma frame_if {A} (b : bool) (c1 c2 : pyM tk_state A) :
  frame c1 -> frame c2 -> frame (if b then c1 else c2).
Proof. by destruct b. Qed.

Lemma done_count_app (q1 q2 : list callback) :
  length (filter is_done_cb (q1 ++ q2))
  = length (filter is_done_cb q1) + length (filter is_done_cb q2).
Proof. by rewrite filter_app, length_app. Qed.

Lemma length_filter_singleton {A} (p : A -> bool) (x : A) :
  length (filter p [x]) = if p x then 1 else 0.
Proof. rewrite filter_cons. destruct (p x); case_decide; done. Qed.

Lemma frame_schedule (cbs : list callback) :
  Forall (fun cb => is_done_cb cb = false) cbs -> frame (schedule cbs).
Proof.
  intros Hcbs s. unfold gen_view. cbn. rewrite done_count_app.
  assert (filter is_done_cb cbs = []) as ->; [| cbn; f_equal; lia].
  induction Hcbs as [|cb cbs Hcb _ IH]; [done |].
  by rewrite filter_cons, Hcb.
Qed.

Create HintDb tk_frame.
#[export] Hint Resolve frame_pret frame_praise frame_pget frame_plift : tk_frame.

(** One structural step of a [frame] proof: split a bind, a [try], a
    conditional or a match, discharge a state update that does not
    touch the view, or close the goal with a lemma of [tk_frame]. *)
Ltac frame_step :=
  match goal with
  | |- forall _, _ => intro
  | |- frame (pbind _ _) => apply frame_pbind
  | |- frame (ptry _ _) => apply frame_ptry
  | |- frame (pmodify _) => apply frame_pmodify; intros; reflexivity
  | |- frame (schedule _) => apply frame_schedule; repeat constructor
  | |- frame (if _ then _ else _) => apply frame_if
  | |- frame (match ?x with _ => _ end) => destruct x
  | |- frame (let _ := _ in _) => cbv zeta
  | |- frame _ => solve [eauto with tk_frame]
  end.

Ltac solve_frame := repeat frame_step.

Lemma frame_add_to_chat (m : json) (role : string) : frame (add_to_chat m role).
Proof. unfold add_to_chat, insert_display. solve_frame. Qed.

Lemma frame_show_dialog (d : dialog) : frame (show_dialog d).
Proof. unfold show_dialog. solve_frame. Qed.

Lemma frame_set_status (t : string) : frame (set_status t).
Proof. unfold set_status. solve_frame. Qed.

#[export] Hint Resolve frame_add_to_chat frame_show_dialog frame_set_status : tk_frame.

Lemma frame_clear_chat : frame clear_chat.
Proof. unfold clear_chat. solve_frame. Qed.
#[export] Hint Resolve frame_clear_chat : tk_frame.

Lemma frame_append_history (x : json) : frame (append_history x).
Proof. unfold append_history. solve_frame. Qed.
#[export] Hint Resolve frame_append_history : tk_frame.

Lemma frame_display_messages (items : list json) : frame (display_messages items).
Proof. induction items; simpl; solve_frame. Qed.

Lemma frame_copy_first_assistant (items : list json) : frame (copy_first_assistant items).
Proof. induction items; simpl; solve_frame. Qed.
#[export] Hint Resolve frame_display_messages frame_copy_first_assistant : tk_frame.

Lemma frame_update_models (ms : list json) : frame (update_models ms).
Proof. unfold update_models. solve_frame. Qed.
#[export] Hint Resolve frame_update_models : tk_frame.

Lemma frame_save_chat (path : string) (err : option exn) : frame (save_chat path err).
Proof. unfold save_chat, write_file. solve_frame. Qed.

Lemma frame_load_chat (path : string) : frame (load_chat path).
Proof. unfold load_chat. solve_frame. Qed.

Lemma frame_new_chat (yes : bool) : frame (new_chat yes).
Proof. unfold new_chat. solve_frame. Qed.

Lemma frame_on_model_selected (m : string) : frame (on_model_selected m).
Proof. unfold on_model_selected. solve_frame. Qed.

Lemma frame_copy_last_response : frame copy_last_response.
Proof. unfold copy_last_response. solve_frame. Qed.

Lemma frame_copy_selected (sel : option string) : frame (copy_selected sel).
Proof. unfold copy_selected. solve_frame. Qed.

Lemma frame_on_close (y1 y2 : bool) : frame (on_close y1 y2).
Proof. unfold on_close. solve_frame. Qed.

Lemma fetch_models_view (s : tk_state) :
  is_generating (fst (fetch_models s)) = is_generating s /\
  inflight (fst (fetch_models s)) = inflight s.
Proof.
  unfold inflight. cbn. rewrite filter_app, length_app. cbn.
  case_decide; [done | cbn; split; [done | lia]].
Qed.

(** A computation that keeps [gen_view] followed by [k]. *)
Lemma pbind_frame_cases {A B} (c : pyM tk_state A) (k : A -> pyM tk_state B)
  (s : tk_state) :
  frame c ->
  gen_view (fst (pbind c k s)) = gen_view s \/
  exists a s', gen_view s' = gen_view s /\ fst (pbind c k s) = fst (k a s').
Proof.
  intros Hc. unfold pbind. specialize (Hc s).
  destruct (c s) as [s' [a|e]]; simpl in *; [right; eauto | by left].
Qed.

Ltac bind_case :=
  match goal with
  | |- context [fst (pbind ?c ?k ?s1)] =>
      let H := fresh "Hv" in
      destruct (pbind_frame_cases c k s1) as [H|(? & ? & H & ->)];
      [solve_frame | left; congruence |]
  end.

Lemma send_message_view (s : tk_state) :
  gen_view (fst (send_message s)) = gen_view s \/
  (is_generating s = false /\ is_generating (fst (send_message s)) = true /\
   inflight (fst (send_message s)) = S (inflight s)).
Proof.
  unfold send_message. cbn [pbind pget fst snd].
  destruct (is_generating s) eqn:Hg; [by left |].
  destruct (String.eqb (py_strip _) ""); [by left |].
  destruct (String.eqb (selected_model s) ""); [left; apply frame_show_dialog |].
  do 3 bind_case.
  cbn [pbind pget plift fst snd].
  destruct (py_iter _) as [items|e]; cbn; [| left; congruence].
  right. repeat match goal with H : gen_view _ = gen_view _ |- _ => apply gen_view_inflight in H end.
  split; [done |]. split; [done |].
  unfold inflight in *. cbn [workers after_queue is_generating fst snd].
  rewrite filter_app, length_app, length_filter_singleton. cbn. lia.
Qed.


(** ** Counting after a worker ends *)

Lemma length_filter_cons {A} (p : A -> bool) (x : A) (l : list A) :
  length (filter p (x :: l)) = (if p x then 1 else 0) + length (filter p l).
Proof. rewrite filter_cons. destruct (p x); case_decide; done. Qed.

(** Counts the filtered elements of concatenations and literals. *)
Ltac count_filters :=
  rewrite ?filter_app, ?length_app, ?length_filter_cons, ?filter_nil;
  cbn [is_done_cb is_gen_worker length]; lia.

Lemma filter_length_delete {A} (p : A -> bool) (l : list A) (i : nat) (x : A) :
  l !! i = Some x ->
  length (filter p l) = length (filter p (delete i l)) + (if p x then 1 else 0).
Proof.
  revert i. induction l as [|y l IH]; intros [|i] Hi; simplify_eq/=;
    rewrite !length_filter_cons; [lia | rewrite (IH i Hi); lia].
Qed.

Lemma filter_length_insert {A} (p : A -> bool) (l : list A) (i : nat) (x y : A) :
  l !! i = Some x -> p x = p y ->
  length (filter p (<[i := y]> l)) = length (filter p l).
Proof.
  revert i. induction l as [|z l IH]; intros [|i] Hi Hp; simplify_eq/=;
    rewrite !length_filter_cons; [by rewrite Hp | by rewrite (IH i Hi Hp)].
Qed.

(** The worker's [except] block, run at once. *)
Lemma generate_failed_run (i : nat) (e : exn) (s : tk_state) :
  generate_failed i e s =
  ({| s with next_frame := S (next_frame s);
             workers := <[i := InExcept (next_frame s) true]> (workers s);
             after_queue := after_queue s ++
               [CbAddToChatExn (next_frame s) e "system"; CbStatus "Error"] |}, Ok tt).
Proof. reflexivity. Qed.

Lemma fetch_failed_run (i : nat) (e : exn) (s : tk_state) :
  fetch_failed i e s =
  ({| s with next_frame := S (next_frame s);
             workers := <[i := InExcept (next_frame s) false]> (workers s);
             after_queue := after_queue s ++
               [CbStatusExn (next_frame s) e;
                CbErrorDialogExn (next_frame s) e "Connection Error"] |}, Ok tt).
Proof. reflexivity. Qed.

Lemma generate_start_view (i : nat) (model : string) (msgs : list json) (s : tk_state) :
  workers s !! i = Some (GenWorker model msgs None) ->
  is_generating (fst (generate_start i model msgs s)) = is_generating s /\
  inflight (fst (generate_start i model msgs s)) = inflight s.
Proof.
  intros Hw. unfold generate_start, build_payload, set_worker. py_unfold.
  destruct (tk_double_get (temperature s)) as [t|e];
    [destruct (tk_int_get (max_tokens s)) as [n|e] |];
    rewrite ?generate_failed_run; unfold inflight;
    cbn [fst snd workers after_queue is_generating]; split; try done;
    erewrite (filter_length_insert _ _ i _ _ Hw) by done; count_filters.
Qed.

Lemma frame_generate_body (r : http_result) : frame (generate_body r).
Proof. unfold generate_body. solve_frame. Qed.

#[export] Hint Resolve frame_generate_body : tk_frame.

(** The worker's last step, by the outcome of [generate_body]. *)
Lemma generate_finish_run (i : nat) (r : http_result) (s : tk_state) :
  (exists s1, generate_body r s = (s1, Ok tt) /\
     fst (generate_finish i r s) = fst ((generate_done;; remove_worker i) s1)) \/
  (exists s1 e, generate_body r s = (s1, Raise e) /\
     fst (generate_finish i r s) = fst (generate_failed i e s1)).
Proof.
  unfold generate_finish. cbv [pbind ptry pret].
  destruct (generate_body r s) as [s1 [[]|e]]; [left | right; rewrite generate_failed_run]; eauto.
Qed.

Lemma generate_finish_view (i : nat) (model : string) (msgs : list json)
  (p : payload) (r : http_result) (s : tk_state) :
  workers s !! i = Some (GenWorker model msgs (Some p)) ->
  is_generating (fst (generate_finish i r s)) = is_generating s /\
  inflight (fst (generate_finish i r s)) = inflight s.
Proof.
  intros Hw. pose proof (frame_generate_body r s) as Hf.
  destruct (generate_finish_run i r s) as [(s1 & E & ->)|(s1 & e & E & ->)];
    rewrite E in Hf; cbn [fst] in Hf; apply gen_view_inflight in Hf as (Hg & Hws & Hin);
    [unfold generate_done, remove_worker, schedule | rewrite generate_failed_run];
    unfold inflight in *; py_unfold; cbn [fst snd workers after_queue is_generating];
    rewrite Hws in Hin |- *; split; try done;
    [rewrite (filter_length_delete is_gen_worker _ i _ Hw)
    | erewrite (filter_length_insert _ _ i _ _ Hw) by done]; count_filters.
Qed.

Lemma frame_fetch_body (r : http_result) : frame (fetch_body r).
Proof. unfold fetch_body. solve_frame. Qed.
#[export] Hint Resolve frame_fetch_body : tk_frame.

Lemma fetch_finish_view (i : nat) (r : http_result) (s : tk_state) :
  workers s !! i = Some FetchWorker ->
  is_generating (fst (fetch_finish i r s)) = is_generating s /\
  inflight (fst (fetch_finish i r s)) = inflight s.
Proof.
  intros Hw. pose proof (frame_fetch_body r s) as Hf. unfold fetch_finish.
  cbv [pbind ptry pret]. destruct (fetch_body r s) as [s1 [[]|e]];
    cbn [fst] in Hf; apply gen_view_inflight in Hf as (Hg & Hws & Hin);
    [unfold remove_worker | rewrite fetch_failed_run];
    unfold inflight in *; py_unfold; cbn [fst snd workers after_queue is_generating];
    rewrite Hws in Hin |- *; split; try done;
    [rewrite (filter_length_delete is_gen_worker _ i _ Hw)
    | erewrite (filter_length_insert _ _ i _ _ Hw) by done]; count_filters.
Qed.

Lemma leave_except_view (i f : nat) (gen : bool) (s : tk_state) :
  workers s !! i = Some (InExcept f gen) ->
  is_generating (fst (leave_except i gen s)) = is_generating s /\
  inflight (fst (leave_except i gen s)) = inflight s.
Proof.
  intros Hw. unfold leave_except, generate_done, remove_worker, schedule, inflight.
  py_unfold. rewrite (filter_length_delete is_gen_worker _ i _ Hw).
  destruct gen; cbn; split; try done; count_filters.
Qed.

Lemma frame_run_one (cb : callback) : is_done_cb cb = false -> frame (run_one cb).
Proof. destruct cb; simpl; intros; try discriminate; unfold with_exn; solve_frame. Qed.

Lemma run_callback_view (s : tk_state) :
  (exists rest, after_queue s = CbDoneGenerating :: rest /\
     is_generating (run_callback s) = false /\ S (inflight (run_callback s)) = inflight s)
  \/ gen_view (run_callback s) = gen_view s.
Proof.
  unfold run_callback. destruct (after_queue s) as [|cb rest] eqn:Hq; [by right |].
  destruct (is_done_cb cb) eqn:Hcb.
  - left. destruct cb; try discriminate. exists rest. unfold inflight.
    cbn [run_one fst pmodify workers after_queue is_generating].
    rewrite Hq. split; [done | split; [done | count_filters]].
  - right. rewrite (frame_run_one cb Hcb). unfold gen_view.
    cbn [is_generating workers after_queue]. rewrite Hq, length_filter_cons, Hcb. done.
Qed.

(** ** At most one request in flight *)

Definition tk_inv (s : tk_state) : Prop :=
  inflight s <= 1 /\ (is_generating s = true <-> inflight s = 1).

Lemma tk_inv_init (url hms iso : string) : tk_inv (tk_init url hms iso).
Proof. vm_compute. split; [lia | split; discriminate]. Qed.

Lemma frame_handle_other (ev : tk_event) :
  ev <> EvSend -> ev <> EvRefreshModels -> frame (handle ev).
Proof.
  pose proof frame_on_model_selected.
  destruct ev; intros H1 H2; try congruence; simpl; solve_frame;
    auto using frame_save_chat, frame_load_chat, frame_new_chat,
      frame_copy_last_response, frame_copy_selected, frame_on_close.
Qed.

Lemma tk_inv_step (s s' : tk_state) : tk_inv s -> tk_step s s' -> tk_inv s'.
Proof.
  intros [Hle Hiff] Hstep. unfold tk_inv.
  destruct Hstep as [ev s Hc | i model msgs s Hw | i model msgs p r s Hw | i r s Hw
                    | i f gen s Hw | s Hc Hq].
  - assert (ev = EvSend \/ ev = EvRefreshModels \/ (ev <> EvSend /\ ev <> EvRefreshModels))
      as [->|[->|[Hs Hr]]] by (destruct ev; auto; right; right; split; discriminate).
    + cbn [handle]. destruct (send_message_view s) as [Hv|(Hg & Hg' & Hi)];
        [apply gen_view_inflight in Hv as (-> & _ & ->); auto |].
      rewrite Hg', Hi. rewrite Hg in Hiff.
      assert (inflight s <> 1) by (intros H; by apply Hiff in H).
      split; [lia | split; [intros; lia | done]].
    + cbn [handle]. destruct (fetch_models_view s) as [-> ->]. auto.
    + pose proof (gen_view_inflight _ _ (frame_handle_other ev Hs Hr s)) as (-> & _ & ->).
      auto.
  - destruct (generate_start_view i model msgs s Hw) as [-> ->]. auto.
  - destruct (generate_finish_view i model msgs p r s Hw) as [-> ->]. auto.
  - destruct (fetch_finish_view i r s Hw) as [-> ->]. auto.
  - destruct (leave_except_view i f gen s Hw) as [-> ->]. auto.
  - destruct (run_callback_view s) as [(rest & Hq' & Hg & Hi)|Hv].
    + assert (inflight s = 1) as H1.
      { unfold inflight in Hle |- *. rewrite Hq', length_filter_cons in Hle |- *.
        cbn [is_done_cb] in *. lia. }
      rewrite Hg. split; [lia | split; [discriminate | lia]].
    + apply gen_view_inflight in Hv as (-> & _ & ->). auto.
Qed.

Lemma tk_inv_rtc (s s' : tk_state) : rtc tk_step s s' -> tk_inv s -> tk_inv s'.
Proof. induction 1; eauto using tk_inv_step. Qed.

Lemma tk_reachable_inv (s : tk_state) : tk_reachable s -> tk_inv s.
Proof. intros (url & hms & iso & Hr). eapply tk_inv_rtc; [exact Hr | apply tk_inv_init]. Qed.

(** ** [send_message] *)

Lemma strip_nonempty_eqb (t : string) :
  py_strip t <> "" -> String.eqb (py_strip t) "" = false.
Proof. intros H. by apply String.eqb_neq. Qed.

Lemma strip_text_get_blank (t : string) :
  py_strip (text_get t) = "" <-> py_all_space t = true.
Proof.
  unfold text_get. rewrite py_strip_empty_iff, py_all_space_app.
  by rewrite andb_true_r.
Qed.

Lemma add_to_chat_user (m : string) (s : tk_state) :
  add_to_chat (JStr m) "user" s
  = ({| s with chat_display := chat_display s ++
          [ins_tag ("[" +:+ clock s +:+ "] You: ") "user"] ++ render_body m |}, Ok tt).
Proof. unfold add_to_chat, insert_display. py_unfold. cbn. by rewrite <- app_assoc. Qed.


Lemma run_one_keeps (cb : callback) (s : tk_state) :
  after_queue (fst (run_one cb s)) = after_queue s /\ closed (fst (run_one cb s)) = closed s.
Proof.
  destruct cb; cbn; try done;
    unfold add_to_chat, update_models, insert_display, set_status, show_dialog; py_unfold;
    repeat (case_match; cbn); done.
Qed.

Lemma gen_worker_lookup (l : list worker) :
  length (filter is_gen_worker l) <> 0 ->
  exists i w, l !! i = Some w /\ is_gen_worker w = true.
Proof.
  intros Hl. destruct (filter is_gen_worker l) as [|w ws] eqn:E; [done |].
  assert (w ∈ filter is_gen_worker l) as Hw by (rewrite E; left).
  apply list_elem_of_filter in Hw as [Hg Hin].
  apply list_elem_of_lookup in Hin as [i Hi].
  exists i, w. split; [done | by destruct (is_gen_worker w)].
Qed.

Lemma done_cb_elem (q : list callback) :
  length (filter is_done_cb q) <> 0 -> CbDoneGenerating ∈ q.
Proof.
  intros Hl. destruct (filter is_done_cb q) as [|cb cbs] eqn:E; [done |].
  assert (cb ∈ filter is_done_cb q) as Hc by (rewrite E; left).
  apply list_elem_of_filter in Hc as [Hd Hin]. by destruct cb.
Qed.

(** Running the queue in order reaches the [is_generating = False]
    callback: no callback schedules another one. *)
Lemma tk_drain (q : list callback) :
  forall s, closed s = false -> after_queue s = q -> CbDoneGenerating ∈ q ->
  exists s', rtc tk_step s s' /\ is_generating s' = false.
Proof.
  induction q as [|cb rest IH]; intros s Hc Hq Hin; [by apply elem_of_nil in Hin |].
  assert (tk_step s (run_callback s)) as Hst by (constructor; [done | by rewrite Hq]).
  destruct (run_one_keeps cb {| s with after_queue := rest |}) as [Hq' Hc'].
  destruct (is_done_cb cb) eqn:Hd.
  - destruct cb; try discriminate. exists (run_callback s).
    split; [by apply rtc_once | unfold run_callback; by rewrite Hq].
  - assert (CbDoneGenerating ∈ rest) as Hin'
      by (apply elem_of_cons in Hin as [Heq|?]; [subst; discriminate | done]).
    destruct (IH (run_callback s)) as (s' & Hr & Hg);
      [unfold run_callback; rewrite Hq, Hc'; done
      | unfold run_callback; rewrite Hq, Hq'; done | done |].
    exists s'. split; [by eapply rtc_l | done].
Qed.

(** A [generate] thread that leaves its [except] block queues the
    reset of the flag, and the UI thread then reaches it. *)
Lemma tk_leave_ends (i f : nat) (s : tk_state) :
  closed s = false -> workers s !! i = Some (InExcept f true) ->
  exists s', rtc tk_step s s' /\ is_generating s' = false.
Proof.
  intros Hc Hw.
  destruct (tk_drain _ (fst (leave_except i true s)) Hc eq_refl) as (s' & Hr & Hg);
    [cbn; set_solver |].
  exists s'. split; [| done]. eapply rtc_l; [by eapply TkLeaveExcept | exact Hr].
Qed.

Lemma generate_body_closed (r : http_result) (s : tk_state) :
  closed (fst (generate_body r s)) = closed s.
Proof.
  unfold generate_body, append_history, schedule. py_unfold.
  destruct r as [st t b|e]; [| done]. destruct (Z.eqb st 200); [| done].
  destruct b as [d|]; [| done]. cbn -[read_reply py_append].
  destruct (read_reply d) as [[c|]|]; cbn -[py_append]; try done.
  by destruct (py_append _ _).
Qed.

Lemma generate_finish_cases (i : nat) (r : http_result) (s : tk_state) :
  i < length (workers s) ->
  closed (fst (generate_finish i r s)) = closed s /\
  (CbDoneGenerating ∈ after_queue (fst (generate_finish i r s)) \/
   exists f, workers (fst (generate_finish i r s)) !! i = Some (InExcept f true)).
Proof.
  intros Hi. pose proof (frame_generate_body r s) as Hf.
  pose proof (generate_body_closed r s) as Hcl.
  destruct (generate_finish_run i r s) as [(s1 & E & ->)|(s1 & e & E & ->)];
    rewrite E in Hf, Hcl; cbn [fst] in Hf, Hcl;
    apply gen_view_inflight in Hf as (_ & Hws & _);
    [unfold generate_done, remove_worker, schedule | rewrite generate_failed_run];
    py_unfold; cbn [fst snd workers after_queue closed]; rewrite Hcl.
  - split; [done | left; set_solver].
  - split; [done | right]. eexists. apply list_lookup_insert_eq. by rewrite Hws.
Qed.

Lemma generate_start_cases (i : nat) (model : string) (msgs : list json) (s : tk_state) :
  workers s !! i = Some (GenWorker model msgs None) ->
  closed (fst (generate_start i model msgs s)) = closed s /\
  ((exists p, workers (fst (generate_start i model msgs s)) !! i
              = Some (GenWorker model msgs (Some p))) \/
   exists f, workers (fst (generate_start i model msgs s)) !! i = Some (InExcept f true)).
Proof.
  intros Hw. apply lookup_lt_Some in Hw.
  unfold generate_start, build_payload, set_worker. py_unfold.
  destruct (tk_double_get (temperature s)) as [t|e];
    [destruct (tk_int_get (max_tokens s)) as [n|e] |];
    rewrite ?generate_failed_run; cbn; split; try done;
    [left | right | right]; eexists; by apply list_lookup_insert_eq.
Qed.

Lemma tk_finish_ends (i : nat) (model : string) (msgs : list json) (p : payload)
  (r : http_result) (s : tk_state) :
  closed s = false -> workers s !! i = Some (GenWorker model msgs (Some p)) ->
  exists s', rtc tk_step s s' /\ is_generating s' = false.
Proof.
  intros Hc Hw.
  assert (tk_step s (fst (generate_finish i r s))) as Hst by (by eapply TkGenFinish).
  destruct (generate_finish_cases i r s) as [Hc' [Hin|[f Hf]]];
    [by eapply lookup_lt_Some | |].
  - destruct (tk_drain _ _ (eq_trans Hc' Hc) eq_refl Hin) as (s' & Hr & Hg).
    exists s'. split; [by eapply rtc_l | done].
  - destruct (tk_leave_ends i f _ (eq_trans Hc' Hc) Hf) as (s' & Hr & Hg).
    exists s'. split; [by eapply rtc_l | done].
Qed.

(** Every [generate] thread, at any point of its run, can finish and
    have its reset of the flag run. *)
Lemma tk_gen_worker_ends (i : nat) (w : worker) (s : tk_state) :
  closed s = false -> workers s !! i = Some w -> is_gen_worker w = true ->
  exists s', rtc tk_step s s' /\ is_generating s' = false.
Proof.
  intros Hc Hw Hg. destruct w as [model msgs [p|]| |f [|]]; try discriminate.
  - by eapply (tk_finish_ends i model msgs p (HttpExn (PyExn "" ""))).
  - destruct (generate_start_cases i model msgs s Hw) as [Hc' [[p Hw']|[f Hf]]];
      [destruct (tk_finish_ends i model msgs p (HttpExn (PyExn "" ""))
                   (fst (generate_start i model msgs s))) as (s' & Hr & Hg');
         [by rewrite Hc' | done |]
      | destruct (tk_leave_ends i f _ (eq_trans Hc' Hc) Hf) as (s' & Hr & Hg')];
      exists s'; (split; [eapply rtc_l; [by econstructor | exact Hr] | done]).
  - by eapply tk_leave_ends.
Qed.

(** The worker's last step on a 200 reply with a content. *)
Lemma generate_finish_ok (s : tk_state) (i : nat) (text : string) (data c : json)
  (h : list json) :
  chat_history s = JArr h -> read_reply data = Ok (Some c) ->
  fst (generate_finish i (HttpResp 200 text (Ok data)) s)
  = {| s with chat_history := JArr (h ++ [chat_msg "assistant" c]);
              after_queue := after_queue s ++
                [CbAddToChat c "assistant"; CbStatus "Ready"; CbDoneGenerating];
              workers := delete i (workers s) |}.
Proof.
  intros Hh Hr. unfold generate_finish, generate_body. py_unfold. rewrite Hr.
  cbn. rewrite Hh. cbn. by rewrite <- app_assoc.
Qed.

(** Prove [rtc tk_step s0 s] for a concrete run [s] written as the
    nested steps from [s0], peeling off the last step each time. *)
Ltac tk_reach :=
  repeat first
    [ eapply rtc_r; [| first
        [ apply TkUi; vm_compute; reflexivity
        | apply TkCallback; [vm_compute; reflexivity | neq_by_compute]
        | eapply TkFetchFinish; vm_compute; reflexivity
        | eapply TkGenStart; vm_compute; reflexivity
        | eapply TkGenFinish; vm_compute; reflexivity
        | eapply TkLeaveExcept; vm_compute; reflexivity ] ]
    | apply rtc_refl ].
