(* ===== verification/TkDemo.v ===== *)
(** * A concrete session of the Tkinter client

    The window opens, the model list arrives with one model, the user
    picks it, types [Hello] and sends it; the worker builds its
    payload, the service answers [Hi there], and the UI thread runs
    the three callbacks.  The witnesses of the theorems in [TkGuiFacts]
    and [TkFiles] apply them to the states of this run, and the lemmas
    below check that the run is one of [tk_step]. *)

From S2P Require Import Prelude PyStr PyNum Json Protocol TkRender TkGui TkFrame.
From Stdlib Require Import QArith.
Open Scope string_scope.
Open Scope list_scope.
Open Scope nat_scope.
Local Open Scope py_scope.


Definition demo_tags : json :=
  JObj [("models", JArr [JObj [("name", JStr "llama3")]])].

Definition demo_open : tk_state := tk_init "http://localhost:11434/api" "10:00:00" "2024-05-01T10:00:00".

Definition demo_ready : tk_state :=
  fst (handle (EvType "Hello")
    (fst (handle (EvSelectModel 0)
      (run_callback (fst (fetch_finish 0 (HttpResp 200 "" (Ok demo_tags)) demo_open)))))).

Definition demo_sending : tk_state := fst (handle EvSend demo_ready).

Definition demo_reply : json :=
  JObj [("model", JStr "llama3");
        ("message", JObj [("role", JStr "assistant"); ("content", JStr "Hi there")]);
        ("done", JBool true)].

Definition demo_started : tk_state :=
  fst (generate_start 0 "llama3" [chat_msg "user" (JStr "Hello")] demo_sending).

Definition demo_finished : tk_state :=
  fst (generate_finish 0 (HttpResp 200 "" (Ok demo_reply)) demo_started).

Definition demo_answered : tk_state :=
  run_callback (run_callback (run_callback demo_finished)).

Lemma demo_answered_reachable : tk_reachable demo_answered.
Proof.
  exists "http://localhost:11434/api", "10:00:00", "2024-05-01T10:00:00".
  unfold demo_answered, demo_finished, demo_started, demo_sending, demo_ready, demo_open.
  tk_reach.
Qed.

