(* ===== verification/TkGuiFacts.v ===== *)
(** * Properties of the Tkinter client

    The theorems about [TkGui], proved from the lemmas of [TkFrame]:
    the invariant that at most one request is in flight, and that the
    flag is eventually reset; the guards and the effect of
    [send_message]; the handling of every HTTP outcome by the worker,
    and the race between a callback formatting [e] and the worker
    leaving its [except] block.
    Each theorem with hypotheses is followed by a witness that applies
    it to a concrete state. *)

From S2P Require Import Prelude PyStr PyNum Json Protocol TkRender TkGui TkFrame TkDemo.
From Stdlib Require Import QArith.
Open Scope string_scope.
Open Scope list_scope.
Open Scope nat_scope.
Local Open Scope py_scope.

(** C1: in every reachable state at most one [generate] request is in
    flight, counting a finished one until its [is_generating = False]
    callback has run, and [is_generating] is set exactly while one is.
    This is the single concurrency invariant of the specification
    (section 4.1, [buildRequest]): the flag blocks a second send. *)
Theorem tk_at_most_one_request (s : tk_state) :
  tk_reachable s -> inflight s <= 1 /\ (is_generating s = true <-> inflight s = 1).
Proof.
  apply tk_reachable_inv.
Qed.

Lemma tk_at_most_one_request_witness :
  inflight demo_sending <= 1 /\ (is_generating demo_sending = true <-> inflight demo_sending = 1).
Proof.
  apply tk_at_most_one_request.
  exists "http://localhost:11434/api", "10:00:00", "2024-05-01T10:00:00".
  unfold demo_sending, demo_ready, demo_open.
  tk_reach.
Defined.


(** C3: with no request in flight, a model selected, a list history
    and a non-blank input, [send_message] shows the message, clears
    the input, appends [{"role": "user", "content": m}] to the history,
    sets [is_generating], and starts a worker whose messages are the
    stripped system prompt, when it is not empty, followed by the
    whole history. *)
Theorem tk_send_message_ok (s : tk_state) (h : list json) :
  is_generating s = false -> chat_history s = JArr h ->
  py_strip (text_get (user_input s)) <> "" -> selected_model s <> "" ->
  let m := py_strip (text_get (user_input s)) in
  let s' := fst (send_message s) in
  chat_history s' = JArr (h ++ [chat_msg "user" (JStr m)]) /\
  is_generating s' = true /\ user_input s' = "" /\
  status_label s' = "Generating response..." /\
  workers s' = workers s ++ [GenWorker (selected_model s)
     (build_messages (py_strip (text_get (system_prompt_text s)))
                     (h ++ [chat_msg "user" (JStr m)])) None] /\
  chat_display s' = chat_display s ++
     [ins_tag ("[" +:+ clock s +:+ "] You: ") "user"] ++ render_body m.
Proof.
  intros Hg Hh Hm Hmodel.
  unfold send_message. cbn [pbind pget fst snd].
  rewrite Hg, (strip_nonempty_eqb _ Hm).
  apply String.eqb_neq in Hmodel. rewrite Hmodel.
  rewrite (pbind_ok _ _ s _ _ (add_to_chat_user _ s)).
  cbn. rewrite Hh. cbn. done.
Qed.

Lemma tk_send_message_ok_witness :
  let m := py_strip (text_get (user_input demo_ready)) in
  let s' := fst (send_message demo_ready) in
  chat_history s' = JArr ([] ++ [chat_msg "user" (JStr m)]) /\
  is_generating s' = true /\ user_input s' = "" /\
  status_label s' = "Generating response..." /\
  workers s' = workers demo_ready ++ [GenWorker (selected_model demo_ready)
     (build_messages (py_strip (text_get (system_prompt_text demo_ready)))
                     ([] ++ [chat_msg "user" (JStr m)])) None] /\
  chat_display s' = chat_display demo_ready ++
     [ins_tag ("[" +:+ clock demo_ready +:+ "] You: ") "user"] ++ render_body m.
Proof.
  apply (tk_send_message_ok demo_ready []);
    [vm_compute; reflexivity | vm_compute; reflexivity | neq_by_compute | neq_by_compute].
Defined.


(** C4: [send_message] does nothing at all while a request is in
    flight or when the input is blank, and with no model selected it
    only shows the warning.  The first two return silently, where the
    specification (section 4.1) asks for the signals
    [AlreadyGenerating] and [EmptyInput]. *)
Theorem tk_send_message_guards (s : tk_state) :
  (is_generating s = true -> fst (send_message s) = s) /\
  (py_all_space (user_input s) = true -> fst (send_message s) = s) /\
  (is_generating s = false -> py_all_space (user_input s) = false ->
   selected_model s = "" ->
   fst (send_message s)
   = {| s with dialogs := dialogs s ++
          [ShowWarning "No Model Selected" "Please select a model first."] |}).
Proof.
  unfold send_message. cbn [pbind pget fst snd].
  split; [by intros -> |]. split.
  - intros Hb. apply strip_text_get_blank in Hb. rewrite Hb. by destruct (is_generating s).
  - intros Hg Hb Hs.
    assert (py_strip (text_get (user_input s)) <> "") as Hm
      by (rewrite strip_text_get_blank; congruence).
    destruct s; cbn in Hg, Hs, Hm |- *; subst.
    by rewrite (strip_nonempty_eqb _ Hm).
Qed.

Lemma tk_send_message_guards_witness : fst (send_message demo_sending) = demo_sending.
Proof.
  apply (proj1 (tk_send_message_guards demo_sending)). vm_compute. reflexivity.
Defined.


(** ** The worker's outcome *)

(** C5: a 200 reply whose [message.content] is true is appended to the
    history as [{"role": "assistant", "content": content}], and the
    worker schedules its display, the status ["Ready"] and the reset of
    [is_generating], in that order. *)
Theorem tk_reply_appended (s : tk_state) (i : nat) (text : string) (data c : json)
  (h : list json) :
  chat_history s = JArr h -> read_reply data = Ok (Some c) ->
  let s' := fst (generate_finish i (HttpResp 200 text (Ok data)) s) in
  chat_history s' = JArr (h ++ [chat_msg "assistant" c]) /\
  after_queue s' = after_queue s ++
    [CbAddToChat c "assistant"; CbStatus "Ready"; CbDoneGenerating] /\
  workers s' = delete i (workers s).
Proof.
  intros Hh Hr. by rewrite (generate_finish_ok s i text data c h Hh Hr).
Qed.

Lemma tk_reply_appended_witness :
  let s' := fst (generate_finish 1 (HttpResp 200 "" (Ok demo_reply)) demo_sending) in
  chat_history s' = JArr ([chat_msg "user" (JStr "Hello")] ++
                          [chat_msg "assistant" (JStr "Hi there")]) /\
  after_queue s' = after_queue demo_sending ++
    [CbAddToChat (JStr "Hi there") "assistant"; CbStatus "Ready"; CbDoneGenerating] /\
  workers s' = delete 1 (workers demo_sending).
Proof.
  apply tk_reply_appended; vm_compute; reflexivity.
Defined.


(** C6: every outcome of the request other than a reply with a
    content leaves the history as it was, and each kind schedules its
    own line.  A status other than 200 schedules the system line
    [http_error_msg] (the body's [error], or the status), and a reply
    without content the empty-response line, each followed by the
    ["Error"] status and, from [finally], the reset of
    [is_generating].  An exception (of the request, of [.json()], of
    the reply test on a non-dict, or of [append] on a history that is
    not a list) leaves the worker inside its [except] block with a
    fresh frame for [e], and schedules the callback that formats that
    [e] and the ["Error"] status; the reset comes when the worker
    leaves the block. *)
Theorem tk_reply_failure (s : tk_state) (i : nat) :
  (forall st t b, st <> 200%Z ->
     let s' := fst (generate_finish i (HttpResp st t b) s) in
     chat_history s' = chat_history s /\ workers s' = delete i (workers s) /\
     after_queue s' = after_queue s ++
       [CbAddToChat (JStr (http_error_msg st b)) "system"; CbStatus "Error"; CbDoneGenerating]) /\
  (forall t data, read_reply data = Ok None ->
     let s' := fst (generate_finish i (HttpResp 200 t (Ok data)) s) in
     chat_history s' = chat_history s /\ workers s' = delete i (workers s) /\
     after_queue s' = after_queue s ++
       [CbAddToChat (JStr "Error: Received empty response from model.") "system";
        CbStatus "Error"; CbDoneGenerating]) /\
  (forall r e,
     r = HttpExn e \/ (exists t, r = HttpResp 200 t (Raise e)) \/
     (exists t data, r = HttpResp 200 t (Ok data) /\ read_reply data = Raise e) \/
     (exists t data c, r = HttpResp 200 t (Ok data) /\ read_reply data = Ok (Some c) /\
        py_append (chat_history s) (chat_msg "assistant" c) = Raise e) ->
     let s' := fst (generate_finish i r s) in
     chat_history s' = chat_history s /\
     workers s' = <[i := InExcept (next_frame s) true]> (workers s) /\
     after_queue s' = after_queue s ++
       [CbAddToChatExn (next_frame s) e "system"; CbStatus "Error"]).
Proof.
  unfold generate_finish, generate_done, remove_worker, schedule.
  split_and!.
  - intros st t b Hst%Z.eqb_neq. unfold generate_body. py_unfold. rewrite Hst. cbn.
    split_and!; [done | done | by rewrite <- app_assoc].
  - intros t data Hr. unfold generate_body. py_unfold. rewrite Hr. cbn.
    split_and!; [done | done | by rewrite <- app_assoc].
  - intros r e Hr.
    assert (generate_body r s = (s, Raise e)) as E.
    { unfold generate_body, append_history. py_unfold.
      destruct Hr as [->|[[t ->]|[(t & data & -> & Hd)|(t & data & c & -> & Hd & Ha)]]];
        cbn -[read_reply py_append]; rewrite ?Hd, ?Ha; reflexivity. }
    cbv [pbind ptry pret]. rewrite E, generate_failed_run. cbn. done.
Qed.

Lemma tk_reply_failure_witness :
  let s' := fst (generate_finish 1 (HttpResp 404 "" (Ok (JObj [("error", JStr "model not found")])))
                   demo_sending) in
  chat_history s' = chat_history demo_sending /\ workers s' = delete 1 (workers demo_sending) /\
  after_queue s' = after_queue demo_sending ++
    [CbAddToChat (JStr "Error: model not found") "system"; CbStatus "Error"; CbDoneGenerating].
Proof.
  pose proof (proj1 (tk_reply_failure demo_sending 1) 404%Z ""
                (Ok (JObj [("error", JStr "model not found")])) ltac:(discriminate)) as H.
  cbv zeta in H. replace (http_error_msg 404 (Ok (JObj [("error", JStr "model not found")])))
    with "Error: model not found" in H by (vm_compute; reflexivity).
  exact H.
Defined.

(** The race of the [except] block.  After a transport error the
    worker [i] waits inside its [except] block while the UI thread
    may already run the first callback.  Run then, it shows the error
    line [Error: str(e)]; run after the worker has left the block, it
    raises [NameError], Tk reports it, and nothing is shown.  Both
    orders are steps of [tk_step]. *)
Lemma frame_live_insert (f : nat) (gen : bool) (i : nat) (l : list worker) :
  i < length l ->
  existsb (fun w => match w with InExcept f' _ => Nat.eqb f f' | _ => false end)
    (<[i := InExcept f gen]> l) = true.
Proof.
  intros Hi. apply existsb_exists. exists (InExcept f gen).
  split; [| cbn; apply Nat.eqb_refl].
  apply list_elem_of_In, list_elem_of_lookup. exists i. cbn. by apply list_lookup_insert_eq.
Qed.

Lemma existsb_delete_insert {A} (p : A -> bool) (l : list A) (i : nat) (x : A) :
  existsb p l = false -> existsb p (delete i (<[i := x]> l)) = false.
Proof.
  revert i. induction l as [|y l IH]; intros [|i] H; [done | done | |];
    cbn in H |- *; apply orb_false_iff in H as [Hy Hl]; [done | by rewrite Hy, IH].
Qed.

Theorem tk_except_race (s : tk_state) (i : nat) (e : exn) :
  closed s = false -> after_queue s = [] -> i < length (workers s) ->
  frame_live (next_frame s) s = false ->
  let s1 := fst (generate_finish i (HttpExn e) s) in
  let shown := [ins_tag (nl +:+ "--- Error: " +:+ exn_str e +:+ " ---" +:+ nl2) "system"] in
  (tk_step s1 (run_callback s1) /\
   chat_display (run_callback s1) = chat_display s ++ shown) /\
  (tk_step s1 (fst (leave_except i true s1)) /\
   chat_display (run_callback (fst (leave_except i true s1))) = chat_display s /\
   after_queue (run_callback (fst (leave_except i true s1))) = [CbStatus "Error"; CbDoneGenerating]).
Proof.
  intros Hc Hq Hi Hf. cbv zeta.
  assert (fst (generate_finish i (HttpExn e) s) =
          fst (generate_failed i e s)) as -> by done.
  rewrite generate_failed_run, Hq. split; split_and!.
  - constructor; [done | discriminate].
  - unfold run_callback, with_exn, frame_live. cbn.
    rewrite (frame_live_insert _ _ _ _ Hi). done.
  - eapply TkLeaveExcept. cbn. by apply list_lookup_insert_eq.
  - unfold run_callback. cbn. unfold with_exn, frame_live. cbn.
    by rewrite (existsb_delete_insert _ _ _ _ Hf).
  - unfold run_callback. cbn. unfold with_exn, frame_live. cbn.
    by rewrite (existsb_delete_insert _ _ _ _ Hf).
Qed.

Lemma tk_except_race_witness :
  let s := demo_started in
  let s1 := fst (generate_finish 0 (HttpExn (PyExn "ConnectionError" "refused")) s) in
  let shown := [ins_tag (nl +:+ "--- Error: refused ---" +:+ nl2) "system"] in
  (tk_step s1 (run_callback s1) /\
   chat_display (run_callback s1) = chat_display s ++ shown) /\
  (tk_step s1 (fst (leave_except 0 true s1)) /\
   chat_display (run_callback (fst (leave_except 0 true s1))) = chat_display s /\
   after_queue (run_callback (fst (leave_except 0 true s1))) = [CbStatus "Error"; CbDoneGenerating]).
Proof.
  apply (tk_except_race demo_started 0 (PyExn "ConnectionError" "refused"));
    vm_compute; [reflexivity | reflexivity | lia | reflexivity].
Defined.


(** C2: liveness of the flag.  From every reachable state of an open
    window, some run of the program resets [is_generating] and leaves
    no request in flight: the worker finishes (with any outcome) and
    the UI thread runs its queued callbacks in order. *)
Theorem tk_generation_ends (s : tk_state) :
  tk_reachable s -> closed s = false ->
  exists s', rtc tk_step s s' /\ is_generating s' = false /\ inflight s' = 0.
Proof.
  intros Hreach Hc.
  cut (exists s', rtc tk_step s s' /\ is_generating s' = false).
  { intros (s' & Hr & Hg). exists s'. split_and!; [done | done |].
    assert (tk_reachable s') as [Hle Hiff]%tk_reachable_inv
      by (destruct Hreach as (url & hms & iso & H0); exists url, hms, iso; by etrans).
    rewrite Hg in Hiff. assert (inflight s' <> 1) by (intros H; by apply Hiff in H). lia. }
  destruct (is_generating s) eqn:Hg; [| by exists s].
  destruct (tk_reachable_inv s Hreach) as [_ Hiff].
  apply Hiff in Hg. unfold inflight in Hg.
  destruct (decide (length (filter is_done_cb (after_queue s)) = 0)) as [H0|H0].
  - destruct (gen_worker_lookup (workers s)) as (i & w & Hw & Hgw); [lia |].
    by eapply tk_gen_worker_ends.
  - by eapply tk_drain; [| reflexivity | apply done_cb_elem].
Qed.

Lemma tk_generation_ends_witness :
  exists s', rtc tk_step demo_sending s' /\ is_generating s' = false /\ inflight s' = 0.
Proof.
  apply tk_generation_ends; [| vm_compute; reflexivity].
  exists "http://localhost:11434/api", "10:00:00", "2024-05-01T10:00:00".
  unfold demo_sending, demo_ready, demo_open.
  tk_reach.
Defined.


(** ** Interleavings and the other handlers *)

(** C10: a reply is filed into whatever chat is current when the worker
    ends.  If the user clears the chat while a request is in flight,
    the reply becomes the only message of the new chat, although the
    request was built from the old one, and the flag stays set. *)
Theorem tk_reply_after_clear (s : tk_state) (i : nat) (model : string) (msgs : list json)
  (p : payload) (text : string) (data c : json) :
  workers s !! i = Some (GenWorker model msgs (Some p)) -> read_reply data = Ok (Some c) ->
  let s1 := fst (clear_chat s) in
  let s2 := fst (generate_finish i (HttpResp 200 text (Ok data)) s1) in
  is_generating s1 = is_generating s /\ workers s1 = workers s /\
  chat_history s2 = JArr [chat_msg "assistant" c].
Proof.
  intros _ Hr. cbn zeta.
  assert (chat_history (fst (clear_chat s)) = JArr []) as Hh
    by (unfold clear_chat; py_unfold; by case_match).
  rewrite (generate_finish_ok _ i text data c [] Hh Hr).
  unfold clear_chat. py_unfold. by case_match.
Qed.

Lemma tk_reply_after_clear_witness :
  let s1 := fst (clear_chat demo_started) in
  let s2 := fst (generate_finish 0 (HttpResp 200 "" (Ok demo_reply)) s1) in
  is_generating s1 = is_generating demo_started /\ workers s1 = workers demo_started /\
  chat_history s2 = JArr [chat_msg "assistant" (JStr "Hi there")].
Proof.
  eapply (tk_reply_after_clear demo_started 0 "llama3" [chat_msg "user" (JStr "Hello")]);
    vm_compute; reflexivity.
Defined.

(** Code bug: choosing a model shows its ["Model ... selected"]
    line twice: [on_model_selected] calls [clear_chat], which already
    adds the line for the selected model (lines 438-440), and then adds
    it again (line 251).  The chat is empty afterwards. *)
Theorem tk_model_selected_twice (model : string) (s : tk_state) :
  model <> "" ->
  let line := ins_tag (nl +:+ "--- " +:+ model_selected_text model +:+ " ---" +:+ nl2)
                      "system" in
  chat_display (fst (on_model_selected model s)) = [line; line] /\
  chat_history (fst (on_model_selected model s)) = JArr [] /\
  selected_model (fst (on_model_selected model s)) = model.
Proof.
  intros Hm%String.eqb_neq. unfold on_model_selected, clear_chat. py_unfold.
  rewrite Hm. cbn. by rewrite Hm.
Qed.

Lemma tk_model_selected_twice_witness :
  let line := ins_tag (nl +:+ "--- " +:+ model_selected_text "llama3" +:+ " ---" +:+ nl2)
                      "system" in
  chat_display (fst (on_model_selected "llama3" demo_answered)) = [line; line] /\
  chat_history (fst (on_model_selected "llama3" demo_answered)) = JArr [] /\
  selected_model (fst (on_model_selected "llama3" demo_answered)) = "llama3".
Proof. apply tk_model_selected_twice. neq_by_compute. Defined.

(** The window closes exactly when each confirmation that is asked
    is answered yes: the one about a running request when
    [is_generating] is set, the one about unsaved messages when the
    history is not empty. *)
Theorem tk_on_close_spec (y1 y2 : bool) (s : tk_state) :
  closed (fst (on_close y1 y2 s))
  = (closed s || (negb (is_generating s) || y1) && (negb (py_truthy (chat_history s)) || y2)).
Proof.
  unfold on_close, show_dialog. py_unfold.
  destruct (is_generating s), y1, (py_truthy (chat_history s)), y2; cbn;
    by destruct (closed s).
Qed.

(** The session of [TkDemo], run to the end, leaves the exchange in
    the history, the flag reset, the status ["Ready"], nothing queued
    and no thread running.  The display shows the model line twice
    (see [tk_model_selected_twice]), then the two messages. *)
Example tk_demo_session :
  tk_reachable demo_answered /\
  chat_history demo_answered = JArr [chat_msg "user" (JStr "Hello");
                                     chat_msg "assistant" (JStr "Hi there")] /\
  is_generating demo_answered = false /\ status_label demo_answered = "Ready" /\
  after_queue demo_answered = [] /\ workers demo_answered = [] /\
  chat_display demo_answered =
    [ins_tag (nl +:+ "--- " +:+ model_selected_text "llama3" +:+ " ---" +:+ nl2) "system";
     ins_tag (nl +:+ "--- " +:+ model_selected_text "llama3" +:+ " ---" +:+ nl2) "system";
     ins_tag "[10:00:00] You: " "user"; ins "Hello"; ins nl2;
     ins_tag "[10:00:00] AI: " "assistant"; ins "Hi there"; ins nl2].
Proof. split; [exact demo_answered_reachable | vm_compute; by repeat split]. Qed.
