(* ===== verification/TkFiles.v ===== *)
(** * Saving and loading chats in the Tkinter client

    [save_chat] writes the dict [{"model", "system_prompt",
    "temperature", "max_tokens", "history", "timestamp",
    "app_version"}] and [load_chat] reads it back (ollama_gui.py lines
    444-519).  This file proves that a chat saved and loaded again
    comes back, and what [load_chat] does with files it did not write:
    a dict without ["history"] loads as an empty chat, and a history
    entry without ["content"] stops the load half-way, after the
    history and the settings have been replaced. *)

From S2P Require Import Prelude PyStr PyNum Json Protocol TkRender TkGui TkFrame TkDemo.
From Stdlib Require Import QArith.
Open Scope string_scope.
Open Scope list_scope.
Open Scope nat_scope.
Local Open Scope py_scope.

(** A history entry as the client itself writes it. *)
Definition wf_msg (m : json) : Prop := exists role c, m = chat_msg role (JStr c).

Lemma read_file_head (s : tk_state) (path : string) (doc : json) rest :
  files s = (path, Some doc) :: rest -> read_file s path = Ok doc.
Proof. intros H. unfold read_file. rewrite H. cbn. by case_decide. Qed.

Lemma add_to_chat_system (c : string) (s : tk_state) :
  add_to_chat (JStr c) "system" s
  = ({| s with chat_display := chat_display s ++
          [ins_tag (nl +:+ "--- " +:+ c +:+ " ---" +:+ nl2) "system"] |}, Ok tt).
Proof. reflexivity. Qed.

Lemma add_to_chat_str (role c : string) (s : tk_state) :
  exists d, add_to_chat (JStr c) role s = ({| s with chat_display := chat_display s ++ d |}, Ok tt).
Proof.
  unfold add_to_chat, insert_display. py_unfold. cbn.
  repeat case_match; eexists; by rewrite <- ?app_assoc.
Qed.

Lemma display_messages_wf (h : list json) :
  Forall wf_msg h -> forall s,
  exists d, display_messages h s = ({| s with chat_display := chat_display s ++ d |}, Ok tt).
Proof.
  induction 1 as [|m h (role & c & ->) _ IH]; intros s;
    [exists []; rewrite app_nil_r; by destruct s |].
  cbn [display_messages]. py_unfold. cbn -[add_to_chat].
  destruct (add_to_chat_str role c s) as [d1 ->].
  destruct (IH {| s with chat_display := chat_display s ++ d1 |}) as [d2 ->].
  exists (d1 ++ d2). cbn. by rewrite app_assoc.
Qed.

(** The document [save_chat] writes. *)
Definition saved_doc (s : tk_state) (t n : json) : json :=
  JObj [("model", JStr (selected_model s));
        ("system_prompt", JStr (py_strip (text_get (system_prompt_text s))));
        ("temperature", t); ("max_tokens", n); ("history", chat_history s);
        ("timestamp", JStr (now_iso s)); ("app_version", JStr app_version)].

Lemma save_chat_ok (path : string) (s : tk_state) (t n : json) :
  py_truthy (chat_history s) = true -> path <> "" ->
  tk_double_get (temperature s) = Ok t -> tk_int_get (max_tokens s) = Ok n ->
  save_chat path None s
  = ({| s with files := (path, Some (saved_doc s t n)) :: (path, None) :: files s;
               status_label := "Chat saved to " +:+ py_basename path |}, Ok tt).
Proof.
  intros Hh Hp Ht Hn. apply String.eqb_neq in Hp.
  unfold save_chat, write_file, set_status. py_unfold. rewrite Hh, Hp. cbn -[tk_double_get tk_int_get].
  by rewrite Ht, Hn.
Qed.

(** C7: a chat saved to a file and loaded back comes back: the
    history, the model when it is still listed, the system prompt
    (stripped, as the widget text is read with [.strip()]), the
    temperature and the token limit as Tk read them when saving; the
    load shows no error.  The file may be loaded in any later state
    whose files are the ones the save left. *)
Theorem tk_save_load_roundtrip (path : string) (s s2 : tk_state) (h : list json) (t n : json) :
  chat_history s = JArr h -> h <> [] -> Forall wf_msg h -> path <> "" ->
  tk_double_get (temperature s) = Ok t -> tk_int_get (max_tokens s) = Ok n ->
  files s2 = files (fst (save_chat path None s)) ->
  py_in_list (JStr (selected_model s)) (models s2) = true ->
  let s3 := fst (load_chat path s2) in
  chat_history s3 = chat_history s /\ selected_model s3 = selected_model s /\
  system_prompt_text s3 = py_strip (text_get (system_prompt_text s)) /\
  temperature s3 = t /\ max_tokens s3 = n /\ dialogs s3 = dialogs s2 /\
  status_label s3 = "Chat loaded from " +:+ py_basename path.
Proof.
  intros Hh Hne Hwf Hp Ht Hn Hf Hin.
  assert (py_truthy (chat_history s) = true) as Htr by (rewrite Hh; by destruct h).
  rewrite (save_chat_ok path s t n Htr Hp Ht Hn) in Hf. cbn in Hf.
  apply String.eqb_neq in Hp.
  unfold load_chat. rewrite Hp. py_unfold. rewrite (read_file_head s2 path _ _ Hf).
  cbn -[add_to_chat display_messages py_in_list]. rewrite Hin. cbn -[add_to_chat display_messages].
  rewrite add_to_chat_system. rewrite Hh. cbn -[display_messages].
  match goal with |- context [display_messages h ?S] =>
    destruct (display_messages_wf h Hwf S) as [d ->] end.
  cbn. by repeat split.
Qed.

Definition demo_saved : tk_state := fst (save_chat "/tmp/chat.json" None demo_answered).

Lemma tk_save_load_roundtrip_witness :
  let s3 := fst (load_chat "/tmp/chat.json" demo_saved) in
  chat_history s3 = chat_history demo_answered /\
  selected_model s3 = selected_model demo_answered /\
  system_prompt_text s3 = py_strip (text_get (system_prompt_text demo_answered)) /\
  temperature s3 = JFloat (7 # 10) /\ max_tokens s3 = JInt 1024 /\
  dialogs s3 = dialogs demo_saved /\
  status_label s3 = "Chat loaded from " +:+ py_basename "/tmp/chat.json".
Proof.
  apply (tk_save_load_roundtrip "/tmp/chat.json" demo_answered demo_saved
           [chat_msg "user" (JStr "Hello"); chat_msg "assistant" (JStr "Hi there")]);
    [vm_compute; reflexivity | discriminate
    | repeat constructor; do 2 eexists; reflexivity
    | neq_by_compute | vm_compute; reflexivity .. ].
Defined.


Lemma has_key_getitem (kv : list (string * json)) (k : string) :
  py_has_key (JObj kv) k = true -> exists v, py_getitem (JObj kv) k = Ok v.
Proof. cbn. destruct (assoc_last kv k); [eauto | done]. Qed.

(** Run the settings part of [load_chat] (lines 491-502) on a dict:
    each optional key is either absent or read without error. *)
Ltac load_settings kv :=
  repeat match goal with
    | |- context [py_has_key (JObj kv) ?k] =>
        let E := fresh "E" in
        destruct (py_has_key (JObj kv) k) eqn:E;
        [destruct (has_key_getitem kv k E) as [? ->] |]
    | |- context [py_in_list ?m ?l] => destruct (py_in_list m l)
    end; cbn -[add_to_chat display_messages py_has_key py_getitem py_get_default].





(** Code bug: a history entry without ["content"] makes
    [load_chat] fail half-way: the history and the settings have been
    replaced and the display cleared before the loop raises [KeyError],
    so the chat on screen is gone, the loaded history is the malformed
    one, and the user only sees the error dialog. *)
Theorem tk_load_partial (path : string) (s : tk_state) (kv : list (string * json))
  (m : json) (rest : list json) (e : exn) :
  path <> "" -> read_file s path = Ok (JObj kv) ->
  assoc_last kv "history" = Some (JArr (m :: rest)) -> py_getitem m "content" = Raise e ->
  let s' := fst (load_chat path s) in
  chat_history s' = JArr (m :: rest) /\
  chat_display s' = [ins_tag (nl +:+ "--- " +:+ "Chat loaded from " +:+ py_basename path
                              +:+ " ---" +:+ nl2) "system"] /\
  dialogs s' = dialogs s ++ [ShowError "Error" ("Failed to load chat: " +:+ exn_str e)] /\
  status_label s' = status_label s.
Proof.
  intros Hp Hr Hh Hc. apply String.eqb_neq in Hp.
  unfold load_chat. rewrite Hp. py_unfold. rewrite Hr.
  cbn -[add_to_chat display_messages py_has_key py_getitem py_get_default py_in_list].
  unfold py_get, py_get_default. rewrite Hh.
  destruct (assoc_last kv "model"); load_settings kv;
    rewrite add_to_chat_system; cbn -[py_getitem add_to_chat]; rewrite Hc; cbn; by repeat split.
Qed.

Definition demo_bad_file : tk_state :=
  {| demo_answered with files :=
       [("/tmp/bad.json", Some (JObj [("temperature", JFloat (1 # 5));
                                      ("history", JArr [JObj [("role", JStr "user")]])]))] |}.

Lemma tk_load_partial_witness :
  let s' := fst (load_chat "/tmp/bad.json" demo_bad_file) in
  chat_history s' = JArr [JObj [("role", JStr "user")]] /\
  chat_display s' = [ins_tag (nl +:+ "--- " +:+ "Chat loaded from " +:+
                              py_basename "/tmp/bad.json" +:+ " ---" +:+ nl2) "system"] /\
  dialogs s' = dialogs demo_bad_file ++
    [ShowError "Error" ("Failed to load chat: " +:+ exn_str (PyExn "KeyError" "'content'"))] /\
  status_label s' = status_label demo_bad_file.
Proof.
  apply (tk_load_partial "/tmp/bad.json" demo_bad_file
           [("temperature", JFloat (1 # 5)); ("history", JArr [JObj [("role", JStr "user")]])]
           (JObj [("role", JStr "user")]) []);
    [neq_by_compute | vm_compute; reflexivity ..].
Defined.

