(* ===== verification/Terminal.v ===== *)
(** * The curses terminal client (src/terminal_app/ollama_chat.py)

    [OllamaChat] keeps the history, the model and the settings in
    fields, asks for a model on stdin ([select_model]), then runs the
    curses loop of [run_curses_ui]: one line of input per iteration,
    either a command ([/exit], [/quit], [/temp], [/clear], [/help]) or
    a message, which [send_message] posts synchronously before the
    chat window is redrawn from the history.

    The state is the record [term_state].  Its screen part is what
    the code writes: the chat window as the list of [addstr] calls of
    the last [redraw_chat] that reached [refresh()], the status line,
    and the lines printed on stdout.  The posted payloads are logged
    in order.  The loop is the step relation [term_step]; an iteration
    that raises leaves the loop and ends the curses UI, as it does in
    the code.

    [textwrap.wrap] is a library function the client only calls: the
    model takes it from the class [TextWrap].  [curses] raises
    [_curses.error] when [addstr] is called at a row or column outside
    the window; that is modelled, the terminal's own line wrapping
    and scrolling are not. *)

From S2P Require Import Prelude PyStr PyNum Json Protocol.
From Stdlib Require Import Ascii QArith.
Open Scope string_scope.
Open Scope list_scope.
Open Scope nat_scope.
Local Open Scope py_scope.

(** ** Python values of the terminal client *)

(** [str(x)] of a float. *)
Definition py_str_float (f : pyfloat) : string :=
  match f with
  | PFloat q => py_repr_float q
  | PInf false => "inf"
  | PInf true => "-inf"
  | PNaN => "nan"
  end.

(** [0 <= x <= 1]; comparisons with [nan] are false. *)
Definition in_unit (f : pyfloat) : bool :=
  match f with
  | PFloat q => Qle_bool 0 q && Qle_bool q 1
  | _ => false
  end.

(** [s.split(' ')]: the pieces between single spaces. *)
Fixpoint split_space_aux (l : list Ascii.ascii) (cur : list Ascii.ascii) : list string :=
  match l with
  | [] => [String.string_of_list_ascii (rev cur)]
  | c :: l' =>
      if Ascii.eqb c " " then String.string_of_list_ascii (rev cur) :: split_space_aux l' []
      else split_space_aux l' (c :: cur)
  end.

Definition py_split_space (s : string) : list string :=
  split_space_aux (String.list_ascii_of_string s) [].

(** [l[i]] for a list and [0 <= i]. *)
Definition py_index {A} (l : list A) (i : nat) : res A :=
  match l !! i with
  | Some x => Ok x
  | None => Raise (PyExn "IndexError" "list index out of range")
  end.

(** [self.models[idx]] where [self.models] is what the tags request
    returned: a list is indexed, a dict looks the int up as a key. *)
Definition py_index_json (v : json) (i : Z) : res json :=
  match v with
  | JArr l => py_index l (Z.to_nat i)
  | JObj _ => Raise (PyExn "KeyError" (py_str_int i))
  | _ => Raise (PyExn "TypeError" ("'" +:+ py_type_name v +:+ "' object is not subscriptable"))
  end.

(** [len(v)] of a list, dict or string. *)
Definition py_len (v : json) : res Z :=
  match v with
  | JArr l => Ok (Z.of_nat (length l))
  | JObj kv => Ok (Z.of_nat (length kv))
  | JStr s => Ok (Z.of_nat (String.length s))
  | _ => Raise (PyExn "TypeError" ("object of type '" +:+ py_type_name v +:+ "' has no len()"))
  end.

(** The ANSI sequences of [class Colors]. *)
Definition esc : string := String (Ascii.ascii_of_nat 27) "".
Definition c_header : string := esc +:+ "[95m".
Definition c_blue : string := esc +:+ "[94m".
Definition c_green : string := esc +:+ "[92m".
Definition c_yellow : string := esc +:+ "[93m".
Definition c_red : string := esc +:+ "[91m".
Definition c_endc : string := esc +:+ "[0m".
Definition c_bold : string := esc +:+ "[1m".

(** ** State *)

(** One [addstr(y, x, text)] under the colour pair [color] (0 for
    none). *)
Record draw : Type := Draw { d_y : Z; d_x : Z; d_text : string; d_color : Z }.

(** The JSON body of one [requests.post] to [/chat]. *)
Record term_payload : Type := TermPayload {
  tp_model : json;
  tp_messages : list json;
  tp_temperature : pyfloat;
  tp_num_predict : Z
}.

Record term_state : Type := TermState {
  t_models : json;
  current_model : json;
  t_history : list json;
  t_temperature : pyfloat;
  t_max_tokens : Z;
  exit_requested : bool;
  t_max_x : Z;
  t_chat_height : Z;
  chat_win : list draw;
  status_line : string;
  t_stdout : list string;
  t_requests : list term_payload;
  t_running : bool
}.

Definition print (line : string) : pyM term_state unit :=
  pmodify (fun s => {| s with t_stdout := t_stdout s ++ [line] |}).

Definition hist_append (m : json) : pyM term_state unit :=
  pmodify (fun s => {| s with t_history := t_history s ++ [m] |}).

(** [OllamaChat.__init__] (lines 34-50). *)
Definition term_new : term_state := {|
  t_models := JArr []; current_model := JNull; t_history := [];
  t_temperature := PFloat (7 # 10); t_max_tokens := 1024; exit_requested := false;
  t_max_x := 0; t_chat_height := 0; chat_win := []; status_line := "";
  t_stdout := []; t_requests := []; t_running := false |}.

(** ** [fetch_models] and [select_model] (lines 52-88) *)

Definition term_fetch_models (r : http_result) : pyM term_state json :=
  ptry
    (match r with
     | HttpExn e => praise e
     | HttpResp status _ body =>
         if Z.eqb status 200 then
           data <- plift body;;
           plift (py_get_default data "models" (JArr []))
         else pret (JArr [])
     end)
    (fun e => print (c_red +:+ "Error fetching models: " +:+ exn_str e +:+ c_endc);;
              pret (JArr [])).

(** One line typed at a prompt, or Ctrl+C. *)
Inductive term_input : Type :=
| TLine (text : string)
| TCtrlC.

Definition keyboard_interrupt : exn := PyExn "KeyboardInterrupt" "".

(** The outcome of the selection loop: a model name, [None] when it
    is cancelled, or still waiting for input when the lines run out. *)
Inductive selection : Type :=
| Selected (name : json)
| SelCancelled
| SelWaiting.

(** [print(f"{...}[{i+1}]{...} {model['name']}")] for each model. *)
Fixpoint print_models (i : Z) (ms : list json) : pyM term_state unit :=
  match ms with
  | [] => pret tt
  | m :: ms' =>
      name <- plift (py_getitem m "name");;
      print (c_blue +:+ "[" +:+ py_str_int (i + 1) +:+ "]" +:+ c_endc +:+ " " +:+ py_str name);;
      print_models (i + 1) ms'
  end.

(** The [while True] loop of lines 76-88 over the lines typed. *)
Fixpoint select_loop (ms : json) (n : Z) (inputs : list term_input)
  : pyM term_state selection :=
  match inputs with
  | [] => pret SelWaiting
  | TCtrlC :: _ =>
      print (c_green +:+ "Select a model (1-" +:+ py_str_int n +:+ "): " +:+ c_endc);;
      print (nl +:+ c_red +:+ "Model selection cancelled." +:+ c_endc);; pret SelCancelled
  | TLine choice :: rest =>
      print (c_green +:+ "Select a model (1-" +:+ py_str_int n +:+ "): " +:+ c_endc);;
      match py_int choice with
      | Raise _ => print (c_yellow +:+ "Please enter a number." +:+ c_endc);; select_loop ms n rest
      | Ok v =>
          let idx := (v - 1)%Z in
          if (0 <=? idx)%Z && (idx <? n)%Z then
            m <- plift (py_index_json ms idx);;
            name <- plift (py_getitem m "name");;
            pret (Selected name)
          else print (c_yellow +:+ "Invalid choice. Please try again." +:+ c_endc);;
               select_loop ms n rest
      end
  end.

Definition select_model (r : http_result) (inputs : list term_input)
  : pyM term_state selection :=
  ms <- term_fetch_models r;;
  pmodify (fun s => {| s with t_models := ms |});;
  if negb (py_truthy ms) then
    print (c_red +:+ "No models available. Make sure Ollama is running." +:+ c_endc);;
    pret SelCancelled
  else
    print (c_header +:+ c_bold +:+ "Available Models:" +:+ c_endc);;
    items <- plift (py_iter ms);;
    print_models 0 items;;
    n <- plift (py_len ms);;
    select_loop ms n inputs.

(** ** [send_message] (lines 90-123) *)

Definition term_send_message (message : string) (r : http_result) : pyM term_state json :=
  s <- pget;;
  if negb (py_truthy (current_model s)) then pret (JStr "No model selected.") else
  hist_append (chat_msg "user" (JStr message));;
  ptry
    (s <- pget;;
     pmodify (fun s' => {| s' with t_requests := t_requests s' ++
        [TermPayload (current_model s) (t_history s) (t_temperature s) (t_max_tokens s)] |});;
     match r with
     | HttpExn e => praise e
     | HttpResp status text body =>
         if Z.eqb status 200 then
           data <- plift body;;
           reply <- plift (read_reply data);;
           match reply with
           | Some content => hist_append (chat_msg "assistant" content);; pret content
           | None => pret (JStr "Error: Received empty response from model.")
           end
         else pret (JStr ("Error: " +:+ py_str_int status +:+ " - " +:+ text))
     end)
    (fun e => pret (JStr ("Error: " +:+ exn_str e))).

(** ** [redraw_chat] (lines 184-223) *)

(** [textwrap.wrap(text, width)], which the client only calls. *)
Class TextWrap := { text_wrap : string -> Z -> res (list string) }.

Section Redraw.
Context `{TextWrap}.

Definition curses_error : exn := PyExn "error" "addwstr() returned ERR".

(** [win.addstr(y, x, text)] in a window of [h] rows and [w] columns. *)
Definition addstr (h w y x : Z) (text : string) (color : Z) : res draw :=
  if (0 <=? y)%Z && (y <? h)%Z && (0 <=? x)%Z && (x <? w)%Z then Ok (Draw y x text color)
  else Raise curses_error.

(** [textwrap.wrap(content, width)]: the content must be a string. *)
Definition wrap_content (content : json) (width : Z) : res (list string) :=
  match content with
  | JStr c => text_wrap c width
  | _ => Raise (PyExn "AttributeError"
                  ("'" +:+ py_type_name content +:+ "' object has no attribute 'expandtabs'"))
  end.

Definition role_prefix (role : json) : string * Z :=
  if py_eq role (JStr "user") then ("You: ", 1%Z)
  else if py_eq role (JStr "assistant") then ("AI: ", 2%Z)
  else ("System: ", 3%Z).

(** Lines 210-215: the wrapped lines from row [y], the first on the
    prefix's row; the result ends with the last row written. *)
Fixpoint draw_lines (h w y x : Z) (first : bool) (lines : list string)
  : res (list draw * Z) :=
  match lines with
  | [] => Ok ([], y)
  | l :: ls =>
      let y' := if first then y else (y + 1)%Z in
      let? d := addstr h w y' x l 0 in
      let? rest := draw_lines h w y' x false ls in
      Ok (d :: fst rest, snd rest)
  end.

(** Lines 189-221, for the messages from row [y]. *)
Fixpoint redraw_loop (h w : Z) (msgs : list json) (y : Z) : res (list draw) :=
  match msgs with
  | [] => Ok []
  | msg :: rest =>
      let? role := py_getitem msg "role" in
      let? content := py_getitem msg "content" in
      let '(prefix, color) := role_prefix role in
      let px := Z.of_nat (String.length prefix) in
      let? lines := wrap_content content (w - px - 2) in
      let? d := addstr h w y 0 prefix color in
      let? body := draw_lines h w y px true lines in
      let y2 := (snd body + 2)%Z in
      if (h <=? y2)%Z then Ok (d :: fst body)
      else let? more := redraw_loop h w rest y2 in Ok (d :: fst body ++ more)
  end.

(** [redraw_chat]: the window shows the new writes once [refresh()]
    is reached; a write that raises leaves it as it was. *)
Definition redraw_chat : pyM term_state unit :=
  s <- pget;;
  match redraw_loop (t_chat_height s) (t_max_x s) (t_history s) 0 with
  | Ok ds => pmodify (fun s => {| s with chat_win := ds |})
  | Raise e => praise e
  end.

End Redraw.

(** ** The curses loop (lines 225-332) *)

Section Loop.
Context `{TextWrap}.

Definition status_text (s : term_state) (tail : string) : string :=
  " Model: " +:+ py_str (current_model s) +:+ " | Temp: " +:+ py_str_float (t_temperature s)
  +:+ " | " +:+ tail.

(** [status_win.addstr(0, 0, status_text[:self.max_x-1])]. *)
Definition set_status_line (tail : string) : pyM term_state unit :=
  pmodify (fun s => {| s with status_line :=
    py_slice_to (status_text s tail) (t_max_x s - 1) |}).

Definition sys_note (text : string) : json := chat_msg "system" (JStr text).

Definition help_text : string :=
  "Commands:" +:+ nl +:+ "/exit or /quit - Exit the application" +:+ nl
  +:+ "/temp [value] - Set temperature (0-1)" +:+ nl
  +:+ "/clear - Clear chat history" +:+ nl +:+ "/help - Show this help".

(** Lines 253-273: [/temp value]. *)
Definition temp_command (user_input : string) : pyM term_state unit :=
  ptry
    (arg <- plift (py_index (py_split_space user_input) 1);;
     t <- plift (py_float arg);;
     if in_unit t then
       pmodify (fun s => {| s with t_temperature := t |});;
       s <- pget;;
       hist_append (sys_note ("Temperature set to " +:+ py_str_float (t_temperature s)))
     else hist_append (sys_note "Temperature must be between 0 and 1"))
    (fun _ => hist_append (sys_note "Invalid temperature format. Use /temp 0.7"));;
  redraw_chat.

(** The body of the [try] of one iteration (lines 239-322), for the
    line typed and the outcome [r] of the request a message sends. *)
Definition loop_body (text : string) (r : http_result) : pyM term_state unit :=
  let user_input := py_strip text in
  let lower := py_lower user_input in
  if String.eqb lower "/exit" || String.eqb lower "/quit" then
    pmodify (fun s => {| s with exit_requested := true |})
  else if String.prefix "/temp " lower then temp_command user_input
  else if String.eqb lower "/clear" then
    pmodify (fun s => {| s with t_history := [sys_note "Chat history cleared."] |});;
    redraw_chat
  else if String.eqb lower "/help" then hist_append (sys_note help_text);; redraw_chat
  else if String.eqb user_input "" then pret tt
  else
    redraw_chat;;
    set_status_line "Thinking...";;
    _ <- term_send_message user_input r;;
    set_status_line "Press Ctrl+C to exit";;
    redraw_chat.

(** One iteration with its two handlers: Ctrl+C ends the loop; any
    other exception is appended to the history and the chat redrawn,
    and an exception of that redraw leaves the loop. *)
Definition loop_iteration (inp : term_input) (r : http_result) : pyM term_state unit :=
  match inp with
  | TCtrlC => pmodify (fun s => {| s with exit_requested := true |})
  | TLine text =>
      ptry (loop_body text r)
           (fun e => hist_append (sys_note ("Error: " +:+ exn_str e));; redraw_chat)
  end.

(** [curses.wrapper(self.run_curses_ui)] inside [run] (lines 350-355):
    an exception that leaves [run_curses_ui] is printed. *)
Definition end_ui (e : option exn) : pyM term_state unit :=
  pmodify (fun s => {| s with t_running := false |});;
  match e with
  | Some e => print (c_red +:+ "Error in curses UI: " +:+ exn_str e +:+ c_endc)
  | None => pret tt
  end;;
  print (c_green +:+ "Chat session ended." +:+ c_endc).

(** The loop test [while not self.exit_requested] after an iteration. *)
Definition after_iteration (o : term_state * res unit) : term_state :=
  match o with
  | (s, Raise e) => fst (end_ui (Some e) s)
  | (s, Ok _) => if exit_requested s then fst (end_ui None s) else s
  end.

(** [init_curses] and the start of [run_curses_ui] (lines 125-138,
    227-234) on a terminal of [max_y] rows and [max_x] columns. *)
Definition start_ui (max_y max_x : Z) : pyM term_state unit :=
  pmodify (fun s => {| s with t_max_x := max_x; t_chat_height := max_y - 5 - 2;
                              t_running := true |});;
  set_status_line "Press Ctrl+C to exit";;
  s <- pget;;
  hist_append (sys_note ("Welcome to Ollama Chat Terminal! You are chatting with "
                         +:+ py_str (current_model s) +:+ "."));;
  redraw_chat.

Definition after_start (o : term_state * res unit) : term_state :=
  match o with
  | (s, Raise e) => fst (end_ui (Some e) s)
  | (s, Ok _) => s
  end.

(** The loop as a step relation: each iteration reads one input and,
    when it sends a message, takes the outcome of its request. *)
Inductive term_step : term_state -> term_state -> Prop :=
| TermIter (inp : term_input) (r : http_result) (s : term_state) :
    t_running s = true -> term_step s (after_iteration (loop_iteration inp r s)).

End Loop.

(** ** [run] and the entry point (lines 334-388) *)

Section Run.
Context `{TextWrap}.

(** [run()]: [r_tags] is the outcome of the tags request of
    [select_model], [inputs] the lines typed at its prompt, and the
    terminal has [max_y] rows and [max_x] columns.  When the lines run
    out before a choice the program is still waiting at the prompt. *)
Definition term_run (r_tags : http_result) (inputs : list term_input) (max_y max_x : Z)
  : pyM term_state unit :=
  print (c_header +:+ c_bold +:+ "Ollama Chat Terminal" +:+ c_endc);;
  print (c_blue +:+ "A simple terminal UI for chatting with Ollama models" +:+ c_endc);;
  print "";;
  sel <- select_model r_tags inputs;;
  match sel with
  | SelWaiting => pret tt
  | _ =>
      let model := match sel with Selected n => n | _ => JNull end in
      pmodify (fun s => {| s with current_model := model |});;
      if negb (py_truthy model) then
        print (c_red +:+ "No model selected. Exiting." +:+ c_endc)
      else
        print (c_green +:+ "Starting chat with " +:+ py_str model +:+ "..." +:+ c_endc);;
        ptry (start_ui max_y max_x) (fun e => end_ui (Some e))
  end.

(** The command-line arguments of [parse_args]. *)
Record term_args : Type := TermArgs {
  a_model : option string;
  a_temp : pyfloat;
  a_max_tokens : Z
}.

(** [', '.join(names)]. *)
Definition py_join_comma (names : list json) : res string :=
  let? strs := res_map (fun v => match v with
                                 | JStr t => Ok t
                                 | _ => Raise (PyExn "TypeError"
                                          ("sequence item: expected str instance, "
                                           +:+ py_type_name v +:+ " found"))
                                 end) names in
  Ok (String.concat ", " strs).

(** The [__main__] block: with [--model], the tags are fetched once
    ([r_check]) to check the name, and [run] fetches them again
    ([r_tags]). *)
Definition term_main (args : term_args) (r_check r_tags : http_result)
  (inputs : list term_input) (max_y max_x : Z) : pyM term_state unit :=
  pmodify (fun s => {| s with t_temperature := a_temp args;
                              t_max_tokens := a_max_tokens args |});;
  match a_model args with
  | Some m =>
      if String.eqb m "" then term_run r_tags inputs max_y max_x else
      models <- term_fetch_models r_check;;
      items <- plift (py_iter models);;
      names <- plift (res_map (fun v => py_getitem v "name") items);;
      if py_in_list (JStr m) names then
        pmodify (fun s => {| s with current_model := JStr m |});;
        term_run r_tags inputs max_y max_x
      else
        print (c_red +:+ "Model '" +:+ m +:+ "' not found." +:+ c_endc);;
        joined <- plift (py_join_comma names);;
        print (c_yellow +:+ "Available models: " +:+ joined +:+ c_endc)
  | None => term_run r_tags inputs max_y max_x
  end.

End Run.
