(* ===== verification/TerminalDemo.v ===== *)
(** * Concrete inputs for the terminal client

    [textwrap.wrap] is a library function the client only calls; the
    instance below is what it does on text without whitespace: it cuts
    the text into pieces of [width] characters, and raises
    [ValueError] for a width below 1.  The states are a session started
    by [__main__] on a terminal of 12 rows and 30 columns, and a chat
    window of 5 rows and 30 columns with an empty history.  The
    witnesses of [TerminalFacts] apply its theorems to them. *)

From S2P Require Import Prelude PyStr PyNum Json Protocol Terminal.
From Stdlib Require Import QArith.
Open Scope string_scope.
Open Scope list_scope.
Open Scope nat_scope.
Local Open Scope py_scope.

Fixpoint chunks (fuel w : nat) (l : list Ascii.ascii) : list string :=
  match fuel with
  | O => []
  | S f =>
      match l with
      | [] => []
      | _ => String.string_of_list_ascii (firstn w l) :: chunks f w (skipn w l)
      end
  end.

#[export] Instance chunk_wrap : TextWrap := {
  text_wrap c width :=
    if (width <=? 0)%Z then
      Raise (PyExn "ValueError" ("invalid width " +:+ py_str_int width +:+ " (must be > 0)"))
    else Ok (chunks (String.length c) (Z.to_nat width) (String.list_ascii_of_string c))
}.

(** The value of a result that is known to be [Ok]. *)
Definition ok_or {A} (d : A) (r : res A) : A :=
  match r with Ok a => a | Raise _ => d end.

Definition term_demo_tags : http_result :=
  HttpResp 200 "" (Ok (JObj [("models", JArr [JObj [("name", JStr "llama2")]])])).

Definition term_demo_reply : json :=
  JObj [("model", JStr "llama2");
        ("message", JObj [("role", JStr "assistant"); ("content", JStr "Hi")])].

(** [python ollama_chat.py], then [1] at the prompt. *)
Definition term_demo_started : term_state :=
  fst (term_main (TermArgs None (PFloat (7 # 10)) 1024) term_demo_tags term_demo_tags
                 [TLine "1"] 12 30 term_new).

(** The session after the user sends [hello] and the model answers. *)
Definition term_demo_answered : term_state :=
  after_iteration (loop_iteration (TLine "hello") (HttpResp 200 "" (Ok term_demo_reply))
                                  term_demo_started).

Definition term_demo_chat : term_state :=
  {| term_new with current_model := JStr "llama2"; t_max_x := 30; t_chat_height := 5;
                   t_running := true |}.

Definition term_demo_long : string :=
  "xxxxxxxxxxxxxxxxxxxxxxxxxxxxxxxxxxxxxxxxxxxxxxxxxxxxxxxxxxxxxxxxxxxxxxxxxxxxxxxxxxxxxxxxxxxxxxxxxxxx".

Definition term_demo_long_reply : json :=
  JObj [("message", JObj [("role", JStr "assistant"); ("content", JStr term_demo_long)])].

Definition term_demo_error : exn := PyExn "ConnectionError" "Connection refused".

(** The same window with 20 rows, tall enough for the help text. *)
Definition term_demo_tall : term_state := {| term_demo_chat with t_chat_height := 20 |}.
