(* ===== verification/TerminalFacts.v ===== *)
(** * Properties of the terminal client

    The theorems about [Terminal]: what [send_message] does with each
    outcome of the request and that the loop throws its return value
    away; the commands; that every message of the history has a role
    and a content, in every state the loop reaches; that the chat
    window never shows more than the first messages that fit; that
    typing the number printed beside a model selects it; and that
    [--model] does not skip the selection. *)

From S2P Require Import Prelude PyStr PyNum Json Protocol Terminal TerminalDemo.
From Stdlib Require Import QArith.
Open Scope string_scope.
Open Scope list_scope.
Open Scope nat_scope.
Local Open Scope py_scope.

(** ** [send_message] *)

(** The request of [send_message] and what it leaves in the history,
    for every outcome [r]: the history gets the user message, then the
    reply when there is one; the payload holds the whole history, the
    user message included. *)
Definition send_outcome (r : http_result) : option json * string :=
  match r with
  | HttpExn e => (None, "Error: " +:+ exn_str e)
  | HttpResp status text body =>
      if Z.eqb status 200 then
        match body with
        | Raise e => (None, "Error: " +:+ exn_str e)
        | Ok data =>
            match read_reply data with
            | Raise e => (None, "Error: " +:+ exn_str e)
            | Ok (Some c) => (Some c, "")
            | Ok None => (None, "Error: Received empty response from model.")
            end
        end
      else (None, "Error: " +:+ py_str_int status +:+ " - " +:+ text)
  end.

Lemma term_send_message_eq (m : string) (r : http_result) (s : term_state) :
  py_truthy (current_model s) = true ->
  let p := TermPayload (current_model s) (t_history s ++ [chat_msg "user" (JStr m)])
                       (t_temperature s) (t_max_tokens s) in
  term_send_message m r s =
  ({| s with t_history := t_history s ++ [chat_msg "user" (JStr m)] ++
            match fst (send_outcome r) with Some c => [chat_msg "assistant" c] | None => [] end;
            t_requests := t_requests s ++ [p] |},
   Ok (match fst (send_outcome r) with Some c => c | None => JStr (snd (send_outcome r)) end)).
Proof.
  intros Hm. unfold term_send_message, hist_append. py_unfold. rewrite Hm. cbn -[read_reply].
  destruct r as [st t b|e]; cbn -[read_reply]; [| by rewrite ?app_nil_r].
  destruct (Z.eqb st 200); cbn -[read_reply]; [| by rewrite ?app_nil_r].
  destruct b as [data|e]; cbn -[read_reply]; [| by rewrite ?app_nil_r].
  destruct (read_reply data) as [[c|]|e]; cbn; by rewrite ?app_nil_r, <- ?app_assoc.
Qed.

(** With a model chosen and a 200 reply whose [message.content]
    is true, [send_message] appends the user message and the reply to
    the history, posts the history with the user message as
    [messages], and returns the content. *)
Theorem term_send_reply (m : string) (s : term_state) (text : string) (data c : json) :
  py_truthy (current_model s) = true -> read_reply data = Ok (Some c) ->
  term_send_message m (HttpResp 200 text (Ok data)) s =
  ({| s with t_history := t_history s ++ [chat_msg "user" (JStr m); chat_msg "assistant" c];
             t_requests := t_requests s ++
               [TermPayload (current_model s) (t_history s ++ [chat_msg "user" (JStr m)])
                            (t_temperature s) (t_max_tokens s)] |}, Ok c).
Proof. intros Hm Hr. rewrite term_send_message_eq by done. cbn. by rewrite Hr. Qed.

(** C16: the other outcomes of [send_message]: with no model it returns
    ["No model selected."] and changes nothing; a non-200 status
    returns ["Error: <status> - <body text>"] and a transport exception
    ["Error: <str(e)>"], and both leave only the user message in the
    history. *)
Theorem term_send_errors (m : string) (s : term_state) :
  (py_truthy (current_model s) = false -> forall r,
     term_send_message m r s = (s, Ok (JStr "No model selected."))) /\
  (py_truthy (current_model s) = true -> forall st text body, st <> 200%Z ->
     term_send_message m (HttpResp st text body) s =
     ({| s with t_history := t_history s ++ [chat_msg "user" (JStr m)];
                t_requests := t_requests s ++
                  [TermPayload (current_model s) (t_history s ++ [chat_msg "user" (JStr m)])
                               (t_temperature s) (t_max_tokens s)] |},
      Ok (JStr ("Error: " +:+ py_str_int st +:+ " - " +:+ text)))) /\
  (py_truthy (current_model s) = true -> forall e,
     term_send_message m (HttpExn e) s =
     ({| s with t_history := t_history s ++ [chat_msg "user" (JStr m)];
                t_requests := t_requests s ++
                  [TermPayload (current_model s) (t_history s ++ [chat_msg "user" (JStr m)])
                               (t_temperature s) (t_max_tokens s)] |},
      Ok (JStr ("Error: " +:+ exn_str e)))).
Proof.
  split_and!.
  - intros Hm r. unfold term_send_message. py_unfold. by rewrite Hm.
  - intros Hm st text body Hst. rewrite term_send_message_eq by done. cbn.
    apply Z.eqb_neq in Hst. rewrite Hst. cbn. by rewrite ?app_nil_r.
  - intros Hm e. rewrite term_send_message_eq by done. cbn. by rewrite ?app_nil_r.
Qed.

(** ** The loop *)

(** The typed line (already stripped) is one of the commands, or
    empty. *)
Definition is_command (u : string) : bool :=
  let l := py_lower u in
  String.eqb l "/exit" || String.eqb l "/quit" || String.prefix "/temp " l ||
  String.eqb l "/clear" || String.eqb l "/help" || String.eqb u "".

Lemma redraw_chat_ok `{TextWrap} (s : term_state) (ds : list draw) :
  redraw_loop (t_chat_height s) (t_max_x s) (t_history s) 0 = Ok ds ->
  redraw_chat s = ({| s with chat_win := ds |}, Ok tt).
Proof. intros Hd. unfold redraw_chat. py_unfold. by rewrite Hd. Qed.

(** C17 (code bug): the loop discards what [send_message] returns
    (line 311).  When the request fails, the history gains only the
    user message and the chat window is redrawn from the history, so
    the error text ["Error: ..."] is shown nowhere; the status line
    goes back to its idle text. *)
Theorem term_error_not_shown `{TextWrap} (text : string) (r : http_result) (s : term_state)
  (ds1 ds2 : list draw) :
  py_truthy (current_model s) = true -> is_command (py_strip text) = false ->
  fst (send_outcome r) = None ->
  redraw_loop (t_chat_height s) (t_max_x s) (t_history s) 0 = Ok ds1 ->
  redraw_loop (t_chat_height s) (t_max_x s)
              (t_history s ++ [chat_msg "user" (JStr (py_strip text))]) 0 = Ok ds2 ->
  let s' := fst (loop_iteration (TLine text) r s) in
  t_history s' = t_history s ++ [chat_msg "user" (JStr (py_strip text))] /\
  chat_win s' = ds2 /\
  status_line s' = py_slice_to (status_text s "Press Ctrl+C to exit") (t_max_x s - 1).
Proof.
  intros Hm Hc Hr H1 H2. unfold is_command in Hc.
  repeat rewrite orb_false_iff in Hc. destruct Hc as [[[[[Hc1 Hc2] Hc3] Hc4] Hc5] Hc6].
  unfold loop_iteration, loop_body, set_status_line. cbv zeta.
  rewrite Hc1, Hc2, Hc3, Hc4, Hc5, Hc6. py_unfold. cbn -[term_send_message redraw_chat status_text].
  rewrite (redraw_chat_ok _ _ H1). cbn -[term_send_message redraw_chat status_text].
  rewrite term_send_message_eq by done. rewrite Hr. cbn -[redraw_chat status_text].
  rewrite ?app_nil_r, (redraw_chat_ok _ ds2) by done. done.
Qed.

(** [redraw_chat] only sets the chat window, or raises. *)
Lemma redraw_chat_fields `{TextWrap} (s : term_state) :
  let s' := fst (redraw_chat s) in
  t_history s' = t_history s /\ t_temperature s' = t_temperature s /\
  current_model s' = current_model s /\ t_requests s' = t_requests s /\
  exit_requested s' = exit_requested s /\ t_stdout s' = t_stdout s /\
  t_running s' = t_running s /\ t_chat_height s' = t_chat_height s /\ t_max_x s' = t_max_x s.
Proof.
  unfold redraw_chat. py_unfold.
  by destruct (redraw_loop (t_chat_height s) (t_max_x s) (t_history s) 0).
Qed.

Ltac redraw_fields :=
  match goal with
  | |- context [fst (redraw_chat ?S)] =>
      let H := fresh "Hrf" in
      destruct (redraw_chat_fields S) as (H & ? & ? & ? & ? & ? & ? & ? & ?);
      cbn zeta in H; rewrite ?H; clear H
  end.

(** [/temp value] sets the temperature when [value] (the second
    piece of the line split at single spaces) reads as a float in
    [[0, 1]], and otherwise keeps it; in every case exactly one system
    notice is appended to the history. *)
Theorem term_temp_command `{TextWrap} (u : string) (s : term_state) :
  let s' := fst (temp_command u s) in
  (exists note, t_history s' = t_history s ++ [sys_note note]) /\
  (forall a t, py_split_space u !! 1 = Some a -> py_float a = Ok t -> in_unit t = true ->
     t_temperature s' = t /\
     t_history s' = t_history s ++ [sys_note ("Temperature set to " +:+ py_str_float t)]) /\
  ((forall a t, py_split_space u !! 1 = Some a -> py_float a = Ok t -> in_unit t = false) ->
     t_temperature s' = t_temperature s).
Proof.
  unfold temp_command, hist_append, py_index. py_unfold.
  destruct (py_split_space u !! 1) as [a|] eqn:E;
    [destruct (py_float a) as [t|e] eqn:F; [destruct (in_unit t) eqn:U |] |];
    cbn -[redraw_chat];
    match goal with |- context [redraw_chat ?S] =>
      destruct (redraw_chat_fields S) as (Hh & Ht & _) end; cbn zeta in Hh, Ht;
    rewrite Hh, Ht; cbn;
    (split; [eexists; reflexivity | split;
      [ intros a' t' Ea Fa Ua; simplify_eq; try done; rewrite F in Fa; simplify_eq;
        try done; congruence
      | intros Hn; try done;
        by rewrite (Hn a t ltac:(first [exact E | reflexivity])
                           ltac:(first [exact F | reflexivity])) in U ]]).
Qed.

(** The commands, in any letter case: [/exit] and [/quit] end the
    session without touching the history; [/clear] replaces the
    history by one notice and [/help] appends the help text, when the
    redraw that follows succeeds; an empty line changes nothing. *)
Theorem term_commands `{TextWrap} (text : string) (r : http_result) (s : term_state) :
  let l := py_lower (py_strip text) in
  ((l = "/exit" \/ l = "/quit") ->
     let s' := after_iteration (loop_iteration (TLine text) r s) in
     t_running s' = false /\ t_history s' = t_history s /\
     last (t_stdout s') = Some (c_green +:+ "Chat session ended." +:+ c_endc)) /\
  (l = "/clear" ->
     (forall e, redraw_loop (t_chat_height s) (t_max_x s) [sys_note "Chat history cleared."] 0 <> Raise e) ->
     t_history (fst (loop_iteration (TLine text) r s)) = [sys_note "Chat history cleared."]) /\
  (l = "/help" ->
     (forall e, redraw_loop (t_chat_height s) (t_max_x s) (t_history s ++ [sys_note help_text]) 0
                <> Raise e) ->
     t_history (fst (loop_iteration (TLine text) r s)) = t_history s ++ [sys_note help_text]) /\
  (py_strip text = "" -> fst (loop_iteration (TLine text) r s) = s).
Proof.
  cbv zeta. unfold loop_iteration, loop_body, hist_append. cbv zeta. split_and!.
  - intros [Hl|Hl]; rewrite Hl; py_unfold; cbn; by rewrite last_snoc.
  - intros Hl Hr. rewrite Hl. py_unfold. cbn -[redraw_chat].
    unfold redraw_chat at 1. py_unfold. cbn -[redraw_loop].
    destruct (redraw_loop _ _ _ _) eqn:E; [done | by destruct (Hr e)].
  - intros Hl Hr. rewrite Hl. py_unfold. cbn -[redraw_chat].
    unfold redraw_chat at 1. py_unfold. cbn -[redraw_loop].
    destruct (redraw_loop _ _ _ _) eqn:E; [done | by destruct (Hr e)].
  - intros Hs. rewrite Hs. py_unfold. cbn. by destruct s.
Qed.

(** ** What the chat window shows *)

Lemma draw_lines_row `{TextWrap} (h w y x : Z) (first : bool) (lines : list string) ds y' :
  draw_lines h w y x first lines = Ok (ds, y') -> (y <= y')%Z.
Proof.
  revert y first ds y'. induction lines as [|l ls IH]; intros y first ds y' Hd; cbn in Hd.
  - by simplify_eq.
  - destruct (addstr _ _ _ _ _ _); [| done]. cbn in Hd.
    destruct (draw_lines _ _ _ _ false ls) as [[ds1 y1]|] eqn:E; [| done].
    cbn in Hd. simplify_eq. apply IH in E. destruct first; lia.
Qed.

(** The loop looks at no message past the ones that fill the rows
    from [y]: each message takes at least two rows. *)
Lemma redraw_loop_prefix `{TextWrap} (h w y : Z) (msgs extra : list json) :
  (0 <= y)%Z -> (h <= 2 * Z.of_nat (length msgs) + y)%Z -> msgs <> [] ->
  redraw_loop h w (msgs ++ extra) y = redraw_loop h w msgs y.
Proof.
  revert y. induction msgs as [|m rest IH]; intros y Hy Hh Hne; [done |].
  cbn [app redraw_loop].
  destruct (py_getitem m "role") as [role|]; [cbn | done].
  destruct (py_getitem m "content") as [content|]; [cbn | done].
  destruct (role_prefix role) as [prefix color].
  destruct (wrap_content _ _); [cbn | done].
  destruct (addstr _ _ _ _ _ _); [cbn | done].
  destruct (draw_lines _ _ _ _ _ _) as [[ds y1]|] eqn:E; [cbn | done].
  apply draw_lines_row in E.
  destruct (Z.leb_spec h (y1 + 2)) as [Hb|Hb]; [done |].
  destruct rest as [|m' rest']; [cbn in Hh; lia |].
  rewrite IH; [done | lia | cbn in Hh |- *; lia | done].
Qed.

(** Code bug: the chat window does not scroll.  [redraw_chat]
    draws the history from its first message and stops once the rows
    are filled, so in a window of [h] rows a history of at least
    [h / 2] messages looks the same whatever is appended to it: a new
    reply of a long chat is never shown. *)
Theorem term_window_ignores_new `{TextWrap} (h w : Z) (msgs extra : list json) :
  (0 < h <= 2 * Z.of_nat (length msgs))%Z ->
  redraw_loop h w (msgs ++ extra) 0 = redraw_loop h w msgs 0.
Proof.
  intros Hh. apply redraw_loop_prefix; [lia | lia |]. intros ->. cbn in Hh. lia.
Qed.

(** ** Choosing a model *)

(** Typing the number printed beside a model, [str(i + 1)], at the
    selection prompt selects that model: [int()] reads back what
    [str()] printed, and the index is in range. *)
Theorem term_select_printed_index (ms : list json) (i : nat) (m name : json)
  (rest : list term_input) (s : term_state) :
  ms !! i = Some m -> py_getitem m "name" = Ok name ->
  snd (select_loop (JArr ms) (Z.of_nat (length ms))
         (TLine (py_str_int (Z.of_nat i + 1)) :: rest) s) = Ok (Selected name).
Proof.
  intros Hi Hn. cbn [select_loop]. unfold print. py_unfold. rewrite py_int_str.
  replace (Z.of_nat i + 1 - 1)%Z with (Z.of_nat i) by lia.
  assert (i < length ms) by (eapply lookup_lt_Some; eassumption).
  replace ((0 <=? Z.of_nat i)%Z && (Z.of_nat i <? Z.of_nat (length ms))%Z) with true
    by (symmetry; apply andb_true_iff; split; [apply Z.leb_le | apply Z.ltb_lt]; lia).
  cbn. unfold py_index. rewrite Nat2Z.id, Hi. cbn. by rewrite Hn.
Qed.

Lemma res_map_getitem_ok (items names : list json) :
  res_map (fun v => py_getitem v "name") items = Ok names ->
  Forall (fun v => exists n, py_getitem v "name" = Ok n) items.
Proof.
  revert names. induction items as [|v vs IH]; intros names Hm; [done |].
  cbn in Hm. destruct (py_getitem v "name") as [n|] eqn:E; [| done].
  destruct (res_map _ vs) as [ns|] eqn:E'; [| done].
  constructor; [eauto | by eapply IH].
Qed.

Lemma print_models_ok (i : Z) (items : list json) (s : term_state) :
  Forall (fun v => exists n, py_getitem v "name" = Ok n) items ->
  exists out, print_models i items s = ({| s with t_stdout := t_stdout s ++ out |}, Ok tt).
Proof.
  intros Hall. revert i s. induction Hall as [|v vs [n Hn] _ IH]; intros i s.
  - exists []. rewrite app_nil_r. by destruct s.
  - cbn [print_models]. unfold print. py_unfold. rewrite Hn. cbn -[print_models].
    match goal with |- context [print_models (i + 1) vs ?S] =>
      destruct (IH (i + 1)%Z S) as [out ->] end.
    eexists. cbn. by rewrite <- app_assoc.
Qed.

(** Divergence from the specification: [--model NAME] does not
    skip the selection.  When [NAME] is among the models, [__main__]
    sets it and calls [run], which fetches the models again and asks
    for one at the prompt: with nothing typed yet the program is
    waiting there, and the chat has not started. *)
Theorem term_model_flag_prompts `{TextWrap} (m : string) (temp : pyfloat) (mt : Z)
  (t1 t2 : string) (items names : list json) (y x : Z) (s : term_state) :
  m <> "" -> items <> [] ->
  res_map (fun v => py_getitem v "name") items = Ok names ->
  py_in_list (JStr m) names = true ->
  let r := HttpResp 200 t1 (Ok (JObj [("models", JArr items)])) in
  let r' := HttpResp 200 t2 (Ok (JObj [("models", JArr items)])) in
  let o := term_main (TermArgs (Some m) temp mt) r r' [] y x s in
  snd o = Ok tt /\ t_running (fst o) = t_running s /\ current_model (fst o) = JStr m /\
  In (c_header +:+ c_bold +:+ "Available Models:" +:+ c_endc) (t_stdout (fst o)).
Proof.
  intros Hm Hne Hn Hin. apply String.eqb_neq in Hm. cbv zeta.
  pose proof (res_map_getitem_ok _ _ Hn) as Hall.
  unfold term_main, term_run, select_model, term_fetch_models, print. py_unfold.
  cbn -[print_models res_map py_in_list]. rewrite Hm. cbn -[print_models res_map py_in_list].
  rewrite Hn. cbn -[print_models py_in_list]. rewrite Hin. cbn -[print_models].
  destruct items as [|it its]; [done |]. cbn -[print_models].
  match goal with |- context [print_models 0 (it :: its) ?S] =>
    destruct (print_models_ok 0 (it :: its) S Hall) as [out ->] end.
  cbn. split_and!; [done | done | done |].
  apply list_elem_of_In. rewrite <- !app_assoc. apply elem_of_app. right. set_solver.
Qed.

(** ** Every message of the history has a role and a content *)

Definition msg_ok (m : json) : Prop :=
  exists role c, m = chat_msg role c /\ role ∈ ["user"; "assistant"; "system"].

Definition hist_ok (s : term_state) : Prop := Forall msg_ok (t_history s).

(** A computation that keeps [hist_ok]. *)
Abbreviation keeps := (preserves hist_ok).

Lemma keeps_hist_append (m : json) : msg_ok m -> keeps (hist_append m).
Proof. intros Hm s Hs. apply Forall_app. split; [done | by constructor]. Qed.

Lemma msg_ok_chat (role : string) (c : json) :
  role ∈ ["user"; "assistant"; "system"] -> msg_ok (chat_msg role c).
Proof. intros Hr. by exists role, c. Qed.

Lemma keeps_redraw `{TextWrap} : keeps redraw_chat.
Proof.
  intros s Hs. unfold hist_ok. by destruct (redraw_chat_fields s) as [-> _].
Qed.

#[export] Hint Resolve keeps_redraw : preserve.

(** One step of a [keeps] proof: appending a message with a role, or
    a state update that keeps the history or sets it to notices. *)
Ltac keeps_step :=
  match goal with
  | |- keeps (hist_append _) => apply keeps_hist_append; apply msg_ok_chat; set_solver
  | _ => preserve_step ltac:(unfold hist_ok in *; cbn;
                             first [assumption | repeat constructor; apply msg_ok_chat; set_solver])
  end.

Ltac solve_keeps := repeat keeps_step.

Lemma keeps_print (l : string) : keeps (print l).
Proof. unfold print. solve_keeps. Qed.
#[export] Hint Resolve keeps_print : preserve.

Lemma keeps_send `{TextWrap} (m : string) (r : http_result) : keeps (term_send_message m r).
Proof. unfold term_send_message. solve_keeps. Qed.

Lemma keeps_temp `{TextWrap} (u : string) : keeps (temp_command u).
Proof. unfold temp_command. solve_keeps. Qed.

Lemma keeps_status `{TextWrap} (t : string) : keeps (set_status_line t).
Proof. unfold set_status_line. solve_keeps. Qed.
#[export] Hint Resolve keeps_send keeps_temp keeps_status : preserve.

Lemma keeps_iteration `{TextWrap} (inp : term_input) (r : http_result) :
  keeps (loop_iteration inp r).
Proof. unfold loop_iteration, loop_body. solve_keeps. Qed.

Lemma keeps_print_models (i : Z) (ms : list json) : keeps (print_models i ms).
Proof. revert i. induction ms; intros; cbn; solve_keeps. Qed.

Lemma keeps_select_loop (ms : json) (n : Z) (inputs : list term_input) :
  keeps (select_loop ms n inputs).
Proof. induction inputs as [|[choice|] rest IH]; cbn; solve_keeps. Qed.

Lemma keeps_fetch (r : http_result) : keeps (term_fetch_models r).
Proof. unfold term_fetch_models. solve_keeps. Qed.
#[export] Hint Resolve keeps_print_models keeps_select_loop keeps_fetch : preserve.

Lemma keeps_end_ui (e : option exn) : keeps (end_ui e).
Proof. unfold end_ui. solve_keeps. Qed.

Lemma keeps_start_ui `{TextWrap} (y x : Z) : keeps (start_ui y x).
Proof. unfold start_ui. solve_keeps. Qed.
#[export] Hint Resolve keeps_end_ui keeps_start_ui : preserve.

Lemma keeps_main `{TextWrap} (args : term_args) (rc rt : http_result)
  (inputs : list term_input) (y x : Z) : keeps (term_main args rc rt inputs y x).
Proof. unfold term_main, term_run, select_model. solve_keeps. Qed.

Lemma hist_ok_after_iteration `{TextWrap} (inp : term_input) (r : http_result) (s : term_state) :
  hist_ok s -> hist_ok (after_iteration (loop_iteration inp r s)).
Proof.
  intros Hs. pose proof (keeps_iteration inp r s Hs) as Hk.
  destruct (loop_iteration inp r s) as [s' [[]|e]]; cbn in *;
    [destruct (exit_requested s') |]; auto using keeps_end_ui.
Qed.

(** The states of a session: [term_main] run from [__init__], then
    any number of iterations of the loop. *)
Definition term_reachable `{TextWrap} (s : term_state) : Prop :=
  exists args rc rt inputs y x,
    rtc term_step (fst (term_main args rc rt inputs y x term_new)) s.

(** C15: well-formed history.  In every state of a session, each entry of
    [self.history] (the list posted as [messages]) is a dict
    [{"role": r, "content": c}] with [r] one of user, assistant or
    system. *)
Theorem term_history_wf `{TextWrap} (s : term_state) :
  term_reachable s -> Forall msg_ok (t_history s).
Proof.
  intros (args & rc & rt & inputs & y & x & Hr).
  assert (hist_ok (fst (term_main args rc rt inputs y x term_new))) as H0
    by (apply keeps_main; constructor).
  induction Hr as [s0|s0 s1 s2 Hst _ IH]; [done |].
  apply IH. inversion Hst; subst. by apply hist_ok_after_iteration.
Qed.

(** ** System notices are sent to the model *)

Lemma help_body `{TextWrap} (r : http_result) :
  loop_body "/help" r = (hist_append (sys_note help_text);; redraw_chat).
Proof. reflexivity. Qed.

(** C19 (divergence from the specification): the notices of the commands
    are not kept apart from the conversation.  After [/help], the next
    message posts the help text as a [system] message of [messages],
    between the earlier history and the user message. *)
Theorem term_notes_sent `{TextWrap} (text : string) (r1 r2 : http_result) (s : term_state)
  (ds : list draw) :
  py_truthy (current_model s) = true -> is_command (py_strip text) = false ->
  redraw_loop (t_chat_height s) (t_max_x s) (t_history s ++ [sys_note help_text]) 0 = Ok ds ->
  let s1 := fst (loop_iteration (TLine "/help") r1 s) in
  let s2 := fst (loop_iteration (TLine text) r2 s1) in
  exists p, last (t_requests s2) = Some p /\
    tp_messages p = t_history s ++ [sys_note help_text; chat_msg "user" (JStr (py_strip text))].
Proof.
  intros Hm Hc Hd. unfold is_command in Hc.
  repeat rewrite orb_false_iff in Hc. destruct Hc as [[[[[Hc1 Hc2] Hc3] Hc4] Hc5] Hc6].
  cbv zeta.
  assert (fst (loop_iteration (TLine "/help") r1 s) =
          {| s with t_history := t_history s ++ [sys_note help_text]; chat_win := ds |}) as ->.
  { unfold loop_iteration. rewrite help_body.
    unfold hist_append. py_unfold. cbn -[redraw_loop]. by rewrite Hd. }
  unfold loop_iteration, loop_body, set_status_line. cbv zeta.
  rewrite Hc1, Hc2, Hc3, Hc4, Hc5, Hc6. py_unfold. cbn -[term_send_message redraw_chat status_text].
  rewrite (redraw_chat_ok _ ds) by done. cbn -[term_send_message redraw_chat status_text].
  rewrite term_send_message_eq by done. cbn -[redraw_chat status_text].
  match goal with |- context [redraw_chat ?S] => pose proof (redraw_chat_fields S) as Hf end.
  destruct Hf as (_ & _ & _ & Hq & _). cbn zeta in Hq.
  destruct (redraw_chat _) as [s3 [[]|e]] eqn:E; cbn in Hq |- *;
    [| destruct (redraw_loop (t_chat_height s3) (t_max_x s3) _ 0); py_unfold; cbn];
    rewrite Hq, last_snoc; eexists; (split; [done |]); cbn; by rewrite <- app_assoc.
Qed.

(** ** A reply longer than the window ends the session *)

(** A message that raises keeps raising whatever follows it: the
    messages after it are never reached. *)
Lemma redraw_loop_raise_app `{TextWrap} (h w y : Z) (msgs extra : list json) (e : exn) :
  redraw_loop h w msgs y = Raise e -> redraw_loop h w (msgs ++ extra) y = Raise e.
Proof.
  revert y. induction msgs as [|m rest IH]; intros y Hr; [done |].
  cbn [app redraw_loop] in *.
  destruct (py_getitem m "role"); [cbn in * | done].
  destruct (py_getitem m "content"); [cbn in * | done].
  destruct (role_prefix _).
  destruct (wrap_content _ _); [cbn in * | done].
  destruct (addstr _ _ _ _ _ _); [cbn in * | done].
  destruct (draw_lines _ _ _ _ _ _); [cbn in * | done].
  destruct (_ <=? _)%Z; [done |].
  destruct (redraw_loop h w rest _) eqn:E; [done |]. cbn in Hr. simplify_eq. by rewrite (IH _ E).
Qed.

(** C18 (code bug): [redraw_chat] tests the bottom of the window only
    between messages, so a reply whose wrapped lines run past the last
    row makes [addstr] raise [curses.error].  The handler of the loop
    appends the error to the history and redraws, which raises again,
    and the exception leaves [run_curses_ui]: the session ends. *)
Theorem term_long_reply_ends `{TextWrap} (text t : string) (data c : json) (s : term_state)
  (ds1 ds2 : list draw) (e : exn) :
  py_truthy (current_model s) = true -> is_command (py_strip text) = false ->
  read_reply data = Ok (Some c) ->
  let u := chat_msg "user" (JStr (py_strip text)) in
  redraw_loop (t_chat_height s) (t_max_x s) (t_history s) 0 = Ok ds1 ->
  redraw_loop (t_chat_height s) (t_max_x s) (t_history s ++ [u]) 0 = Ok ds2 ->
  redraw_loop (t_chat_height s) (t_max_x s) (t_history s ++ [u; chat_msg "assistant" c]) 0
    = Raise e ->
  let s' := after_iteration (loop_iteration (TLine text) (HttpResp 200 t (Ok data)) s) in
  t_running s' = false /\
  t_history s' = t_history s ++ [u; chat_msg "assistant" c; sys_note ("Error: " +:+ exn_str e)] /\
  t_stdout s' = t_stdout s ++ [c_red +:+ "Error in curses UI: " +:+ exn_str e +:+ c_endc;
                               c_green +:+ "Chat session ended." +:+ c_endc].
Proof.
  intros Hm Hc Hr. cbv zeta. intros H1 H2 H3. unfold is_command in Hc.
  repeat rewrite orb_false_iff in Hc. destruct Hc as [[[[[Hc1 Hc2] Hc3] Hc4] Hc5] Hc6].
  unfold loop_iteration, loop_body, set_status_line. cbv zeta.
  rewrite Hc1, Hc2, Hc3, Hc4, Hc5, Hc6. py_unfold. cbn -[term_send_message redraw_chat status_text].
  rewrite (redraw_chat_ok _ _ H1). cbn -[term_send_message redraw_chat status_text].
  rewrite term_send_message_eq by done. cbn -[redraw_loop read_reply status_text].
  rewrite Hr. cbn -[redraw_loop status_text]. rewrite ?app_nil_r, <- ?app_assoc. cbn -[redraw_loop status_text].
  rewrite H3. cbn -[redraw_loop status_text]. rewrite (redraw_loop_raise_app _ _ _ _ _ _ H3).
  cbn. by rewrite <- !app_assoc.
Qed.

(** ** Witnesses *)

Lemma term_send_reply_witness :
  term_send_message "hello" (HttpResp 200 "" (Ok term_demo_reply)) term_demo_chat =
  ({| term_demo_chat with
      t_history := [chat_msg "user" (JStr "hello"); chat_msg "assistant" (JStr "Hi")];
      t_requests := [TermPayload (JStr "llama2") [chat_msg "user" (JStr "hello")]
                                 (PFloat (7 # 10)) 1024] |}, Ok (JStr "Hi")).
Proof. apply (term_send_reply "hello" term_demo_chat "" term_demo_reply (JStr "Hi")); reflexivity. Defined.

Lemma term_send_errors_witness :
  snd (term_send_message "hello" (HttpResp 404 "not found" (Ok JNull)) term_demo_chat) =
  Ok (JStr ("Error: " +:+ py_str_int 404%Z +:+ " - not found")).
Proof.
  rewrite (proj1 (proj2 (term_send_errors "hello" term_demo_chat)) eq_refl 404%Z "not found"
             (Ok JNull)) by discriminate.
  reflexivity.
Defined.

Lemma term_error_not_shown_witness :
  let s' := fst (loop_iteration (TLine "hello") (HttpExn term_demo_error) term_demo_chat) in
  t_history s' = [] ++ [chat_msg "user" (JStr (py_strip "hello"))] /\
  chat_win s' = ok_or [] (redraw_loop 5 30 [chat_msg "user" (JStr "hello")] 0) /\
  status_line s' = py_slice_to (status_text term_demo_chat "Press Ctrl+C to exit") (30 - 1).
Proof.
  apply (term_error_not_shown "hello" (HttpExn term_demo_error) term_demo_chat []
           (ok_or [] (redraw_loop 5 30 [chat_msg "user" (JStr "hello")] 0)));
    vm_compute; reflexivity.
Defined.

Lemma term_temp_command_witness :
  t_temperature (fst (temp_command "/temp 0.3" term_demo_chat)) = PFloat (3 # 10).
Proof.
  destruct (term_temp_command "/temp 0.3" term_demo_chat) as (_ & Hset & _).
  apply (Hset "0.3" (PFloat (3 # 10))); vm_compute; reflexivity.
Defined.

Lemma term_commands_witness :
  t_history (fst (loop_iteration (TLine " /HELP ") (HttpExn term_demo_error) term_demo_tall)) =
  [] ++ [sys_note help_text].
Proof.
  destruct (term_commands " /HELP " (HttpExn term_demo_error) term_demo_tall) as (_ & _ & Hh & _).
  apply Hh; [vm_compute; reflexivity | intros e; vm_compute; discriminate].
Defined.

Lemma term_window_ignores_new_witness :
  redraw_loop 5 30 ([sys_note "a"; chat_msg "user" (JStr "b"); chat_msg "assistant" (JStr "c")]
                    ++ [chat_msg "user" (JStr "d")]) 0 =
  redraw_loop 5 30 [sys_note "a"; chat_msg "user" (JStr "b"); chat_msg "assistant" (JStr "c")] 0.
Proof. apply term_window_ignores_new. cbn. lia. Defined.

Lemma term_select_printed_index_witness :
  snd (select_loop (JArr [JObj [("name", JStr "llama2")]]) (Z.of_nat (length [JObj [("name", JStr "llama2")]]))
         [TLine (py_str_int (Z.of_nat 0 + 1))] term_new) = Ok (Selected (JStr "llama2")).
Proof.
  apply (term_select_printed_index [JObj [("name", JStr "llama2")]] 0
           (JObj [("name", JStr "llama2")]) (JStr "llama2") [] term_new); reflexivity.
Defined.

Lemma term_model_flag_prompts_witness :
  let o := term_main (TermArgs (Some "llama2") (PFloat (7 # 10)) 1024) term_demo_tags
                     term_demo_tags [] 12 30 term_new in
  snd o = Ok tt /\ t_running (fst o) = false /\ current_model (fst o) = JStr "llama2" /\
  In (c_header +:+ c_bold +:+ "Available Models:" +:+ c_endc) (t_stdout (fst o)).
Proof.
  apply (term_model_flag_prompts "llama2" (PFloat (7 # 10)) 1024 "" ""
           [JObj [("name", JStr "llama2")]] [JStr "llama2"] 12 30 term_new);
    [discriminate | discriminate | reflexivity | reflexivity].
Defined.

Lemma term_history_wf_witness :
  term_reachable term_demo_answered /\ Forall msg_ok (t_history term_demo_answered).
Proof.
  assert (term_reachable term_demo_answered) as Hr.
  { exists (TermArgs None (PFloat (7 # 10)) 1024), term_demo_tags, term_demo_tags,
      [TLine "1"], 12%Z, 30%Z.
    unfold term_demo_answered, term_demo_started. apply rtc_once, TermIter.
    vm_compute. reflexivity. }
  split; [exact Hr | exact (term_history_wf _ Hr)].
Defined.

Lemma term_notes_sent_witness :
  let s := term_demo_tall in
  let s1 := fst (loop_iteration (TLine "/help") (HttpExn term_demo_error) s) in
  let s2 := fst (loop_iteration (TLine "hello") (HttpResp 200 "" (Ok term_demo_reply)) s1) in
  exists p, last (t_requests s2) = Some p /\
    tp_messages p = [] ++ [sys_note help_text; chat_msg "user" (JStr (py_strip "hello"))].
Proof.
  apply (term_notes_sent "hello" (HttpExn term_demo_error) (HttpResp 200 "" (Ok term_demo_reply))
           term_demo_tall
           (ok_or [] (redraw_loop 20 30 [sys_note help_text] 0)));
    vm_compute; reflexivity.
Defined.

Lemma term_long_reply_ends_witness :
  let s' := after_iteration (loop_iteration (TLine "hi") (HttpResp 200 "" (Ok term_demo_long_reply))
                                            term_demo_chat) in
  t_running s' = false /\
  t_history s' = [] ++ [chat_msg "user" (JStr (py_strip "hi"));
                        chat_msg "assistant" (JStr term_demo_long);
                        sys_note ("Error: " +:+ exn_str curses_error)] /\
  t_stdout s' = [] ++ [c_red +:+ "Error in curses UI: " +:+ exn_str curses_error +:+ c_endc;
                       c_green +:+ "Chat session ended." +:+ c_endc].
Proof.
  apply (term_long_reply_ends "hi" "" term_demo_long_reply (JStr term_demo_long) term_demo_chat []
           (ok_or [] (redraw_loop 5 30 [chat_msg "user" (JStr "hi")] 0)) curses_error);
    vm_compute; reflexivity.
Defined.
