(* ===== verification/ChatGpt.v ===== *)
(** * The ChatGPT-style Tk client ([src/gui_app/chatgpt.py])

    A second Tkinter client with a sidebar of chat titles, a message
    area of labels, a settings dialog and files.  Its state is
    [cg_state]: the Tk variables and lists of [ChatGPTStyle.__init__],
    the labels of the message area, the sidebar titles, the module's
    global variables (read by [__init__] and [save_chat_to_file]), the
    dialogs shown, the [after] queue and the worker threads, as in
    [TkGui].  A thread inside an [except Exception as e:] block is a
    [CgInExcept] worker with the frame number of its [e], and the
    callbacks that format [e] see it only until the worker leaves the
    block, as in [TkGui].  Names carry the prefix [cg_] where [TkGui]
    already uses the source's name. *)

From S2P Require Import Prelude PyStr PyNum Json Protocol TkGui.
From Stdlib Require Import QArith.
Open Scope string_scope.
Open Scope list_scope.
Open Scope nat_scope.
Local Open Scope py_scope.

(** ** State *)

(** A child of [messages_frame]: a label added by
    [add_system_message], [add_user_message] or
    [add_assistant_message], or the thinking frame of the request
    [id]. *)
Inductive cg_widget : Type :=
| WSystem (text : string)
| WUser (text : json)
| WAssistant (text : json)
| WThinking (id : nat).

(** A thread: [generate] of the request [id] with the model and
    messages it closes over, [fetch] of [fetch_models], or [test] of
    [test_connection] with the URL it read. *)
Inductive cg_worker : Type :=
| CgGen (id : nat) (model : string) (messages : list json)
| CgFetch
| CgTest (api_url : string)
(** A thread inside its [except Exception as e:] block; [gen] for
    [generate], whose [finally] is still to run. *)
| CgInExcept (frame : nat) (gen : bool).

(** A callback waiting in the [after] queue. *)
Inductive cg_callback : Type :=
| CgDestroyThinking (id : nat)
| CgAssistant (content : json)
| CgSystem (text : string)
| CgSystemExn (frame : nat) (e : exn)
| CgFetchErrorExn (frame : nat) (e : exn)
| CgTestErrorExn (frame : nat) (e : exn) (api_url : string)
| CgNotGenerating
| CgUpdateModels (models : list json)
| CgLight (color : string)
| CgConnStatus (text : string)
| CgDialog (d : dialog).

Record cg_state : Type := CgState {
  cg_globals : list (string * json);
  cg_models : list json;
  cg_selected : string;
  cg_temperature : Q;
  cg_max_tokens : Z;
  cg_system_prompt : string;
  cg_history : json;
  cg_generating : bool;
  cg_chats : list json;
  cg_frames : list (json * json);
  cg_messages : list cg_widget;
  cg_input : string;
  cg_api_url : string;
  cg_conn_status : string;
  (** [status_indicator]: [None] until the settings dialog creates it,
      then whether the canvas still exists, and its colour. *)
  cg_indicator : option bool;
  cg_light : string;
  cg_dialogs : list dialog;
  cg_queue : list cg_callback;
  cg_workers : list cg_worker;
  cg_posted : list json;
  cg_files : list (string * json);
  cg_next_id : nat;
  cg_title_dialog : bool;
  cg_closed : bool;
  cg_next_frame : nat
}.

(** Reduce the fields of a state built by record updates. *)
Ltac cg_simpl :=
  cbn [cg_globals cg_models cg_selected cg_temperature cg_max_tokens cg_system_prompt
       cg_history cg_generating cg_chats cg_frames cg_messages cg_input cg_api_url
       cg_conn_status cg_indicator cg_light cg_dialogs cg_queue cg_workers cg_posted
       cg_files cg_next_id cg_title_dialog cg_closed cg_next_frame].

(** A module global: [NameError] when the module does not define it. *)
Definition py_global (g : list (string * json)) (name : string) : res json :=
  match assoc_last g name with
  | Some v => Ok v
  | None => Raise (PyExn "NameError" ("name '" +:+ name +:+ "' is not defined"))
  end.

(** Line 17, which defines neither [OLLAMA_API_URL] nor [APP_VERSION]. *)
Definition cg_module_globals : list (string * json) :=
  [("OLLAMA_API_URLRSION", JStr "1.0.0")].

Definition cg_placeholder : string := "Message Ollama...".

Definition cg_schedule (cbs : list cg_callback) : pyM cg_state unit :=
  pmodify (fun s => {| s with cg_queue := cg_queue s ++ cbs |}).

Definition cg_show (d : dialog) : pyM cg_state unit :=
  pmodify (fun s => {| s with cg_dialogs := cg_dialogs s ++ [d] |}).

Definition cg_remove_worker (i : nat) : pyM cg_state unit :=
  pmodify (fun s => {| s with cg_workers := delete i (cg_workers s) |}).

(** The worker [i] enters an [except Exception as e:] block: its [e]
    gets the next frame number. *)
Definition cg_enter_except (i : nat) (gen : bool) : pyM cg_state nat :=
  s <- pget;;
  let f := cg_next_frame s in
  pmodify (fun s => {| s with cg_next_frame := S f;
                              cg_workers := <[i := CgInExcept f gen]> (cg_workers s) |});;
  pret f.

(** The worker [i] ends: a [generate] thread runs its [finally]. *)
Definition cg_leave_except (i : nat) (gen : bool) : pyM cg_state unit :=
  (if gen then cg_schedule [CgNotGenerating] else pret tt);;
  cg_remove_worker i.

(** A worker thread: its [try] block [body] and, when that raises, its
    [except Exception as e:] block [on_exn] given the frame of [e]; it
    stays in that block until a [cg_leave_except] step of its own. *)
Definition cg_run_thread (i : nat) (gen : bool) (body : pyM cg_state unit)
  (on_exn : nat -> exn -> pyM cg_state unit) : pyM cg_state unit :=
  ok <- ptry (body;; pret true) (fun e => f <- cg_enter_except i gen;; on_exn f e;; pret false);;
  if ok then cg_leave_except i gen else pret tt.

(** ** The message area and the sidebar (lines 267-481) *)

Definition add_widget (w : cg_widget) : pyM cg_state unit :=
  pmodify (fun s => {| s with cg_messages := cg_messages s ++ [w] |}).

Definition add_system_message (text : string) : pyM cg_state unit := add_widget (WSystem text).
Definition add_user_message (text : json) : pyM cg_state unit := add_widget (WUser text).

(** [format_markdown] returns its argument. *)
Definition format_markdown (text : json) : json := text.

Definition add_assistant_message (text : json) : pyM cg_state unit :=
  add_widget (WAssistant (format_markdown text)).

(** [add_chat_to_sidebar] (lines 267-286): a frame whose options
    button keeps the title it was created with, and whose chat button
    shows a text. *)
Definition add_chat_to_sidebar (title : json) : pyM cg_state unit :=
  pmodify (fun s => {| s with cg_frames := cg_frames s ++ [(title, title)];
                              cg_chats := cg_chats s ++ [title] |}).

(** [list.index(x)] and [list.remove(x)], which compare with [==]. *)
Fixpoint py_list_index (x : json) (l : list json) : option nat :=
  match l with
  | [] => None
  | y :: l' => if py_eq y x then Some 0 else S <$> py_list_index x l'
  end.

Fixpoint py_list_remove (x : json) (l : list json) : list json :=
  match l with
  | [] => []
  | y :: l' => if py_eq y x then l' else y :: py_list_remove x l'
  end.

(** [delete_chat(title, parent_frame)] (lines 417-425), for the frame
    at position [frame] of the sidebar; [yes] answers its question. *)
Definition delete_chat (title : json) (frame : nat) (yes : bool) : pyM cg_state unit :=
  cg_show (AskYesNo "Confirm Delete" ("Are you sure you want to delete '" +:+ py_str title +:+ "'?"));;
  if yes then
    pmodify (fun s => {| s with cg_frames := delete frame (cg_frames s) |});;
    pmodify (fun s => {| s with cg_chats :=
      if py_in_list title (cg_chats s) then py_list_remove title (cg_chats s) else cg_chats s |})
  else pret tt.

(** [save_rename] of [rename_chat(old_title, parent_frame)] (lines
    341-354), with the text of the entry: the button is renamed only
    when it still shows [old_title]. *)
Definition save_rename (old_title : json) (frame : nat) (entry : string) : pyM cg_state unit :=
  let new_title := py_strip entry in
  if negb (String.eqb new_title "") && negb (py_eq (JStr new_title) old_title) then
    pmodify (fun s => {| s with cg_frames :=
      match cg_frames s !! frame with
      | Some (t, text) =>
          if py_eq text old_title then <[frame := (t, JStr new_title)]> (cg_frames s)
          else cg_frames s
      | None => cg_frames s
      end |});;
    s <- pget;;
    match py_list_index old_title (cg_chats s) with
    | Some i => pmodify (fun s => {| s with cg_chats := <[i := JStr new_title]> (cg_chats s) |})
    | None => praise (PyExn "ValueError" (py_repr old_title +:+ " is not in list"))
    end
  else pret tt.

(** [clear_placeholder] and [add_placeholder] (lines 483-494). *)
Definition clear_placeholder : pyM cg_state unit :=
  pmodify (fun s => if String.eqb (cg_input s) cg_placeholder
                    then {| s with cg_input := "" |} else s).

Definition add_placeholder : pyM cg_state unit :=
  pmodify (fun s => if String.eqb (py_strip (cg_input s)) ""
                    then {| s with cg_input := cg_placeholder |} else s).

(** ** Models (lines 567-631) *)

Definition has_indicator (s : cg_state) : bool :=
  match cg_indicator s with Some _ => true | None => false end.

(** [status_indicator.itemconfig("status_light", fill=color)]: Tcl
    fails on a canvas that the settings window took with it. *)
Definition set_light (color : string) : pyM cg_state unit :=
  s <- pget;;
  match cg_indicator s with
  | Some true => pmodify (fun s => {| s with cg_light := color |})
  | Some false => praise (PyExn "TclError" "invalid command name")
  | None => praise (PyExn "AttributeError"
                      "'ChatGPTStyle' object has no attribute 'status_indicator'")
  end.

Definition set_conn_status (text : string) : pyM cg_state unit :=
  pmodify (fun s => {| s with cg_conn_status := text |}).

(** [fetch_models] on the UI thread: it starts [fetch]. *)
Definition cg_fetch_models : pyM cg_state unit :=
  s <- pget;;
  (if has_indicator s then set_light "yellow";; set_conn_status "Connecting..." else pret tt);;
  pmodify (fun s => {| s with cg_workers := cg_workers s ++ [CgFetch] |}).

(** The [try] block of [fetch], for the outcome [r] of the [/tags]
    request. *)
Definition cg_fetch_body (r : http_result) : pyM cg_state unit :=
    match r with
     | HttpExn e => praise e
     | HttpResp status _ body =>
         if Z.eqb status 200 then
           data <- plift body;;
           ms <- plift (py_get_default data "models" (JArr []));;
           items <- plift (py_iter ms);;
           names <- plift (res_map (fun m => py_getitem m "name") items);;
           cg_schedule [CgUpdateModels names];;
           s <- pget;;
           if has_indicator s then cg_schedule [CgLight "green"; CgConnStatus "Connected"]
           else pret tt
         else
           s <- pget;;
           (if has_indicator s then cg_schedule [CgLight "red"; CgConnStatus "Error"]
            else pret tt);;
           cg_schedule [CgDialog (ShowError "API Error"
                          ("Error fetching models: API returned " +:+ py_str_int status))]
     end.

(** Its [except Exception as e:] block (lines 596-604). *)
Definition cg_fetch_failed (f : nat) (e : exn) : pyM cg_state unit :=
  s <- pget;;
  (if has_indicator s then cg_schedule [CgLight "red"; CgConnStatus "Error"] else pret tt);;
  cg_schedule [CgFetchErrorExn f e].

Definition cg_fetch_finish (i : nat) (r : http_result) : pyM cg_state unit :=
  cg_run_thread i false (cg_fetch_body r) cg_fetch_failed.

Definition model_selected_msg (model : string) : string :=
  "Model '" +:+ model +:+ "' selected. Start chatting!".

Definition cg_welcome : string := "Welcome to Ollama Chat! Select a model to start chatting.".

(** [update_models] (lines 609-624). *)
Definition cg_update_models (ms : list json) : pyM cg_state unit :=
  pmodify (fun s => {| s with cg_models := ms |});;
  match ms with
  | m :: _ =>
      pmodify (fun s => {| s with cg_selected := py_str m |});;
      add_system_message ("Model '" +:+ py_str m +:+ "' selected. Start chatting!")
  | [] =>
      (* [model_combobox.current(0)] on the values ["No models available"]
         writes that text to the combobox's variable [selected_model]. *)
      pmodify (fun s => {| s with cg_selected := "No models available" |});;
      cg_show (ShowWarning "No Models Found"
        ("No models were found in your Ollama installation." +:+ nl2 +:+
         "Please install at least one model using 'ollama pull <model>'"))
  end.

(** The test of lines 629, 644 and 755. *)
Definition model_ok (model : string) : bool :=
  negb (String.eqb model "") && negb (String.eqb model "Loading models...")
  && negb (String.eqb model "No models available").

(** [new_chat] (lines 744-762); [prompt_for_title] opens the title
    dialog of [prompt_for_chat_title]. *)
Definition cg_new_chat (prompt_for_title : bool) : pyM cg_state unit :=
  pmodify (fun s => {| s with cg_history := JArr []; cg_messages := [] |});;
  s <- pget;;
  (if model_ok (cg_selected s) then add_system_message (model_selected_msg (cg_selected s))
   else add_system_message cg_welcome);;
  if prompt_for_title then pmodify (fun s => {| s with cg_title_dialog := true |}) else pret tt.

(** [finish_new_chat] (lines 1103-1110). *)
Definition finish_new_chat (title : json) : pyM cg_state unit :=
  add_chat_to_sidebar title;;
  pmodify (fun s => {| s with cg_title_dialog := false |}).

Definition default_title (s : cg_state) : string :=
  "Chat " +:+ py_str_int (Z.of_nat (length (cg_chats s)) + 1).

(** [save_title] (lines 1091-1095) with the text of the entry; the
    Cancel button finishes with the default title. *)
Definition save_title (entry : string) : pyM cg_state unit :=
  s <- pget;;
  let title := py_strip entry in
  finish_new_chat (JStr (if String.eqb title "" then default_title s else title)).

Definition cancel_title : pyM cg_state unit :=
  s <- pget;; finish_new_chat (JStr (default_title s)).

(** [on_model_selected] (lines 626-631). *)
Definition cg_on_model_selected : pyM cg_state unit :=
  s <- pget;;
  if model_ok (cg_selected s) then
    cg_new_chat true;; add_system_message (model_selected_msg (cg_selected s))
  else pret tt.

(** ** Sending (lines 633-742) *)

(** The body [generate] posts. *)
Definition cg_payload (model : string) (messages : list json) (t : Q) (n : Z) : json :=
  JObj [("model", JStr model); ("messages", JArr messages); ("stream", JBool false);
        ("options", JObj [("temperature", JFloat t); ("num_predict", JInt n)])].

(** [send_message] on the UI thread.  The system message is always the
    first of [messages], also for an empty system prompt. *)
Definition cg_send_message : pyM cg_state unit :=
  s <- pget;;
  if cg_generating s then pret tt else
  let message_text := py_strip (text_get (cg_input s)) in
  if String.eqb message_text "" || String.eqb message_text cg_placeholder then pret tt else
  let model := cg_selected s in
  if negb (model_ok model) then
    cg_show (ShowWarning "No Model Selected" "Please select a model first.")
  else
    add_user_message (JStr message_text);;
    pmodify (fun s => {| s with cg_input := "" |});;
    s <- pget;;
    h <- plift (py_append (cg_history s) (chat_msg "user" (JStr message_text)));;
    pmodify (fun s => {| s with cg_history := h |});;
    s <- pget;;
    items <- plift (py_iter (cg_history s));;
    let messages := chat_msg "system" (JStr (cg_system_prompt s)) :: items in
    pmodify (fun s => {| s with cg_generating := true |});;
    s <- pget;;
    let id := cg_next_id s in
    add_widget (WThinking id);;
    pmodify (fun s => {| s with cg_workers := cg_workers s ++ [CgGen id model messages];
                                cg_next_id := S id |}).

(** The [try] block of [generate], for the outcome [r] of the [/chat]
    request.  It appends the reply to the history itself, not through
    the queue. *)
Definition cg_generate (id : nat) (model : string) (messages : list json) (r : http_result)
  : pyM cg_state unit :=
     s <- pget;;
     pmodify (fun s => {| s with cg_posted := cg_posted s ++
        [cg_payload model messages (cg_temperature s) (cg_max_tokens s)] |});;
     match r with
     | HttpExn e => praise e
     | HttpResp status _ body =>
         cg_schedule [CgDestroyThinking id];;
         if Z.eqb status 200 then
           data <- plift body;;
           reply <- plift (read_reply data);;
           match reply with
           | Some content =>
               s <- pget;;
               h <- plift (py_append (cg_history s) (chat_msg "assistant" content));;
               pmodify (fun s => {| s with cg_history := h |});;
               cg_schedule [CgAssistant content]
           | None => cg_schedule [CgSystem "Error: Received empty response from model."]
           end
         else cg_schedule [CgSystem (http_error_msg status body)]
     end.

(** [generate] on the worker [i]: its [except Exception as e:] block
    (lines 735-737) and, through [cg_leave_except], its [finally],
    which schedules the reset of the flag. *)
Definition cg_generate_finish (i id : nat) (model : string) (messages : list json)
  (r : http_result) : pyM cg_state unit :=
  cg_run_thread i true (cg_generate id model messages r)
    (fun f e => cg_schedule [CgDestroyThinking id; CgSystemExn f e]).

(** ** The [after] queue *)

Definition is_thinking (id : nat) (w : cg_widget) : bool :=
  match w with WThinking j => Nat.eqb j id | _ => false end.

(** The [e] of frame [f] is still bound: its thread has not left the
    [except] block. *)
Definition cg_frame_live (f : nat) (s : cg_state) : bool :=
  existsb (fun w => match w with CgInExcept f' _ => Nat.eqb f f' | _ => false end)
    (cg_workers s).

Definition cg_with_exn (f : nat) (c : pyM cg_state unit) : pyM cg_state unit :=
  s <- pget;;
  if cg_frame_live f s then c else praise name_error.

Definition cg_run_one (cb : cg_callback) : pyM cg_state unit :=
  match cb with
  | CgDestroyThinking id =>
      pmodify (fun s => {| s with cg_messages :=
        filter (fun w => negb (is_thinking id w)) (cg_messages s) |})
  | CgAssistant c => add_assistant_message c
  | CgSystem t => add_system_message t
  | CgSystemExn f e => cg_with_exn f (add_system_message ("Error: " +:+ exn_str e))
  | CgFetchErrorExn f e =>
      cg_with_exn f (s <- pget;; cg_show (ShowError "Connection Error"
        ("Could not connect to Ollama API at " +:+ cg_api_url s +:+ "." +:+ nl2 +:+
         "Make sure Ollama is running and try again." +:+ nl2 +:+ "Error: " +:+ exn_str e)))
  | CgTestErrorExn f e url =>
      cg_with_exn f (cg_show (ShowError "Connection Error"
        ("Could not connect to Ollama API at " +:+ url +:+ "." +:+ nl2 +:+
         "Error: " +:+ exn_str e)))
  | CgNotGenerating => pmodify (fun s => {| s with cg_generating := false |})
  | CgUpdateModels ms => cg_update_models ms
  | CgLight c => set_light c
  | CgConnStatus t => set_conn_status t
  | CgDialog d => cg_show d
  end.

Definition cg_run_callback (s : cg_state) : cg_state :=
  match cg_queue s with
  | [] => s
  | cb :: rest => fst (cg_run_one cb {| s with cg_queue := rest |})
  end.

(** ** Files (lines 966-1058) *)

(** [open(path)] and [json.load]: [cg_files] maps a path to the
    document the file holds. *)
Definition cg_read_file (s : cg_state) (path : string) : res json :=
  match assoc_last (cg_files s) path with
  | Some doc => Ok doc
  | None => Raise (PyExn "FileNotFoundError"
                     ("[Errno 2] No such file or directory: " +:+ py_repr_str path))
  end.

(** The display loop of lines 1010-1014: system messages of the file
    are not shown. *)
Fixpoint cg_display_messages (items : list json) : pyM cg_state unit :=
  match items with
  | [] => pret tt
  | msg :: rest =>
      role <- plift (py_getitem msg "role");;
      (if py_eq role (JStr "user") then
         c <- plift (py_getitem msg "content");; add_user_message c
       else if py_eq role (JStr "assistant") then
         c <- plift (py_getitem msg "content");; add_assistant_message c
       else pret tt);;
      cg_display_messages rest
  end.

(** [load_chat_from_file]: [path] is what the open dialog returns. *)
Definition cg_load_chat (path : string) : pyM cg_state unit :=
  if String.eqb path "" then pret tt else
  ptry
    (s <- pget;;
     chat_data <- plift (cg_read_file s path);;
     has_messages <- plift (py_contains chat_data "messages");;
     if negb has_messages then
       cg_show (ShowError "Invalid Chat File" "The selected file does not contain valid chat data.")
     else
       cg_new_chat false;;
       (if py_has_key chat_data "title" then
          t <- plift (py_getitem chat_data "title");; add_chat_to_sidebar t
        else
          s <- pget;;
          add_chat_to_sidebar (JStr ("Loaded Chat " +:+
                                     py_str_int (Z.of_nat (length (cg_chats s)) + 1))));;
       (if py_has_key chat_data "model" then
          m <- plift (py_getitem chat_data "model");;
          s <- pget;;
          if py_in_list m (cg_models s) then
            pmodify (fun s => {| s with cg_selected := py_str m |})
          else pret tt
        else pret tt);;
       (if py_has_key chat_data "system_prompt" then
          p <- plift (py_getitem chat_data "system_prompt");;
          pmodify (fun s => {| s with cg_system_prompt := py_str p |})
        else pret tt);;
       msgs <- plift (py_getitem chat_data "messages");;
       pmodify (fun s => {| s with cg_history := msgs |});;
       add_system_message ("Chat loaded from " +:+ py_basename path);;
       items <- plift (py_iter msgs);;
       cg_display_messages items;;
       cg_show (ShowInfo "Chat Loaded" ("Chat has been loaded from:" +:+ nl +:+ path)))
    (fun e => cg_show (ShowError "Error Loading Chat"
                         ("An error occurred while loading the chat:" +:+ nl +:+ exn_str e))).

(** [save_chat_to_file]: [path] is what the save dialog returns and
    [iso] is [datetime.now().isoformat()].  The values of the dict are
    computed in order, and [APP_VERSION] is looked up among the module
    globals. *)
Definition cg_save_chat (path iso : string) : pyM cg_state unit :=
  s <- pget;;
  if negb (py_truthy (cg_history s)) then
    cg_show (ShowInfo "No Chat to Save" "There is no chat content to save.")
  else if String.eqb path "" then pret tt
  else
    ptry
      (s <- pget;;
       let title := match last (cg_chats s) with
                    | Some t => t
                    | None => JStr "Untitled Chat"
                    end in
       v <- plift (py_global (cg_globals s) "APP_VERSION");;
       let chat_data := JObj [("title", title); ("model", JStr (cg_selected s));
                              ("timestamp", JStr iso);
                              ("system_prompt", JStr (cg_system_prompt s));
                              ("messages", cg_history s); ("app_version", v)] in
       pmodify (fun s => {| s with cg_files := cg_files s ++ [(path, chat_data)] |});;
       cg_show (ShowInfo "Chat Saved" ("Chat has been saved to:" +:+ nl +:+ path)))
      (fun e => cg_show (ShowError "Error Saving Chat"
                           ("An error occurred while saving the chat:" +:+ nl +:+ exn_str e))).

(** ** Settings, closing and the program *)

(** [save_settings] (lines 890-902); the dialog then closes and its
    status canvas with it.  Its Save button passes
    [api_url_entry.get()], and that entry edits [self.ollama_api_url]
    itself. *)
Definition cg_save_settings (system_prompt api_url : string) : pyM cg_state unit :=
  pmodify (fun s => {| s with cg_system_prompt := system_prompt |});;
  s <- pget;;
  (if negb (String.eqb api_url (cg_api_url s)) then
     pmodify (fun s => {| s with cg_api_url := api_url;
                                 cg_globals := cg_globals s ++ [("OLLAMA_API_URL", JStr api_url)] |});;
     cg_fetch_models
   else pret tt);;
  pmodify (fun s => {| s with cg_indicator := Some false |}).

(** [show_settings] creates a new status canvas, red. *)
Definition cg_show_settings : pyM cg_state unit :=
  pmodify (fun s => {| s with cg_indicator := Some true; cg_light := "red" |}).

(** [test_connection] (lines 496-538) on the UI thread. *)
Definition cg_test_connection : pyM cg_state unit :=
  set_light "yellow";;
  set_conn_status "Testing...";;
  s <- pget;;
  pmodify (fun s' => {| s' with cg_workers := cg_workers s' ++ [CgTest (cg_api_url s)] |}).

(** The [try] block of [test] and its [except
    requests.exceptions.Timeout:], for the outcome of
    [GET {api_url}/tags]; another exception escapes to the next
    [except]. *)
Definition cg_test_body (api_url : string) (r : http_result) : pyM cg_state unit :=
  match r with
  | HttpResp status _ _ =>
      if Z.eqb status 200 then
        cg_schedule [CgLight "green"; CgConnStatus "Connected";
                     CgDialog (ShowInfo "Connection Successful"
                                 ("Successfully connected to Ollama API at " +:+ api_url))]
      else
        cg_schedule [CgLight "red"; CgConnStatus "Error";
                     CgDialog (ShowError "API Error"
                                 ("Error connecting to API: Server returned " +:+ py_str_int status))]
  | HttpExn e =>
      if is_timeout e then
        cg_schedule [CgLight "red"; CgConnStatus "Timeout";
                     CgDialog (ShowError "Connection Timeout"
                       ("Connection to " +:+ api_url +:+ " timed out." +:+ nl2 +:+
                        "Please check if the server is running and accessible."))]
      else praise e
  end.

(** [test] on the worker [i], with its [except Exception as e:] block
    (lines 528-534). *)
Definition cg_test_finish (i : nat) (api_url : string) (r : http_result) : pyM cg_state unit :=
  cg_run_thread i false (cg_test_body api_url r)
    (fun f e => cg_schedule [CgLight "red"; CgConnStatus "Error"; CgTestErrorExn f e api_url]).

(** [on_close] (lines 1112-1126). *)
Definition cg_on_close (yes_generating yes_exit : bool) : pyM cg_state unit :=
  s <- pget;;
  (if cg_generating s then
     cg_show (AskYesNo "Generating in Progress"
       "A response is currently being generated. Are you sure you want to exit?")
   else pret tt);;
  if cg_generating s && negb yes_generating then pret tt else
  (if py_truthy (cg_history s) then
     cg_show (AskYesNo "Exit" "Do you want to exit? Any unsaved chat will be lost.")
   else pret tt);;
  if py_truthy (cg_history s) && negb yes_exit then pret tt else
  pmodify (fun s => {| s with cg_closed := true |}).

(** A UI event.  The sidebar events name a frame by its position;
    its options menu passes the title the frame was created with. *)
Inductive cg_event : Type :=
| CgEvType (text : string)
| CgEvFocusIn
| CgEvFocusOut
| CgEvSend
| CgEvNewChat
| CgEvTitleCreate (entry : string)
| CgEvTitleCancel
| CgEvSelectModel (i : nat)
| CgEvRename (frame : nat) (entry : string)
| CgEvDelete (frame : nat) (yes : bool)
| CgEvLoad (path : string)
| CgEvSave (path iso : string)
| CgEvOpenSettings
| CgEvEditApiUrl (url : string)
| CgEvSetTemperature (t : Q)
| CgEvSetMaxTokens (n : Z)
| CgEvTestConnection
| CgEvSaveSettings (system_prompt : string)
| CgEvCancelSettings
| CgEvClose (yes_generating yes_exit : bool).

(** The events of the two modal dialogs ([grab_set]): while one is
    open, the main window gets no other event. *)
Definition title_event (ev : cg_event) : bool :=
  match ev with CgEvTitleCreate _ | CgEvTitleCancel => true | _ => false end.

Definition settings_event (ev : cg_event) : bool :=
  match ev with
  | CgEvEditApiUrl _ | CgEvSetTemperature _ | CgEvSetMaxTokens _ | CgEvTestConnection
  | CgEvSaveSettings _ | CgEvCancelSettings => true
  | _ => false
  end.

Definition settings_open (s : cg_state) : bool :=
  match cg_indicator s with Some true => true | _ => false end.

Definition cg_accepts (s : cg_state) (ev : cg_event) : bool :=
  if cg_title_dialog s then title_event ev
  else if settings_open s then settings_event ev
  else negb (title_event ev) && negb (settings_event ev).

Definition cg_handle (ev : cg_event) : pyM cg_state unit :=
  match ev with
  | CgEvType text => pmodify (fun s => {| s with cg_input := text |})
  | CgEvFocusIn => clear_placeholder
  | CgEvFocusOut => add_placeholder
  | CgEvSend => cg_send_message
  | CgEvNewChat => cg_new_chat true
  | CgEvTitleCreate entry => save_title entry
  | CgEvTitleCancel => cancel_title
  | CgEvSelectModel i =>
      s <- pget;;
      match cg_models s !! i with
      | Some m => pmodify (fun s => {| s with cg_selected := py_str m |});; cg_on_model_selected
      | None => pret tt
      end
  | CgEvRename frame entry =>
      s <- pget;;
      match cg_frames s !! frame with
      | Some (title, _) => save_rename title frame entry
      | None => pret tt
      end
  | CgEvDelete frame yes =>
      s <- pget;;
      match cg_frames s !! frame with
      | Some (title, _) => delete_chat title frame yes
      | None => pret tt
      end
  | CgEvLoad path => cg_load_chat path
  | CgEvSave path iso => cg_save_chat path iso
  | CgEvOpenSettings => cg_show_settings
  | CgEvEditApiUrl url => pmodify (fun s => {| s with cg_api_url := url |})
  | CgEvSetTemperature t => pmodify (fun s => {| s with cg_temperature := t |})
  | CgEvSetMaxTokens n => pmodify (fun s => {| s with cg_max_tokens := n |})
  | CgEvTestConnection => cg_test_connection
  | CgEvSaveSettings p => s <- pget;; cg_save_settings p (cg_api_url s)
  | CgEvCancelSettings => pmodify (fun s => {| s with cg_indicator := Some false |})
  | CgEvClose y1 y2 => cg_on_close y1 y2
  end.

(** The variables of lines 28-40. *)
Definition cg_blank (g : list (string * json)) (url : string) : cg_state := {|
  cg_globals := g; cg_models := []; cg_selected := ""; cg_temperature := 7 # 10;
  cg_max_tokens := 1024; cg_system_prompt := "You are a helpful assistant.";
  cg_history := JArr []; cg_generating := false; cg_chats := []; cg_frames := [];
  cg_messages := []; cg_input := ""; cg_api_url := url;
  cg_conn_status := "Not Connected"; cg_indicator := None; cg_light := "";
  cg_dialogs := []; cg_queue := []; cg_workers := []; cg_posted := []; cg_files := [];
  cg_next_id := 0; cg_title_dialog := false; cg_closed := false; cg_next_frame := 0 |}.

(** [ChatGPTStyle.__init__] (lines 20-50) on the module globals: it
    reads [OLLAMA_API_URL], [setup_sidebar] adds two chats,
    [setup_chat_area] the placeholder and the welcome line, and
    [fetch_models] starts its thread. *)
Definition cg_init (g : list (string * json)) : res cg_state :=
  let? url := py_global g "OLLAMA_API_URL" in
  Ok (fst ((add_chat_to_sidebar (JStr "Welcome to Ollama Chat");;
            add_chat_to_sidebar (JStr "My first conversation");;
            pmodify (fun s => {| s with cg_input := cg_placeholder |});;
            add_system_message cg_welcome;;
            cg_fetch_models) (cg_blank g (py_str url)))).

(** [main] (lines 1128-1147): [--api-url] sets the global before the
    window is built; [files] are the files on disk. *)
Definition cg_main (api_url : option string) (files : list (string * json)) : res cg_state :=
  let g := match api_url with
           | Some u => if String.eqb u "" then cg_module_globals
                       else cg_module_globals ++ [("OLLAMA_API_URL", JStr u)]
           | None => cg_module_globals
           end in
  let? s := cg_init g in
  Ok {| s with cg_files := files;
               cg_api_url := match api_url with
                             | Some u => if String.eqb u "" then cg_api_url s else u
                             | None => cg_api_url s
                             end |}.

Inductive cg_step : cg_state -> cg_state -> Prop :=
| CgUi (ev : cg_event) (s : cg_state) :
    cg_closed s = false -> cg_accepts s ev = true -> cg_step s (fst (cg_handle ev s))
| CgGenFinish (i id : nat) (model : string) (msgs : list json) (r : http_result) (s : cg_state) :
    cg_workers s !! i = Some (CgGen id model msgs) ->
    cg_step s (fst (cg_generate_finish i id model msgs r s))
| CgFetchFinish (i : nat) (r : http_result) (s : cg_state) :
    cg_workers s !! i = Some CgFetch -> cg_step s (fst (cg_fetch_finish i r s))
| CgTestFinish (i : nat) (url : string) (r : http_result) (s : cg_state) :
    cg_workers s !! i = Some (CgTest url) ->
    cg_step s (fst (cg_test_finish i url r s))
| CgLeaveExcept (i f : nat) (gen : bool) (s : cg_state) :
    cg_workers s !! i = Some (CgInExcept f gen) -> cg_step s (fst (cg_leave_except i gen s))
| CgCallback (s : cg_state) :
    cg_closed s = false -> cg_queue s <> [] -> cg_step s (cg_run_callback s).

Definition cg_reachable (s : cg_state) : Prop :=
  exists api_url files s0, cg_main api_url files = Ok s0 /\ rtc cg_step s0 s.
