(* ===== verification/ChatGptDemo.v ===== *)
(** * A concrete session of the ChatGPT-style client

    Started with [--api-url], the client lists one model, the user
    types [Hello] and sends it, the service answers [Hi], and the UI
    thread runs the queued callbacks.  The witnesses of [ChatGptFacts]
    apply its theorems to these states; [cg_reach] checks that a state
    is reached by [cg_step]. *)

From S2P Require Import Prelude PyStr PyNum Json Protocol TkGui ChatGpt.
From Stdlib Require Import QArith.
Open Scope string_scope.
Open Scope list_scope.
Open Scope nat_scope.
Local Open Scope py_scope.

Definition cg_demo_url : string := "http://localhost:11434/api".

Definition cg_demo_open : cg_state :=
  match cg_main (Some cg_demo_url) [] with
  | Ok s => s
  | Raise _ => cg_blank [] ""
  end.

Definition cg_demo_tags : http_result :=
  HttpResp 200 "" (Ok (JObj [("models", JArr [JObj [("name", JStr "llama3")]])])).

Definition cg_demo_reply : http_result :=
  HttpResp 200 "" (Ok (JObj [("message", JObj [("role", JStr "assistant");
                                                ("content", JStr "Hi")])])).

Definition cg_demo_ready : cg_state :=
  fst (cg_handle (CgEvType "Hello") (cg_run_callback (fst (cg_fetch_finish 0 cg_demo_tags cg_demo_open)))).

Definition cg_demo_sending : cg_state := fst (cg_handle CgEvSend cg_demo_ready).

Definition cg_demo_messages : list json :=
  [chat_msg "system" (JStr "You are a helpful assistant."); chat_msg "user" (JStr "Hello")].

Definition cg_demo_answered : cg_state :=
  cg_run_callback (cg_run_callback (cg_run_callback
    (fst (cg_generate_finish 0 0 "llama3" cg_demo_messages cg_demo_reply cg_demo_sending)))).

(** Check a run backwards, one step of [cg_step] at a time. *)
Ltac cg_reach :=
  repeat first
    [ eapply rtc_r; [| first
        [ apply CgUi; vm_compute; reflexivity
        | apply CgCallback; [vm_compute; reflexivity | neq_by_compute]
        | eapply CgFetchFinish; vm_compute; reflexivity
        | eapply CgGenFinish; vm_compute; reflexivity
        | eapply CgLeaveExcept; vm_compute; reflexivity ] ]
    | apply rtc_refl ].

Lemma cg_demo_answered_reachable : cg_reachable cg_demo_answered.
Proof.
  exists (Some cg_demo_url), [], cg_demo_open. split; [reflexivity |].
  unfold cg_demo_answered, cg_demo_sending, cg_demo_ready. cg_reach.
Qed.
