(* ===== verification/ChatGptFacts.v ===== *)
(** * Properties of the ChatGPT-style client

    That saving a chat fails in every state of the program, because
    [APP_VERSION] is never defined; that the program starts only with
    [--api-url]; what [send_message] posts; that saving the settings
    never refreshes the models; and that renaming then deleting a
    chat leaves its new title in [current_chats]. *)

From S2P Require Import Prelude PyStr PyNum Json Protocol TkGui ChatGpt ChatGptDemo.
From Stdlib Require Import QArith.
Open Scope string_scope.
Open Scope list_scope.
Open Scope nat_scope.
Local Open Scope py_scope.

(** ** [APP_VERSION] is never defined *)

Definition no_app_version (s : cg_state) : Prop :=
  assoc_last (cg_globals s) "APP_VERSION" = None.

(** The only global a handler defines is [OLLAMA_API_URL]. *)
Ltac glob_step :=
  preserve_step ltac:(unfold no_app_version in *; cbn; repeat case_match;
                      first [assumption | rewrite assoc_last_app; cbn; assumption]).

Ltac solve_glob := repeat glob_step.

Lemma glob_schedule (cbs : list cg_callback) : preserves no_app_version (cg_schedule cbs).
Proof. unfold cg_schedule. solve_glob. Qed.

Lemma glob_show (d : dialog) : preserves no_app_version (cg_show d).
Proof. unfold cg_show. solve_glob. Qed.

Lemma glob_widget (w : cg_widget) : preserves no_app_version (add_widget w).
Proof. unfold add_widget. solve_glob. Qed.

Lemma glob_sidebar (t : json) : preserves no_app_version (add_chat_to_sidebar t).
Proof. unfold add_chat_to_sidebar. solve_glob. Qed.

Lemma glob_light (c : string) : preserves no_app_version (set_light c).
Proof. unfold set_light. solve_glob. Qed.

Lemma glob_remove_worker (i : nat) : preserves no_app_version (cg_remove_worker i).
Proof. unfold cg_remove_worker. solve_glob. Qed.

#[export] Hint Resolve glob_schedule glob_show glob_widget glob_sidebar glob_light
  glob_remove_worker : preserve.

Lemma glob_fetch_models : preserves no_app_version cg_fetch_models.
Proof. unfold cg_fetch_models, set_conn_status. solve_glob. Qed.

Lemma glob_new_chat (b : bool) : preserves no_app_version (cg_new_chat b).
Proof. unfold cg_new_chat, add_system_message. solve_glob. Qed.

Lemma glob_finish_new_chat (t : json) : preserves no_app_version (finish_new_chat t).
Proof. unfold finish_new_chat. solve_glob. Qed.

#[export] Hint Resolve glob_fetch_models glob_new_chat glob_finish_new_chat : preserve.

Lemma glob_display (items : list json) : preserves no_app_version (cg_display_messages items).
Proof.
  induction items; cbn; unfold add_user_message, add_assistant_message; solve_glob.
Qed.

Lemma glob_update_models (ms : list json) : preserves no_app_version (cg_update_models ms).
Proof. unfold cg_update_models, add_system_message. solve_glob. Qed.

#[export] Hint Resolve glob_display glob_update_models : preserve.

Lemma glob_handle (ev : cg_event) : preserves no_app_version (cg_handle ev).
Proof.
  destruct ev; cbn;
    unfold clear_placeholder, add_placeholder, cg_send_message, save_title, cancel_title,
      cg_on_model_selected, save_rename, delete_chat, cg_load_chat, cg_save_chat,
      cg_show_settings, cg_test_connection, cg_save_settings, cg_on_close, set_conn_status,
      add_user_message, add_system_message;
    solve_glob.
Qed.

Lemma glob_leave_except (i : nat) (gen : bool) : preserves no_app_version (cg_leave_except i gen).
Proof. unfold cg_leave_except. solve_glob. Qed.
#[export] Hint Resolve glob_leave_except : preserve.

Lemma glob_run_thread (i : nat) (gen : bool) (body : pyM cg_state unit)
  (on_exn : nat -> exn -> pyM cg_state unit) :
  preserves no_app_version body -> (forall f e, preserves no_app_version (on_exn f e)) ->
  preserves no_app_version (cg_run_thread i gen body on_exn).
Proof. intros Hb Hx. unfold cg_run_thread, cg_enter_except. solve_glob. Qed.

Lemma glob_generate_finish (i id : nat) (m : string) (msgs : list json) (r : http_result) :
  preserves no_app_version (cg_generate_finish i id m msgs r).
Proof. apply glob_run_thread; intros; unfold cg_generate; solve_glob. Qed.

Lemma glob_fetch_finish (i : nat) (r : http_result) : preserves no_app_version (cg_fetch_finish i r).
Proof. apply glob_run_thread; intros; unfold cg_fetch_body, cg_fetch_failed; solve_glob. Qed.

Lemma glob_test (i : nat) (url : string) (r : http_result) :
  preserves no_app_version (cg_test_finish i url r).
Proof. apply glob_run_thread; intros; unfold cg_test_body; solve_glob. Qed.

Lemma glob_run_one (cb : cg_callback) : preserves no_app_version (cg_run_one cb).
Proof.
  destruct cb; cbn; unfold cg_with_exn, add_assistant_message, add_system_message, set_conn_status;
    solve_glob.
Qed.

Lemma glob_cg_step (s s' : cg_state) : cg_step s s' -> no_app_version s -> no_app_version s'.
Proof.
  destruct 1 as [ev s| | | | | s]; intros Hs.
  - by apply glob_handle.
  - by apply glob_generate_finish.
  - by apply glob_fetch_finish.
  - by apply glob_test.
  - by apply glob_leave_except.
  - unfold cg_run_callback. destruct (cg_queue s); [done |]. by apply glob_run_one.
Qed.

Lemma glob_main (api_url : option string) (files : list (string * json)) (s : cg_state) :
  cg_main api_url files = Ok s -> no_app_version s.
Proof.
  unfold cg_main, cg_init. intros Hm.
  destruct api_url as [u|]; [destruct (String.eqb u "") |]; cbn in Hm; simplify_eq; done.
Qed.

Lemma cg_reachable_globals (s : cg_state) : cg_reachable s -> no_app_version s.
Proof.
  intros (api_url & files & s0 & Hm & Hr). apply glob_main in Hm.
  induction Hr as [|s1 s2 s3 Hst _ IH]; [done |]. apply IH. by eapply glob_cg_step.
Qed.

(** C25 (code bug): saving never works.  Line 17 defines
    [OLLAMA_API_URLRSION] instead of [APP_VERSION], and no handler
    defines it, so in every state of the program [save_chat_to_file]
    with a history and a chosen path raises [NameError] while it
    builds the document: no file is written and only the error dialog
    is shown. *)
Theorem cg_save_always_fails (s : cg_state) (path iso : string) :
  cg_reachable s -> py_truthy (cg_history s) = true -> path <> "" ->
  cg_save_chat path iso s =
  ({| s with cg_dialogs := cg_dialogs s ++
       [ShowError "Error Saving Chat"
          ("An error occurred while saving the chat:" +:+ nl +:+
           "name 'APP_VERSION' is not defined")] |}, Ok tt).
Proof.
  intros Hr Hh Hp. apply cg_reachable_globals in Hr. apply String.eqb_neq in Hp.
  unfold cg_save_chat, cg_show, py_global. py_unfold. rewrite Hh, Hp. cbn.
  unfold no_app_version in Hr. by rewrite Hr.
Qed.

Lemma cg_save_always_fails_witness :
  cg_save_chat "chat.json" "2024-05-01T10:00:00" cg_demo_answered =
  ({| cg_demo_answered with cg_dialogs := cg_dialogs cg_demo_answered ++
       [ShowError "Error Saving Chat"
          ("An error occurred while saving the chat:" +:+ nl +:+
           "name 'APP_VERSION' is not defined")] |}, Ok tt).
Proof.
  apply cg_save_always_fails;
    [exact cg_demo_answered_reachable | vm_compute; reflexivity | discriminate].
Defined.

(** ** Starting the program *)

(** C26 (code bug): without [--api-url] the window is never built:
    [__init__] reads the global [OLLAMA_API_URL], which line 17 does
    not define, and raises [NameError].  With a non-empty [--api-url]
    the window opens on that URL, with the two sidebar chats, the
    placeholder, the welcome line and the [fetch] thread started. *)
Theorem cg_main_needs_api_url (files : list (string * json)) :
  cg_main None files = Raise (PyExn "NameError" "name 'OLLAMA_API_URL' is not defined") /\
  forall u, u <> "" ->
    exists s, cg_main (Some u) files = Ok s /\ cg_api_url s = u /\
      cg_chats s = [JStr "Welcome to Ollama Chat"; JStr "My first conversation"] /\
      cg_input s = cg_placeholder /\ cg_messages s = [WSystem cg_welcome] /\
      cg_workers s = [CgFetch] /\ cg_files s = files.
Proof.
  split; [reflexivity |]. intros u Hu. apply String.eqb_neq in Hu.
  unfold cg_main. rewrite Hu. cbn. eexists. split; [reflexivity |]. done.
Qed.

(** ** Sending *)

(** C27 (divergence from the specification): [send_message] puts the
    system prompt first in [messages] whatever it is, also when it is
    empty, where the specification omits an empty system prompt.
    With no request in flight, a model chosen and a typed message it
    shows the message and the thinking frame, clears the input,
    appends the message to the history, sets the flag and starts the
    worker with the system message and the whole history. *)
Theorem cg_send_system_first (s : cg_state) (h : list json) :
  cg_generating s = false -> model_ok (cg_selected s) = true ->
  cg_history s = JArr h ->
  let m := py_strip (text_get (cg_input s)) in
  m <> "" -> m <> cg_placeholder ->
  let u := chat_msg "user" (JStr m) in
  let s' := fst (cg_send_message s) in
  cg_workers s' = cg_workers s ++
    [CgGen (cg_next_id s) (cg_selected s) (chat_msg "system" (JStr (cg_system_prompt s)) :: h ++ [u])] /\
  cg_history s' = JArr (h ++ [u]) /\ cg_generating s' = true /\ cg_input s' = "" /\
  cg_messages s' = cg_messages s ++ [WUser (JStr m); WThinking (cg_next_id s)].
Proof.
  intros Hg Hm Hh m Hm1 Hm2. cbv zeta. apply String.eqb_neq in Hm1, Hm2.
  subst m. unfold cg_send_message, add_user_message, add_widget.
  rewrite pbind_pget. cbv beta. rewrite Hg. cbv iota zeta. rewrite Hm1, Hm2, Hm. cbn [orb negb].
  py_run_with cg_simpl. rewrite Hh. cbn [py_append].
  py_run_with cg_simpl. cbn [py_iter]. py_run_with cg_simpl. cbn. by rewrite <- app_assoc.
Qed.

Lemma cg_send_system_first_witness :
  let s' := fst (cg_send_message cg_demo_ready) in
  cg_workers s' = [] ++ [CgGen 0 "llama3" (chat_msg "system" (JStr "You are a helpful assistant.")
                                            :: [] ++ [chat_msg "user" (JStr "Hello")])] /\
  cg_history s' = JArr ([] ++ [chat_msg "user" (JStr "Hello")]) /\ cg_generating s' = true /\
  cg_input s' = "" /\
  cg_messages s' = [WSystem cg_welcome; WSystem (model_selected_msg "llama3")] ++
                   [WUser (JStr "Hello"); WThinking 0].
Proof.
  apply (cg_send_system_first cg_demo_ready []); vm_compute; first [reflexivity | discriminate].
Defined.

(** ** Settings *)

(** C28 (code bug): the API URL entry of the settings dialog edits
    [self.ollama_api_url] itself, so the test [api_url !=
    self.ollama_api_url.get()] of [save_settings] is always false:
    after typing a new URL and saving, the new URL is in the variable,
    but the global [OLLAMA_API_URL] is not updated and the models are
    not fetched again from the new server. *)
Theorem cg_settings_url_ignored (s : cg_state) (u p : string) :
  let s1 := fst (cg_handle (CgEvEditApiUrl u) s) in
  let s2 := fst (cg_handle (CgEvSaveSettings p) s1) in
  cg_api_url s2 = u /\ cg_globals s2 = cg_globals s /\ cg_workers s2 = cg_workers s /\
  cg_models s2 = cg_models s /\ cg_system_prompt s2 = p /\ cg_indicator s2 = Some false.
Proof.
  cbn. unfold cg_save_settings. py_unfold. cbn. by rewrite String.eqb_refl.
Qed.

(** ** The sidebar *)

(** C29 (code bug): the options menu of a sidebar entry keeps the title
    the entry was created with.  After the entry is renamed, deleting
    it removes its frame but looks for the old title in
    [current_chats], finds nothing, and leaves the new title there:
    the list no longer matches the sidebar. *)
Theorem cg_rename_delete (s : cg_state) (i j : nat) (t : string) (entry : string) :
  cg_frames s !! i = Some (JStr t, JStr t) -> py_list_index (JStr t) (cg_chats s) = Some j ->
  py_strip entry <> "" -> py_eq (JStr (py_strip entry)) (JStr t) = false ->
  py_in_list (JStr t) (<[j := JStr (py_strip entry)]> (cg_chats s)) = false ->
  let s1 := fst (cg_handle (CgEvRename i entry) s) in
  let s2 := fst (cg_handle (CgEvDelete i true) s1) in
  cg_frames s2 = delete i (cg_frames s) /\
  cg_chats s2 = <[j := JStr (py_strip entry)]> (cg_chats s).
Proof.
  intros Hf Hj He Hn Hin. apply String.eqb_neq in He. cbv zeta. cbn. rewrite Hf.
  assert (py_eq (JStr t) (JStr t) = true) as Ht by apply String.eqb_refl.
  unfold save_rename. rewrite He, Hn. py_unfold. cbn. rewrite Hf, Ht, Hj. cbn.
  rewrite list_lookup_insert_eq by (by eapply lookup_lt_Some).
  unfold delete_chat, cg_show. cbn -[py_in_list]. rewrite Hin.
  split; [apply delete_insert_same | done].
Qed.

Lemma cg_rename_delete_witness :
  let s1 := fst (cg_handle (CgEvRename 1 " Ideas ") cg_demo_open) in
  let s2 := fst (cg_handle (CgEvDelete 1 true) s1) in
  cg_frames s2 = delete 1 (cg_frames cg_demo_open) /\
  cg_chats s2 = <[1 := JStr (py_strip " Ideas ")]> (cg_chats cg_demo_open).
Proof.
  apply (cg_rename_delete cg_demo_open 1 1 "My first conversation");
    vm_compute; first [reflexivity | discriminate].
Defined.
