(* ===== verification/Flask.v ===== *)
(** * The Flask proxy ([src/python_app/app.py])

    The web client's server forwards three API routes to the language
    model service.  Each handler is a [pyM] computation whose state is
    the log of the requests it sends upstream (method, path and JSON
    body), so that the theorems can say what is posted and how often.
    The outcome of the upstream request is an [http_result] of
    [Protocol], and [request.json] is given as a result: the decoded
    body, or the exception Flask raises for a body that is not JSON.
    A handler's answer is a status and a JSON body ([jsonify]).
    [dispatch] routes a request to a handler by its method, with the
    methods Flask and Werkzeug add to the decorator's list.

    The [/] route renders a template and is not modelled; neither is
    [app.run]. *)

From S2P Require Import Prelude PyStr PyNum Json Protocol.
Open Scope string_scope.
Open Scope list_scope.
Local Open Scope py_scope.

Module FlaskApp.

(** What [jsonify(...)] or [jsonify(...), 500] returns. *)
Record flask_resp : Type := FlaskResp {
  f_status : Z;
  f_body : json
}.

(** One call of [requests.get] or [requests.post]. *)
Record upstream_call : Type := UpCall {
  up_method : string;
  up_path : string;
  up_json : option json
}.

Definition send (c : upstream_call) : pyM (list upstream_call) unit :=
  pmodify (fun l => l ++ [c]).

(** [response.json()]: a transport exception is raised by the call
    itself, a body that does not decode by [.json()]. *)
Definition response_json (r : http_result) : res json :=
  match r with
  | HttpResp _ _ body => body
  | HttpExn e => Raise e
  end.

(** [return jsonify({"error": str(e)}), 500]. *)
Definition error_resp (e : exn) : flask_resp :=
  FlaskResp 500 (JObj [("error", JStr (exn_str e))]).

(** [get_models] (lines 21-27). *)
Definition get_models (r : http_result) : pyM (list upstream_call) flask_resp :=
  ptry
    (send (UpCall "GET" "/tags" None);;
     j <- plift (response_json r);;
     pret (FlaskResp 200 j))
    (fun e => pret (error_resp e)).

(** The payload of lines 40-48: [options] is added only when it is
    true. *)
Definition ollama_payload (model messages options : json) : json :=
  let base := [("model", model); ("messages", messages); ("stream", JBool false)] in
  JObj (if py_truthy options then base ++ [("options", options)] else base).

(** [chat] (lines 29-59). *)
Definition chat (req : res json) (r : http_result) : pyM (list upstream_call) flask_resp :=
  ptry
    (data <- plift req;;
     model <- plift (py_get data "model");;
     messages <- plift (py_get_default data "messages" (JArr []));;
     options <- plift (py_get_default data "options" (JObj []));;
     send (UpCall "POST" "/chat" (Some (ollama_payload model messages options)));;
     j <- plift (response_json r);;
     pret (FlaskResp 200 j))
    (fun e => pret (error_resp e)).

(** [os.environ.get('PYTHON_VERSION', '3.x')]. *)
Definition python_version (env : option string) : json :=
  JStr (match env with Some v => v | None => "3.x" end).

(** [version] (lines 61-79): it answers 200 in every case. *)
Definition version (r : http_result) (env : option string) : pyM (list upstream_call) flask_resp :=
  ptry
    (send (UpCall "GET" "/version" None);;
     j <- plift (response_json r);;
     v <- plift (py_get_default j "version" (JStr "unknown"));;
     pret (FlaskResp 200 (JObj [("app_version", JStr "1.0.0"); ("ollama_version", v);
                                 ("python_version", python_version env)])))
    (fun e => pret (FlaskResp 200 (JObj [("app_version", JStr "1.0.0");
                                          ("ollama_version", JStr "unknown (could not connect)");
                                          ("python_version", python_version env);
                                          ("error", JStr (exn_str e))]))).

(** The API routes of the [@app.route] decorators and their methods. *)
Inductive api_route : Type :=
| RModels
| RChat
| RVersion.

Definition route_method (rt : api_route) : string :=
  match rt with RModels => "GET" | RChat => "POST" | RVersion => "GET" end.

(** The methods the rule of a route accepts.  Flask's [add_url_rule]
    adds [OPTIONS] to the decorator's list (its
    [provide_automatic_options]), and Werkzeug's [Rule] adds [HEAD]
    to a list that has [GET]. *)
Definition rule_methods (ms : list string) : list string :=
  ms ++ (if existsb (String.eqb "GET") ms && negb (existsb (String.eqb "HEAD") ms)
         then ["HEAD"] else [])
     ++ (if existsb (String.eqb "OPTIONS") ms then [] else ["OPTIONS"]).

(** The view function of each route. *)
Definition route_handler (rt : api_route) (req : res json) (r : http_result)
  (env : option string) : pyM (list upstream_call) flask_resp :=
  match rt with
  | RModels => get_models r
  | RChat => chat req r
  | RVersion => version r env
  end.

(** A request to an API route.  Werkzeug's matcher answers 405 (with
    an HTML page, whose text is not modelled) for a method the rule
    does not accept.  Flask's [dispatch_request] answers an automatic
    [OPTIONS] itself with an empty 200 (its [Allow] header is not
    modelled), and runs the handler for any other method.  The answer
    to [HEAD] is the handler's without its body. *)
Definition dispatch (rt : api_route) (method : string) (req : res json) (r : http_result)
  (env : option string) : pyM (list upstream_call) flask_resp :=
  if existsb (String.eqb method) (rule_methods [route_method rt]) then
    if String.eqb method "OPTIONS" then pret (FlaskResp 200 JNull)
    else
      resp <- route_handler rt req r env;;
      pret (if String.eqb method "HEAD" then FlaskResp (f_status resp) JNull else resp)
  else pret (FlaskResp 405 JNull).

(** ** Properties *)

(** What a handler answers once the upstream call is made: the
    decoded reply with status 200, or the error as a 500. *)
Definition forward (r : http_result) : flask_resp :=
  match response_json r with
  | Ok j => FlaskResp 200 j
  | Raise e => error_resp e
  end.

(** C20: [chat] with a JSON object as body posts one payload to
    [/chat]: the body's [model] (or [None]), its [messages] (or [[]]),
    [stream: False], and its [options] only when they are true; it
    answers the decoded reply with status 200, or the error of the
    request as a 500 [{"error": str(e)}]. *)
Theorem flask_chat_forwards (kv : list (string * json)) (r : http_result)
  (calls : list upstream_call) :
  let model := default JNull (assoc_last kv "model") in
  let messages := default (JArr []) (assoc_last kv "messages") in
  let options := default (JObj []) (assoc_last kv "options") in
  chat (Ok (JObj kv)) r calls =
  (calls ++ [UpCall "POST" "/chat" (Some (ollama_payload model messages options))],
   Ok (forward r)).
Proof.
  cbv zeta. unfold chat, send, forward, py_get. py_unfold. cbn.
  destruct (assoc_last kv "model"), (assoc_last kv "messages"), (assoc_last kv "options");
    cbn; by destruct r as [? ? []|].
Qed.


Ltac flask_unfold := unfold chat, get_models, version, send, forward, py_get; py_unfold; cbn.

(** [chat] makes the one [POST] or none. *)
Lemma chat_log (req : res json) (r : http_result) (calls : list upstream_call) :
  fst (chat req r calls) = calls \/
  exists m ms o, fst (chat req r calls) =
                 calls ++ [UpCall "POST" "/chat" (Some (ollama_payload m ms o))].
Proof.
  flask_unfold. destruct req as [[| | | | | |kv]|]; cbn; try (left; reflexivity).
  right. exists (default JNull (assoc_last kv "model")),
    (default (JArr []) (assoc_last kv "messages")), (default (JObj []) (assoc_last kv "options")).
  destruct (assoc_last kv "model"), (assoc_last kv "messages"), (assoc_last kv "options");
    cbn; by destruct r as [? ? []|].
Qed.

Lemma get_models_log (r : http_result) (calls : list upstream_call) :
  fst (get_models r calls) = calls ++ [UpCall "GET" "/tags" None].
Proof. flask_unfold. by destruct r as [? ? []|]. Qed.

Lemma version_log (r : http_result) (env : option string) (calls : list upstream_call) :
  fst (version r env calls) = calls ++ [UpCall "GET" "/version" None].
Proof.
  flask_unfold. destruct r as [st t [j|]|]; cbn; try done.
  by destruct (py_get_default j "version" (JStr "unknown")).
Qed.

(** The keys of a posted payload, in order, and [stream: False]. *)
Definition wf_payload (p : json) : Prop :=
  exists kv, p = JObj kv /\ assoc_last kv "stream" = Some (JBool false) /\
    (map fst kv = ["model"; "messages"; "stream"] \/
     (map fst kv = ["model"; "messages"; "stream"; "options"] /\
      exists o, assoc_last kv "options" = Some o /\ py_truthy o = true)).

Lemma ollama_payload_wf (m ms o : json) : wf_payload (ollama_payload m ms o).
Proof.
  unfold ollama_payload. cbv zeta. destruct (py_truthy o) eqn:Ho; eexists; (split; [reflexivity |]);
    cbn; split; try done; [right | left]; [split; [done | eauto] | done].
Qed.

(** C21 (divergence from the specification): the proxy drops the
    status of the upstream reply.  Whatever the status, [get_models]
    and [chat] answer 200 with the decoded body, so a 404 or 500 of the
    service reaches the browser as a success. *)
Theorem flask_status_dropped (st : Z) (t : string) (j : json) (kv : list (string * json))
  (calls : list upstream_call) :
  snd (get_models (HttpResp st t (Ok j)) calls) = Ok (FlaskResp 200 j) /\
  snd (chat (Ok (JObj kv)) (HttpResp st t (Ok j)) calls) = Ok (FlaskResp 200 j).
Proof.
  split; flask_unfold; [done |].
  by destruct (assoc_last kv "model"), (assoc_last kv "messages"), (assoc_last kv "options").
Qed.

(** C22: the error paths of [chat] before the upstream call: a body
    Flask cannot read, or a body that is not a JSON object, gives a 500
    [{"error": str(e)}] and nothing is sent; a failed [/tags] request
    gives a 500 from [get_models]. *)
Theorem flask_chat_errors (calls : list upstream_call) :
  (forall e r, chat (Raise e) r calls = (calls, Ok (error_resp e))) /\
  (forall data r, (forall kv, data <> JObj kv) ->
     chat (Ok data) r calls =
     (calls, Ok (error_resp (PyExn "AttributeError"
                               ("'" +:+ py_type_name data +:+ "' object has no attribute 'get'"))))) /\
  (forall e, get_models (HttpExn e) calls = (calls ++ [UpCall "GET" "/tags" None], Ok (error_resp e))).
Proof.
  split_and!; [by intros; flask_unfold | | by intros; flask_unfold].
  intros data r Hd. flask_unfold. destruct data as [| | | | | |kv]; try done. by destruct (Hd kv).
Qed.

(** The [ollama_version] of the answer of [version]. *)
Definition version_shown (r : http_result) : json :=
  match response_json r with
  | Ok (JObj kv) => default (JStr "unknown") (assoc_last kv "version")
  | _ => JStr "unknown (could not connect)"
  end.

(** [version] always answers 200 with [app_version] 1.0.0 and the
    [PYTHON_VERSION] of the environment (or 3.x); [ollama_version] is
    the service's [version] (or [unknown]) when the reply is a JSON
    object, and [unknown (could not connect)] otherwise, also when the
    service did answer but not with an object. *)
Theorem flask_version_cases (r : http_result) (env : option string) (calls : list upstream_call) :
  exists kv, snd (version r env calls) = Ok (FlaskResp 200 (JObj kv)) /\
    kv !! 0 = Some ("app_version", JStr "1.0.0") /\
    kv !! 1 = Some ("ollama_version", version_shown r) /\
    kv !! 2 = Some ("python_version", python_version env).
Proof.
  unfold version_shown. flask_unfold.
  destruct r as [st t [[| | | | | |kv]|e]|e]; cbn; try (eexists; split; [reflexivity | done]).
  destruct (assoc_last kv "version"); cbn; (eexists; split; [reflexivity | done]).
Qed.

(** C23: every request [chat] sends is a [POST] to [/chat] whose body has
    the keys [model], [messages] and [stream] in this order, then
    [options] only when they are true, with [stream] false. *)
Theorem flask_chat_payload_wf (req : res json) (r : http_result) (calls : list upstream_call) :
  exists l, fst (chat req r calls) = calls ++ l /\
    Forall (fun c => up_method c = "POST" /\ up_path c = "/chat" /\
                     exists p, up_json c = Some p /\ wf_payload p) l.
Proof.
  destruct (chat_log req r calls) as [->|(m & ms & o & ->)].
  - exists []. by rewrite app_nil_r.
  - eexists. split; [reflexivity |]. repeat constructor. eexists. split; [reflexivity |].
    apply ollama_payload_wf.
Qed.

Lemma route_handler_log (rt : api_route) (req : res json) (r : http_result)
  (env : option string) (calls : list upstream_call) :
  exists l, fst (route_handler rt req r env calls) = calls ++ l /\ length l <= 1.
Proof.
  destruct rt; cbn [route_handler]; [rewrite get_models_log | | rewrite version_log].
  1, 3: eexists; split; [reflexivity | cbn; lia].
  destruct (chat_log req r calls) as [->|(m & ms & o & ->)].
  - exists []. split; [by rewrite app_nil_r | cbn; lia].
  - eexists. split; [reflexivity | cbn; lia].
Qed.

Lemma dispatch_log (rt : api_route) (method : string) (req : res json)
  (r : http_result) (env : option string) (calls : list upstream_call) :
  fst (dispatch rt method req r env calls)
  = if existsb (String.eqb method) (rule_methods [route_method rt])
       && negb (String.eqb method "OPTIONS")
    then fst (route_handler rt req r env calls) else calls.
Proof.
  unfold dispatch. destruct (existsb _ _); [| done].
  destruct (String.eqb method "OPTIONS"); [done |]. cbn.
  unfold pbind. by destruct (route_handler rt req r env calls) as [? [?|?]].
Qed.

(** C24: one request to an API route of the proxy makes at most one
    request to the service.  It makes one only for the route's own
    method or, on the [GET] routes, for the [HEAD] that Werkzeug adds
    to them, which sends the same request as [GET]; the automatic
    [OPTIONS] and the methods the rule does not accept send nothing. *)
Theorem flask_one_upstream_call (rt : api_route) (method : string) (req : res json)
  (r : http_result) (env : option string) (calls : list upstream_call) :
  (exists l, fst (dispatch rt method req r env calls) = calls ++ l /\ length l <= 1 /\
    (l <> [] -> method = route_method rt \/ (method = "HEAD" /\ route_method rt = "GET"))) /\
  (route_method rt = "GET" ->
   fst (dispatch rt "HEAD" req r env calls) = fst (dispatch rt "GET" req r env calls)).
Proof.
  split; [| intros Hg; rewrite !dispatch_log, Hg; by destruct rt].
  rewrite dispatch_log.
  destruct (existsb _ _ && _) eqn:Hm; [| exists []; split_and!; [by rewrite app_nil_r | cbn; lia | done]].
  destruct (route_handler_log rt req r env calls) as (l & -> & Hl).
  exists l. split_and!; [done | done | intros _].
  apply andb_true_iff in Hm as [Hm Ho].
  destruct rt; cbn in Hm; repeat (apply orb_true_iff in Hm as [Hm|Hm]);
    try discriminate; apply String.eqb_eq in Hm; subst; cbn in Ho |- *; auto; discriminate.
Qed.

Lemma flask_one_upstream_call_witness :
  fst (dispatch RModels "HEAD" (Ok JNull) (HttpResp 200 "" (Ok (JObj []))) None [])
  = [UpCall "GET" "/tags" None].
Proof.
  pose proof (proj2 (flask_one_upstream_call RModels "HEAD" (Ok JNull)
    (HttpResp 200 "" (Ok (JObj []))) None []) eq_refl) as H.
  rewrite H. vm_compute. reflexivity.
Defined.

End FlaskApp.
