(* ===== verification/PyQt.v ===== *)
(** * The message widget of the PyQt client ([src/gui_app/ollama_pyqt.py])

    [MessageWidget] (lines 98-186) shows one message: a header with
    the role, capitalised, and the time, then the parts that
    [process_text] (lines 140-170) cuts the text into, a label for
    each text part and a code editor for each code part.  The Module
    [MessageWidget] holds the fold of [process_text] over the lines
    of the text, a reference definition of the same cutting as two
    mutually recursive functions (one per mode, text or code), the
    equivalence of the two, and what follows for texts without fences,
    with a closed code block and with one left open. *)

From S2P Require Import Prelude PyStr Json.
Open Scope string_scope.
Open Scope list_scope.
Open Scope nat_scope.

Module MessageWidget.

(** ** Definitions *)

(** The parts of [process_text]: [('text', content)] and
    [('code', content)]. *)
Inductive part : Type :=
| PText (content : string)
| PCode (content : string).

(** The four locals of the loop: [parts], [current_text],
    [in_code_block] and [code_block_content]. *)
Record pt_state : Type := PtState {
  pt_parts : list part;
  pt_current : string;
  pt_in_code : bool;
  pt_code : string
}.

Definition nl_char : Ascii.ascii := Ascii.ascii_of_nat 10.

Definition fence : string := "```".

(** [line.strip().startswith('```')] *)
Definition is_fence (line : string) : bool := String.prefix fence (py_strip line).

(** [if current_text: parts.append(('text', current_text))] *)
Definition flush_text (parts : list part) (current : string) : list part :=
  if String.eqb current "" then parts else parts ++ [PText current].

(** One iteration of [for line in text.split('\n')] (lines 147-164). *)
Definition pt_line (st : pt_state) (line : string) : pt_state :=
  if is_fence line then
    if pt_in_code st then
      PtState (flush_text (pt_parts st) (pt_current st) ++ [PCode (pt_code st)]) "" false ""
    else PtState (flush_text (pt_parts st) (pt_current st)) "" true (pt_code st)
  else if pt_in_code st then {| pt_parts := pt_parts st; pt_current := pt_current st;
                                pt_in_code := true; pt_code := pt_code st +:+ (line +:+ nl) |}
  else {| pt_parts := pt_parts st; pt_current := pt_current st +:+ (line +:+ nl);
          pt_in_code := false; pt_code := pt_code st |}.

Definition pt_init : pt_state := PtState [] "" false "".

(** [process_text] up to the widgets: the loop, then the text left in
    [current_text] (lines 166-168).  What is left in
    [code_block_content] when the text ends inside a code block is not
    added. *)
Definition process_text (text : string) : list part :=
  let st := fold_left pt_line (py_split_on nl_char text) pt_init in
  flush_text (pt_parts st) (pt_current st).

(** [role.capitalize()]: the first character upper case, the others
    lower case. *)
Definition py_upper_char (c : Ascii.ascii) : Ascii.ascii :=
  let n := Ascii.nat_of_ascii c in
  if (97 <=? n) && (n <=? 122) then Ascii.ascii_of_nat (n - 32) else c.

Definition py_capitalize (s : string) : string :=
  match s with
  | EmptyString => EmptyString
  | String c r => String (py_upper_char c) (py_lower r)
  end.

(** The widget [MessageWidget(text, role)] builds, with the time
    [datetime.now().strftime("%H:%M:%S")] gives. *)
Record msg_widget : Type := MsgWidget {
  mw_role : string;
  mw_label : string;
  mw_time : string;
  mw_parts : list part
}.

(** [MessageWidget.__init__] (lines 99-138).  [text.split] raises
    [AttributeError] when [text] is not a string (the content of a
    reply can be any JSON value). *)
Definition message_widget (text : json) (role time : string) : res msg_widget :=
  match text with
  | JStr t => Ok (MsgWidget role (py_capitalize role) time (process_text t))
  | v => Raise (PyExn "AttributeError"
                  ("'" +:+ py_type_name v +:+ "' object has no attribute 'split'"))
  end.

(** The reference cutting: in text mode, lines are gathered until a
    fence, which ends the text part and starts a code part; in code
    mode, lines are gathered until a fence, which ends the code part.
    A code part that no fence ends gives nothing. *)
Fixpoint ref_text (cur : string) (ls : list string) : list part :=
  match ls with
  | [] => flush_text [] cur
  | l :: ls' =>
      if is_fence l then flush_text [] cur ++ ref_code "" ls'
      else ref_text (cur +:+ (l +:+ nl)) ls'
  end
with ref_code (code : string) (ls : list string) : list part :=
  match ls with
  | [] => []
  | l :: ls' =>
      if is_fence l then PCode code :: ref_text "" ls'
      else ref_code (code +:+ (l +:+ nl)) ls'
  end.

(** The text, split into lines, has no fence line. *)
Definition no_fence (text : string) : bool :=
  forallb (fun l => negb (is_fence l)) (py_split_on nl_char text).

(** Whether [text] ends inside a code block. *)
Definition ends_in_code (text : string) : bool :=
  pt_in_code (fold_left pt_line (py_split_on nl_char text) pt_init).

(** ** Lemmas *)

Lemma nl_nl_char : nl = String nl_char "".
Proof. reflexivity. Qed.

Lemma flush_text_app (ps : list part) (cur : string) :
  flush_text ps cur = ps ++ flush_text [] cur.
Proof. unfold flush_text. by destruct (String.eqb cur ""); [rewrite app_nil_r|]. Qed.

Lemma flush_text_empty (ps : list part) : flush_text ps "" = ps.
Proof. reflexivity. Qed.

(** [pt_line] in text mode and in code mode. *)
Lemma pt_line_text (ps : list part) (cur c l : string) :
  pt_line (PtState ps cur false c) l
  = if is_fence l then PtState (flush_text ps cur) "" true c
    else PtState ps (cur +:+ (l +:+ nl)) false c.
Proof. reflexivity. Qed.

Lemma pt_line_code (ps : list part) (cur c l : string) :
  pt_line (PtState ps cur true c) l
  = if is_fence l then PtState (flush_text ps cur ++ [PCode c]) "" false ""
    else PtState ps cur true (c +:+ (l +:+ nl)).
Proof. reflexivity. Qed.

(** What is shown of the state the loop ends in. *)
Definition pt_result (st : pt_state) : list part := flush_text (pt_parts st) (pt_current st).

(** The fold in each mode computes the reference function of that
    mode. *)
Lemma fold_pt_line_ref (ls : list string) :
  (forall ps cur, pt_result (fold_left pt_line ls (PtState ps cur false "")) = ps ++ ref_text cur ls) /\
  (forall ps code, pt_result (fold_left pt_line ls (PtState ps "" true code)) = ps ++ ref_code code ls).
Proof.
  induction ls as [|l ls [IHt IHc]]; split; intros ps x; cbn [fold_left ref_text ref_code].
  - apply flush_text_app.
  - by rewrite app_nil_r.
  - rewrite pt_line_text. destruct (is_fence l).
    + by rewrite IHc, flush_text_app, app_assoc.
    + apply IHt.
  - rewrite pt_line_code. destruct (is_fence l).
    + by rewrite IHt, flush_text_empty, <- app_assoc.
    + apply IHc.
Qed.

(** Lines without a fence only extend [current_text] in text mode... *)
Lemma fold_text_plain (ls : list string) (ps : list part) (cur c : string) :
  forallb (fun l => negb (is_fence l)) ls = true ->
  fold_left pt_line ls (PtState ps cur false c) = PtState ps (cur +:+ join_after nl_char ls) false c.
Proof.
  revert cur; induction ls as [|l ls IH]; intros cur H; cbn [fold_left join_after fold_right].
  - by rewrite append_empty_r.
  - apply andb_true_iff in H as [Hl H]. apply negb_true_iff in Hl.
    rewrite pt_line_text, Hl, IH by done. by rewrite !append_assoc_str.
Qed.

(** ... and [code_block_content] in code mode. *)
Lemma fold_code_plain (ls : list string) (ps : list part) (cur c : string) :
  forallb (fun l => negb (is_fence l)) ls = true ->
  fold_left pt_line ls (PtState ps cur true c) = PtState ps cur true (c +:+ join_after nl_char ls).
Proof.
  revert c; induction ls as [|l ls IH]; intros c H; cbn [fold_left join_after fold_right].
  - by rewrite append_empty_r.
  - apply andb_true_iff in H as [Hl H]. apply negb_true_iff in Hl.
    rewrite pt_line_code, Hl, IH by done. by rewrite !append_assoc_str.
Qed.

Lemma is_fence_fence : is_fence fence = true.
Proof. reflexivity. Qed.

Lemma split_fence : py_split_on nl_char fence = [fence].
Proof. reflexivity. Qed.

Lemma split_fence_line (t : string) :
  py_split_on nl_char (fence +:+ String nl_char t) = fence :: py_split_on nl_char t.
Proof. by rewrite py_split_on_app, split_fence. Qed.

Lemma eqb_app_sep_empty (a : string) (c : Ascii.ascii) : String.eqb (a +:+ String c "") "" = false.
Proof. by destruct a. Qed.

(** ** Theorems *)

(** C30: [process_text] cuts a text into the parts the reference
    definition gives: the loop over the lines, with its four locals,
    computes the two-mode reading of the lines. *)
Theorem process_text_ref (text : string) :
  process_text text = ref_text "" (py_split_on nl_char text).
Proof. apply (proj1 (fold_pt_line_ref _) [] ""). Qed.

(** C32: A text with no fence line is shown as a single text label,
    the text with a newline added at its end: joining the lines with
    the newline each one gets back gives the text. *)
Theorem process_text_plain (text : string) :
  no_fence text = true -> process_text text = [PText (text +:+ nl)].
Proof.
  intros H. unfold process_text, pt_init. rewrite fold_text_plain by done.
  cbn [pt_parts pt_current]. rewrite append_empty_l, join_after_split.
  unfold flush_text. by rewrite eqb_app_sep_empty.
Qed.

(** C31: A code block that is never closed is not shown: after a text
    that ends outside a code block, an opening fence and any lines with
    no fence among them add nothing to what the widget shows.  A reply
    cut off inside a code block loses the whole block. *)
Theorem process_text_unclosed (before code : string) :
  ends_in_code before = false -> no_fence code = true ->
  process_text (before +:+ String nl_char (fence +:+ String nl_char code)) = process_text before.
Proof.
  unfold ends_in_code, process_text. intros Hb Hc.
  rewrite py_split_on_app, split_fence_line, fold_left_app.
  destruct (fold_left pt_line (py_split_on nl_char before) pt_init) as [ps cur b c].
  cbn in Hb; subst b. cbn [fold_left]. rewrite pt_line_text, is_fence_fence, fold_code_plain by done.
  reflexivity.
Qed.

(** A closed code block is shown as one code part: its lines,
    each followed by a newline. *)
Theorem process_text_closed (code : string) :
  no_fence code = true ->
  process_text (fence +:+ String nl_char (code +:+ String nl_char fence)) = [PCode (code +:+ nl)].
Proof.
  intros Hc. unfold process_text, pt_init.
  rewrite split_fence_line, py_split_on_app, split_fence. cbn [fold_left].
  rewrite pt_line_text, is_fence_fence, fold_left_app, fold_code_plain by done.
  cbn. by rewrite join_after_split.
Qed.

(** Witnesses. *)

Lemma process_text_plain_witness :
  no_fence ("Hello" +:+ String nl_char "world") = true /\
  process_text ("Hello" +:+ String nl_char "world") = [PText ("Hello" +:+ String nl_char "world" +:+ nl)].
Proof. split; [reflexivity | apply process_text_plain; reflexivity]. Defined.

Lemma process_text_unclosed_witness :
  ends_in_code "Here is the code:" = false /\ no_fence "print(1)" = true /\
  process_text ("Here is the code:" +:+ String nl_char (fence +:+ String nl_char "print(1)"))
  = process_text "Here is the code:".
Proof. split_and!; [reflexivity | reflexivity | apply process_text_unclosed; reflexivity]. Defined.

Lemma process_text_closed_witness :
  no_fence "x = 1" = true /\
  process_text (fence +:+ String nl_char ("x = 1" +:+ String nl_char fence)) = [PCode ("x = 1" +:+ nl)].
Proof. split; [reflexivity | apply process_text_closed; reflexivity]. Defined.

End MessageWidget.
