(* ===== verification/PyQtApp.v ===== *)
(** * The PyQt client ([src/gui_app/ollama_pyqt.py], class [OllamaChatApp])

    A window with a sidebar (the chat list, the model box, the
    temperature slider, the token box, the system prompt, the API URL
    and the connection light) and a tab widget of chats.  Each call of
    [create_chat_tab] builds a page (the message area, the attachment
    list, the input box, the reasoning box and the send button) and
    rebinds [self.messages_layout], [self.files_list],
    [self.files_widget], [self.input_edit], [self.reasoning_check] and
    [self.send_btn] to that page's widgets: [pq_last] is the page they
    name.  The pages are [pq_pages], by creation; the tab widget shows
    the pages [pq_tabs], in tab order, and [pq_current] is
    [self.tabs.currentIndex()].  [current_chats] holds a title and a
    history per tab, by tab index.

    The [ApiThread] of [send_message] posts the payload and emits a
    signal, which Qt delivers to the main thread later ([pq_signals]);
    the threads of [fetch_models] and [test_connection] update the
    window themselves.  An exception that escapes a slot aborts the
    program (PyQt 5.5 and later): [pq_crashed].

    After the Module: a session of concrete states, the shape of the
    tab state ([pq_wf]) and the ranges of the settings ([pq_bounds])
    in every reachable state, and what follows from the handlers
    writing to the widgets of the last page: [send_message] reads the
    last page's input box, the reply goes to the history of the tab
    current when it arrives, closing the newest tab hides every later
    message, the chat list selects the first of equal titles, and only
    the last page's send button is re-enabled. *)

From S2P Require Import Prelude PyStr PyNum Json Protocol TkGui PyQt.
From Stdlib Require Import QArith.
Import MessageWidget.
Open Scope string_scope.
Open Scope list_scope.
Open Scope nat_scope.
Local Open Scope py_scope.

Module PyQtApp.

(** ** State *)

(** A child of a page's [messages_layout]: a [MessageWidget] or the
    progress widget of the request [id]. *)
Inductive pq_item : Type :=
| IMsg (w : msg_widget)
| IProgress (id : nat).

(** The widgets of one page that the handlers touch. *)
Record pq_page : Type := PqPage {
  pg_items : list pq_item;
  pg_input : string;
  pg_reasoning : bool;
  pg_files : list string;
  pg_files_visible : bool;
  pg_send_enabled : bool;
  pg_send_text : string
}.

(** A thread: the [ApiThread] of the request whose progress widget is
    [progress], with its URL and payload; [fetch] of [fetch_models];
    [test] of [test_connection] with the URL it read. *)
Inductive pq_worker : Type :=
| PqApi (progress : nat) (url : string) (payload : json)
| PqFetch
| PqTest (api_url : string).

(** A signal of an [ApiThread] waiting for the main thread, with the
    progress widget its slot closes over. *)
Inductive pq_signal : Type :=
| SigResponse (data : json) (progress : nat)
| SigError (error : string) (progress : nat).

Record pq_state : Type := PqState {
  pq_models : list json;
  pq_selected : string;
  pq_temperature : Q;
  pq_max_tokens : Z;
  pq_prompt_edit : string;
  pq_api_url : string;
  pq_api_edit : string;
  pq_conn_status : string;
  pq_light : string;
  pq_generating : bool;
  pq_pages : list pq_page;
  pq_tabs : list nat;
  pq_current : nat;
  pq_chat_list : list string;
  pq_chats : list (string * list json);
  pq_last : nat;
  pq_attached : list (string * string);
  pq_status : string;
  pq_dialogs : list dialog;
  pq_workers : list pq_worker;
  pq_signals : list pq_signal;
  pq_next_progress : nat;
  (** The files: a path, its size and what reading it gives. *)
  pq_fs : list (string * (Z * res string));
  pq_clock : string;
  pq_crashed : bool
}.

Ltac pq_simpl :=
  cbn [pq_models pq_selected pq_temperature pq_max_tokens pq_prompt_edit pq_api_url
       pq_api_edit pq_conn_status pq_light pq_generating pq_pages pq_tabs pq_current
       pq_chat_list pq_chats pq_last pq_attached pq_status pq_dialogs pq_workers
       pq_signals pq_next_progress pq_fs pq_clock pq_crashed
       pg_items pg_input pg_reasoning pg_files pg_files_visible pg_send_enabled pg_send_text].

(** ** The widgets of the last page *)

Definition page_update (f : pq_page -> pq_page) : pyM pq_state unit :=
  pmodify (fun s => {| s with pq_pages := alter f (pq_last s) (pq_pages s) |}).

Definition last_page (s : pq_state) : pq_page :=
  default (PqPage [] "" false [] false true "Send") (pq_pages s !! pq_last s).

Definition add_item (it : pq_item) : pyM pq_state unit :=
  page_update (fun p => {| p with pg_items := pg_items p ++ [it] |}).

Definition set_status (text : string) : pyM pq_state unit :=
  pmodify (fun s => {| s with pq_status := text |}).

Definition show_dialog (d : dialog) : pyM pq_state unit :=
  pmodify (fun s => {| s with pq_dialogs := pq_dialogs s ++ [d] |}).

(** [status_indicator.setStyleSheet] and [status_label.setText]. *)
Definition set_conn (light text : string) : pyM pq_state unit :=
  pmodify (fun s => {| s with pq_light := light; pq_conn_status := text |}).

Definition set_send_button (enabled : bool) (text : string) : pyM pq_state unit :=
  page_update (fun p => {| p with pg_send_enabled := enabled; pg_send_text := text |}).

(** ** Messages (lines 763-792) *)

(** A [MessageWidget] added to [self.messages_layout]. *)
Definition add_message_widget (text : json) (role : string) : pyM pq_state unit :=
  s <- pget;;
  w <- plift (message_widget text role (pq_clock s));;
  add_item (IMsg w).

Definition pq_add_system_message (text : string) : pyM pq_state unit :=
  add_message_widget (JStr text) "system".

(** [current_chats[current_tab]["history"].append(...)] when
    [current_tab < len(self.current_chats)]. *)
Definition history_append (role : string) (text : json) : pyM pq_state unit :=
  pmodify (fun s =>
    if pq_current s <? length (pq_chats s) then
      {| s with pq_chats := alter (fun '(t, h) => (t, h ++ [chat_msg role text])) (pq_current s) (pq_chats s) |}
    else s).

Definition pq_add_user_message (text : string) : pyM pq_state unit :=
  add_message_widget (JStr text) "user";; history_append "user" (JStr text).

Definition pq_add_assistant_message (text : json) : pyM pq_state unit :=
  add_message_widget text "assistant";; history_append "assistant" text.

(** ** Tabs (lines 494-614) *)

Definition fresh_page : pq_page := PqPage [] "" false [] false true "Send".

Definition pq_welcome : string := "Welcome to Ollama Chat! Select a model to start chatting.".

(** [create_chat_tab(title)] (lines 494-592): the new page's widgets
    become [self.messages_layout], [self.input_edit], ...; the welcome
    message goes to its message area; then the page is added as the
    last tab, made current, and listed with an empty history. *)
Definition create_chat_tab (title : string) : pyM pq_state unit :=
  pmodify (fun s => {| s with pq_pages := pq_pages s ++ [fresh_page];
                              pq_last := length (pq_pages s) |});;
  pq_add_system_message pq_welcome;;
  pmodify (fun s => {| s with pq_tabs := pq_tabs s ++ [pq_last s];
                              pq_current := length (pq_tabs s);
                              pq_chat_list := pq_chat_list s ++ [title];
                              pq_chats := pq_chats s ++ [(title, [])] |}).

(** [QTabWidget.removeTab(index)] moves the current tab as Qt's
    default [SelectRightTab] does: the tab to the right of a removed
    current tab becomes current, or the one to its left when it was
    the last. *)
Definition current_after_remove (index cur n : nat) : nat :=
  if index <? n then
    if index <? cur then cur - 1
    else if index =? cur then (if index <? n - 1 then index else index - 1)
    else cur
  else cur.

(** [close_tab(index)] (lines 594-601). *)
Definition close_tab (index : nat) : pyM pq_state unit :=
  pmodify (fun s =>
    if 1 <? length (pq_tabs s) then
      {| s with pq_tabs := delete index (pq_tabs s);
                pq_current := current_after_remove index (pq_current s) (length (pq_tabs s));
                pq_chat_list := delete index (pq_chat_list s);
                pq_chats := if index <? length (pq_chats s) then delete index (pq_chats s)
                            else pq_chats s |}
    else s).

Definition chat_title (n : nat) : string := "Chat " +:+ py_str_int (Z.of_nat n).

(** [new_chat] (lines 603-606). *)
Definition pq_new_chat : pyM pq_state unit :=
  s <- pget;;
  create_chat_tab (chat_title (length (pq_tabs s) + 1)).

(** [self.tabs.setCurrentIndex(i)], which ignores an index out of
    range. *)
Definition set_current (i : nat) : pyM pq_state unit :=
  pmodify (fun s => if i <? length (pq_tabs s) then {| s with pq_current := i |} else s).

(** [load_selected_chat(item)] (lines 608-614) for the item at [k]:
    the first item with the same text. *)
Definition load_selected_chat (k : nat) : pyM pq_state unit :=
  s <- pget;;
  match pq_chat_list s !! k with
  | None => pret tt
  | Some text =>
      match list_find (fun t => t = text) (pq_chat_list s) with
      | Some (i, _) => set_current i
      | None => pret tt
      end
  end.

(** ** Settings (lines 616-629) *)

Definition pq_on_model_selected (model_name : string) : pyM pq_state unit :=
  s <- pget;;
  if negb (String.eqb model_name "") && negb (String.eqb model_name (pq_selected s)) then
    pmodify (fun s => {| s with pq_selected := model_name |});;
    set_status ("Model '" +:+ model_name +:+ "' selected")
  else pret tt.

Definition update_temperature (value : Z) : pyM pq_state unit :=
  pmodify (fun s => {| s with pq_temperature := (inject_Z value / 100)%Q |}).

Definition update_max_tokens (value : Z) : pyM pq_state unit :=
  pmodify (fun s => {| s with pq_max_tokens := value |}).

(** ** Models and connection (lines 631-726) *)

Definition add_worker (w : pq_worker) : pyM pq_state unit :=
  pmodify (fun s => {| s with pq_workers := pq_workers s ++ [w] |}).

(** [[model["name"] for model in data.get("models", [])]] *)
Definition model_names (data : json) : res (list json) :=
  let? ms := py_get_default data "models" (JArr []) in
  let? l := py_iter ms in
  res_map (fun m => py_getitem m "name") l.

(** [QComboBox.addItems], which takes strings only. *)
Definition combo_items (models : list json) : res (list string) :=
  res_map (fun m => match m with
                    | JStr t => Ok t
                    | v => Raise (PyExn "TypeError"
                                    ("addItems(self, texts: Iterable[str]): argument 1 has unexpected type '"
                                     +:+ py_type_name v +:+ "'"))
                    end) models.

(** [update_models(models)] (lines 711-726).  [clear()] makes the
    current text [""], which [on_model_selected] ignores; [addItems]
    makes the first model current, which [on_model_selected] selects
    before the line that selects it again. *)
Definition pq_update_models (models : list json) : pyM pq_state unit :=
  pmodify (fun s => {| s with pq_models := models |});;
  match models with
  | [] =>
      set_status "No models found";;
      show_dialog (ShowWarning "No Models Found"
        ("No models were found in your Ollama installation." +:+ nl2 +:+
         "Please install at least one model using 'ollama pull <model>'"))
  | _ =>
      names <- plift (combo_items models);;
      let first := default "" (head names) in
      pq_on_model_selected first;;
      pmodify (fun s => {| s with pq_selected := first |});;
      set_status ("Found " +:+ py_str_int (Z.of_nat (length models)) +:+ " models")
  end.

(** [test_connection] (lines 631-675) on the UI thread. *)
Definition test_connection : pyM pq_state unit :=
  s <- pget;;
  set_conn "warning" "Testing...";;
  add_worker (PqTest (pq_api_edit s)).

(** [test] on its thread, for the outcome of [GET {api_url}/tags]. *)
Definition test_body (api_url : string) (r : http_result) : pyM pq_state unit :=
  ptry
    (match r with
     | HttpResp st _ body =>
         if (st =? 200)%Z then
           set_conn "success" "Connected";;
           pmodify (fun s => {| s with pq_api_url := api_url |});;
           data <- plift body;;
           models <- plift (model_names data);;
           pq_update_models models;;
           show_dialog (ShowInfo "Connection Successful"
                          ("Successfully connected to Ollama API at " +:+ api_url))
         else
           set_conn "error" "Error";;
           show_dialog (ShowError "API Error"
                          ("Error connecting to API: Server returned " +:+ py_str_int st))
     | HttpExn e => praise e
     end)
    (fun e =>
       if is_timeout e then
         set_conn "error" "Timeout";;
         show_dialog (ShowError "Connection Timeout"
           ("Connection to " +:+ api_url +:+ " timed out." +:+ nl2 +:+
            "Please check if the server is running and accessible."))
       else
         set_conn "error" "Error";;
         show_dialog (ShowError "Connection Error"
           ("Could not connect to Ollama API at " +:+ api_url +:+ "." +:+ nl2 +:+
            "Error: " +:+ exn_str e))).

(** [fetch_models] (lines 677-709) on the UI thread. *)
Definition pq_fetch_models : pyM pq_state unit :=
  set_conn "warning" "Connecting...";;
  add_worker PqFetch.

(** [fetch] on its thread, which reads [self.ollama_api_url] when it
    runs. *)
Definition pq_fetch_body (r : http_result) : pyM pq_state unit :=
  ptry
    (match r with
     | HttpResp st _ body =>
         if (st =? 200)%Z then
           data <- plift body;;
           models <- plift (model_names data);;
           pq_update_models models;;
           set_conn "success" "Connected"
         else
           set_conn "error" "Error";;
           show_dialog (ShowError "API Error"
                          ("Error fetching models: API returned " +:+ py_str_int st))
     | HttpExn e => praise e
     end)
    (fun e =>
       s <- pget;;
       set_conn "error" "Error";;
       show_dialog (ShowError "Connection Error"
         ("Could not connect to Ollama API at " +:+ pq_api_url s +:+ "." +:+ nl2 +:+
          "Make sure Ollama is running and try again." +:+ nl2 +:+
          "Error: " +:+ exn_str e))).

(** ** Attachments and the input box (lines 728-761) *)

Definition no_such_file (path : string) : exn :=
  PyExn "FileNotFoundError" ("[Errno 2] No such file or directory: " +:+ py_repr_str path).

Definition file_lookup (s : pq_state) (path : string) : res (Z * res string) :=
  match list_find (fun '(p, _) => p = path) (pq_fs s) with
  | Some (_, (_, f)) => Ok f
  | None => Raise (no_such_file path)
  end.

Definition max_file_size : Z := (10 * 1024 * 1024)%Z.

(** [attach_file] (lines 728-748) for the path the dialog returns
    ([None] when it is cancelled). *)
Definition attach_file (chosen : option string) : pyM pq_state unit :=
  match chosen with
  | None => pret tt
  | Some path =>
      s <- pget;;
      f <- plift (file_lookup s path);;
      if (max_file_size <? fst f)%Z then
        show_dialog (ShowWarning "File Too Large"
          "The selected file is too large. Please select a file smaller than 10MB.")
      else
        let name := py_basename path in
        page_update (fun p => {| p with pg_files := pg_files p ++ [name] |});;
        pmodify (fun s => {| s with pq_attached := pq_attached s ++ [(path, name)] |});;
        page_update (fun p => {| p with pg_files_visible := true |});;
        set_status ("File attached: " +:+ name)
  end.

(** [clear_attachments] (lines 750-755). *)
Definition clear_attachments : pyM pq_state unit :=
  page_update (fun p => {| p with pg_files := [] |});;
  pmodify (fun s => {| s with pq_attached := [] |});;
  page_update (fun p => {| p with pg_files_visible := false |});;
  set_status "Attachments cleared".

Definition code_template : string := "```python" +:+ nl +:+ "# Your code here" +:+ nl +:+ "```".

(** [insert_code_snippet] (lines 757-761), with the cursor of
    [self.input_edit] at the end of its text. *)
Definition insert_code_snippet : pyM pq_state unit :=
  page_update (fun p => {| p with pg_input := pg_input p +:+ code_template |}).

(** [MessageWidget.save_code_to_file(code)] (lines 233-241), the Save
    as File button of a code part: the path the dialog returns ([None]
    when it is cancelled) and the exception [open] raises, if any. *)
Definition save_code_to_file (code : string) (chosen : option string) (open_error : option exn)
  : pyM pq_state unit :=
  match chosen with
  | None => pret tt
  | Some path =>
      match open_error with
      | Some e => show_dialog (ShowError "Error" ("Failed to save file: " +:+ exn_str e))
      | None =>
          pmodify (fun s => {| s with pq_fs := (path, (Z.of_nat (String.length code), Ok code))
                                                 :: pq_fs s |});;
          show_dialog (ShowInfo "Success" ("Code saved to " +:+ path))
      end
  end.

(** ** Sending (lines 794-922) *)

Definition reasoning_prompt : json :=
  chat_msg "system"
    (JStr "Please think step by step and show your reasoning before providing the final answer.").

(** [sep.join(items)] *)
Fixpoint str_join (sep : string) (items : list string) : string :=
  match items with
  | [] => ""
  | [x] => x
  | x :: r => x +:+ sep +:+ str_join sep r
  end.

(** One entry of [file_contents] (lines 831-837). *)
Definition file_entry (s : pq_state) (file : string * string) : string :=
  let '(path, name) := file in
  match file_lookup s path with
  | Ok (_, Ok content) => "File: " +:+ name +:+ nl2 +:+ content +:+ nl2
  | Ok (_, Raise e) | Raise e => "Error reading file " +:+ name +:+ ": " +:+ exn_str e
  end.

(** The file message (lines 828-844), when files are attached. *)
Definition file_message (s : pq_state) : list json :=
  match pq_attached s with
  | [] => []
  | files =>
      match map (file_entry s) files with
      | [] => []
      | contents =>
          [chat_msg "user" (JStr ("I'm attaching the following files for reference:" +:+ nl2 +:+
                                  str_join nl contents))]
      end
  end.

(** The history of the current tab, [[]] past the end of
    [current_chats]. *)
Definition current_history (s : pq_state) : list json :=
  if pq_current s <? length (pq_chats s) then default [] (snd <$> pq_chats s !! pq_current s)
  else [].

(** [messages] (lines 811-849): the system prompt, the reasoning
    instruction, the files, then the history of the current tab. *)
Definition pq_build_messages (s : pq_state) : list json :=
  let sp := py_strip (pq_prompt_edit s) in
  (if String.eqb sp "" then [] else [chat_msg "system" (JStr sp)]) ++
  (if pg_reasoning (last_page s) then [reasoning_prompt] else []) ++
  file_message s ++ current_history s.

(** [payload] (lines 871-880). *)
Definition pq_payload (s : pq_state) (messages : list json) : json :=
  JObj [("model", JStr (pq_selected s)); ("messages", JArr messages); ("stream", JBool false);
        ("options", JObj [("temperature", JFloat (pq_temperature s));
                          ("num_predict", JInt (pq_max_tokens s))])].

(** [send_message] (lines 794-890).  The text is read from
    [self.input_edit], the input box of the last page created. *)
Definition pq_send_message : pyM pq_state unit :=
  s <- pget;;
  if pq_generating s then pret tt else
  let message := py_strip (pg_input (last_page s)) in
  if String.eqb message "" then pret tt else
  if String.eqb (pq_selected s) "" then
    show_dialog (ShowWarning "No Model Selected" "Please select a model first.")
  else
    pq_add_user_message message;;
    page_update (fun p => {| p with pg_input := "" |});;
    s <- pget;;
    let messages := pq_build_messages s in
    pmodify (fun s => {| s with pq_generating := true |});;
    set_send_button false "Generating...";;
    set_status "Generating response...";;
    s <- pget;;
    let id := pq_next_progress s in
    pmodify (fun s => {| s with pq_next_progress := S id |});;
    add_item (IProgress id);;
    add_worker (PqApi id (pq_api_url s +:+ "/chat") (pq_payload s messages)).

(** [ApiThread.run] (lines 253-261): the signal it emits.
    [response_received] is declared with [dict], so emitting another
    value raises [TypeError], which the [except] turns into an
    error. *)
Definition api_run (r : http_result) (progress : nat) : pq_signal :=
  match r with
  | HttpResp st _ body =>
      if (st =? 200)%Z then
        match body with
        | Ok (JObj kv) => SigResponse (JObj kv) progress
        | Ok v => SigError ("Connection Error: ApiThread.response_received[dict].emit(): " +:+
                            "argument 1 has unexpected type '" +:+ py_type_name v +:+ "'") progress
        | Raise e => SigError ("Connection Error: " +:+ exn_str e) progress
        end
      else SigError ("API Error: " +:+ py_str_int st) progress
  | HttpExn e => SigError ("Connection Error: " +:+ exn_str e) progress
  end.

Definition is_progress (id : nat) (it : pq_item) : bool :=
  match it with IProgress j => j =? id | IMsg _ => false end.

(** [progress_widget.setParent(None)]: the widget leaves the page it
    was added to. *)
Definition remove_progress (id : nat) : pyM pq_state unit :=
  pmodify (fun s => {| s with pq_pages := map (fun p =>
             {| p with pg_items := filter (fun it => negb (is_progress id it)) (pg_items p) |})
             (pq_pages s) |}).

Definition generation_done (status : string) : pyM pq_state unit :=
  pmodify (fun s => {| s with pq_generating := false |});;
  set_send_button true "Send";;
  set_status status.

(** [handle_response(data, progress_widget)] (lines 892-908). *)
Definition handle_response (data : json) (progress : nat) : pyM pq_state unit :=
  remove_progress progress;;
  c <- plift (read_reply data);;
  match c with
  | Some content => pq_add_assistant_message content
  | None => pq_add_system_message "Error: Received empty response from model."
  end;;
  generation_done "Response received".

(** [handle_error(error, progress_widget)] (lines 910-921). *)
Definition handle_error (error : string) (progress : nat) : pyM pq_state unit :=
  remove_progress progress;;
  pq_add_system_message ("Error: " +:+ error);;
  generation_done "Error occurred".

Definition deliver (sg : pq_signal) : pyM pq_state unit :=
  match sg with
  | SigResponse data id => handle_response data id
  | SigError error id => handle_error error id
  end.

(** ** Events and the program (lines 290-492, 924-946) *)

(** What the user does, with the slot the widget is connected to:
    typing and ticking the box of the tab shown, editing the sidebar's
    fields, the buttons of any page (all connected to the same
    methods), the tab bar, the chat list, the sliders, the file dialog
    of [attach_file] and the clock. *)
Inductive pq_event : Type :=
| EvTypeInput (text : string)
| EvReasoning (checked : bool)
| EvEditPrompt (text : string)
| EvEditApiUrl (text : string)
| EvSend
| EvNewChat
| EvCloseTab (index : nat)
| EvSelectTab (index : nat)
| EvChatClicked (k : nat)
| EvModelChosen (name : string)
| EvTemperature (value : Z)
| EvMaxTokens (value : Z)
| EvTest
| EvAttach (chosen : option string)
| EvClearAttachments
| EvCodeSnippet
| EvSaveCode (code : string) (chosen : option string) (open_error : option exn)
| EvTick (hms : string).

(** A widget of the tab shown. *)
Definition visible_update (f : pq_page -> pq_page) : pyM pq_state unit :=
  pmodify (fun s => match pq_tabs s !! pq_current s with
                    | Some pid => {| s with pq_pages := alter f pid (pq_pages s) |}
                    | None => s
                    end).

Definition pq_handle (ev : pq_event) : pyM pq_state unit :=
  match ev with
  | EvTypeInput text => visible_update (fun p => {| p with pg_input := text |})
  | EvReasoning b => visible_update (fun p => {| p with pg_reasoning := b |})
  | EvEditPrompt text => pmodify (fun s => {| s with pq_prompt_edit := text |})
  | EvEditApiUrl text => pmodify (fun s => {| s with pq_api_edit := text |})
  | EvSend => pq_send_message
  | EvNewChat => pq_new_chat
  | EvCloseTab i => close_tab i
  | EvSelectTab i => set_current i
  | EvChatClicked k => load_selected_chat k
  | EvModelChosen name => pq_on_model_selected name
  | EvTemperature v => update_temperature v
  | EvMaxTokens v => update_max_tokens v
  | EvTest => test_connection
  | EvAttach chosen => attach_file chosen
  | EvClearAttachments => clear_attachments
  | EvCodeSnippet => insert_code_snippet
  | EvSaveCode code chosen err => save_code_to_file code chosen err
  | EvTick hms => pmodify (fun s => {| s with pq_clock := hms |})
  end.

(** A code part of a message shown on some page, whose Save as File
    button can be pressed. *)
Definition code_shown (s : pq_state) (code : string) : bool :=
  existsb (fun p => existsb (fun it => match it with
                                      | IMsg w => existsb (fun pt => match pt with
                                                                   | PCode c => String.eqb c code
                                                                   | PText _ => false
                                                                   end) (mw_parts w)
                                      | IProgress _ => false
                                      end) (pg_items p)) (pq_pages s).

(** What the widgets can send: the slider's range [0..100], the token
    box's [10..4096], a model of the box, a tab or an item that
    exists. *)
Definition pq_event_ok (s : pq_state) (ev : pq_event) : bool :=
  match ev with
  | EvCloseTab i | EvSelectTab i => i <? length (pq_tabs s)
  | EvChatClicked k => k <? length (pq_chat_list s)
  | EvModelChosen name => py_in_list (JStr name) (pq_models s)
  | EvTemperature v => (0 <=? v)%Z && (v <=? 100)%Z
  | EvMaxTokens v => (10 <=? v)%Z && (v <=? 4096)%Z
  | EvSaveCode code _ _ => code_shown s code
  | _ => true
  end.

(** A slot run by the event loop: an exception that escapes it aborts
    the program. *)
Definition pq_run (c : pyM pq_state unit) (s : pq_state) : pq_state :=
  match c s with
  | (s', Ok _) => s'
  | (s', Raise _) => {| s' with pq_crashed := true |}
  end.

Definition remove_worker (i : nat) (s : pq_state) : pq_state :=
  {| s with pq_workers := delete i (pq_workers s) |}.

Definition pq_default_url : string := "http://localhost:11434/api".

(** The attributes [__init__] sets (lines 266-277) and the widgets'
    first values, before [setup_ui] makes a tab. *)
Definition pq_blank (api_url : string) (fs : list (string * (Z * res string))) (hms : string)
  : pq_state := {|
  pq_models := []; pq_selected := ""; pq_temperature := 7 # 10; pq_max_tokens := 1024;
  pq_prompt_edit := "You are a helpful assistant."; pq_api_url := api_url;
  pq_api_edit := api_url; pq_conn_status := "Not Connected"; pq_light := "error";
  pq_generating := false; pq_pages := []; pq_tabs := []; pq_current := 0;
  pq_chat_list := []; pq_chats := []; pq_last := 0; pq_attached := []; pq_status := "";
  pq_dialogs := []; pq_workers := []; pq_signals := []; pq_next_progress := 0;
  pq_fs := fs; pq_clock := hms; pq_crashed := false |}.

(** [__init__] (lines 265-288): [setup_ui] makes the first tab and
    shows [Ready], then [fetch_models] starts its thread. *)
Definition pq_init : pyM pq_state unit :=
  pq_new_chat;;
  set_status "Ready";;
  pq_fetch_models.

(** [main] (lines 924-942): [--api-url], when given and not empty,
    replaces [OLLAMA_API_URL] (the environment variable, or the
    default) before the window reads it. *)
Definition pq_main (env_url arg : option string) (fs : list (string * (Z * res string)))
  (hms : string) : pq_state :=
  let env := default pq_default_url env_url in
  let url := match arg with
             | Some u => if String.eqb u "" then env else u
             | None => env
             end in
  pq_run pq_init (pq_blank url fs hms).

(** A step of the program: a user event, the end of a thread, or the
    delivery of the first waiting signal. *)
Inductive pq_step : pq_state -> pq_state -> Prop :=
| PqUi s ev :
    pq_crashed s = false -> pq_event_ok s ev = true ->
    pq_step s (pq_run (pq_handle ev) s)
| PqApiDone s i progress url payload r :
    pq_crashed s = false -> pq_workers s !! i = Some (PqApi progress url payload) ->
    pq_step s {| s with pq_workers := delete i (pq_workers s);
                        pq_signals := pq_signals s ++ [api_run r progress] |}
| PqFetchDone s i r :
    pq_crashed s = false -> pq_workers s !! i = Some PqFetch ->
    pq_step s (fst (pq_fetch_body r (remove_worker i s)))
| PqTestDone s i url r :
    pq_crashed s = false -> pq_workers s !! i = Some (PqTest url) ->
    pq_step s (fst (test_body url r (remove_worker i s)))
| PqDeliver s sg rest :
    pq_crashed s = false -> pq_signals s = sg :: rest ->
    pq_step s (pq_run (deliver sg) {| s with pq_signals := rest |}).

Definition pq_reachable (s : pq_state) : Prop :=
  exists env arg fs hms, rtc pq_step (pq_main env arg fs hms) s.

End PyQtApp.

Import PyQtApp.

(** ** A session

    Concrete states for the witnesses below: the window as [main]
    opens it, the models fetched, a question typed and sent in the
    first tab, a second chat opened while the reply is pending, and
    the states reached by closing and reopening chats. *)

Definition pq_demo_tags : json :=
  JObj [("models", JArr [JObj [("name", JStr "llama2")]])].

Definition pq_demo_reply : json :=
  JObj [("message", JObj [("role", JStr "assistant"); ("content", JStr "Hello!")])].

Definition pq_demo_start : pq_state := pq_main None None [] "10:00:00".

Definition pq_demo_ready : pq_state :=
  fst (pq_fetch_body (HttpResp 200 "" (Ok pq_demo_tags)) (remove_worker 0 pq_demo_start)).

Definition pq_demo_typed : pq_state := pq_run (pq_handle (EvTypeInput "hi")) pq_demo_ready.

Definition pq_demo_sent : pq_state := pq_run (pq_handle EvSend) pq_demo_typed.

(** A second chat while the reply is pending: its page is now the
    last one, and its tab the current one. *)
Definition pq_demo_second : pq_state := pq_run (pq_handle EvNewChat) pq_demo_sent.

(** From the window as opened: a second chat, then back to the first
    tab, with a question typed there. *)
Definition pq_demo_back : pq_state :=
  pq_run (pq_handle (EvTypeInput "and then?"))
    (pq_run (pq_handle (EvSelectTab 0)) (pq_run (pq_handle EvNewChat) pq_demo_ready)).

(** From the window as opened: a second chat, the first closed, and a
    new chat, which is named ["Chat 2"] again. *)
Definition pq_demo_renamed : pq_state :=
  pq_run (pq_handle EvNewChat)
    (pq_run (pq_handle (EvCloseTab 0)) (pq_run (pq_handle EvNewChat) pq_demo_ready)).

(** ** The shape of the tabs *)

Definition pq_wf0 (s : pq_state) : Prop :=
  length (pq_chat_list s) = length (pq_tabs s) /\
  length (pq_chats s) = length (pq_tabs s) /\
  Forall (fun i => i < length (pq_pages s)) (pq_tabs s) /\
  NoDup (pq_tabs s).

Definition pq_wf (s : pq_state) : Prop :=
  pq_wf0 s /\ pq_current s < length (pq_tabs s) /\ pq_last s < length (pq_pages s).

Abbreviation keeps_wf := (preserves pq_wf).

(** A state update that leaves the tabs, the lists and the last page
    alone and changes the pages at most one by one. *)
Ltac wf_update :=
  repeat case_match; unfold pq_wf, pq_wf0 in *; pq_simpl;
  rewrite ?length_alter, ?length_map; tauto.

Ltac solve_wf := repeat preserve_step wf_update.

(** Run a handler on a symbolic state statement by statement. *)
Ltac pq_run :=
  repeat (first [rewrite pbind_assoc | rewrite pbind_pget | rewrite pbind_pmodify
                | rewrite pbind_plift_ok];
          cbv beta iota; cbn [message_widget]; pq_simpl);
  try (unfold pmodify; cbn [fst]; cbv beta; pq_simpl).

Lemma keeps_wf_page_update (f : pq_page -> pq_page) : keeps_wf (page_update f).
Proof. unfold page_update. solve_wf. Qed.
#[export] Hint Resolve keeps_wf_page_update : preserve.

Lemma keeps_wf_add_message_widget (t : json) (role : string) : keeps_wf (add_message_widget t role).
Proof. unfold add_message_widget, add_item. solve_wf. Qed.
#[export] Hint Resolve keeps_wf_add_message_widget : preserve.

Lemma keeps_wf_history_append (role : string) (t : json) : keeps_wf (history_append role t).
Proof. unfold history_append. solve_wf. Qed.
#[export] Hint Resolve keeps_wf_history_append : preserve.

Lemma Forall_lt_mono (l : list nat) (n m : nat) :
  n <= m -> Forall (fun i => i < n) l -> Forall (fun i => i < m) l.
Proof. intros Hle H. eapply Forall_impl; [exact H|]. cbn; lia. Qed.

(** [create_chat_tab] from any state whose lists agree. *)
Lemma create_chat_tab_wf (t : string) (s : pq_state) :
  pq_wf0 s -> pq_wf (fst (create_chat_tab t s)).
Proof.
  intros (H1 & H2 & H3 & H4). unfold create_chat_tab, pq_add_system_message, add_message_widget, add_item, page_update.
  pq_run. unfold pq_wf, pq_wf0. pq_simpl.
  rewrite !length_app, !length_alter, !length_app. cbn [length].
  split_and!; try lia.
  - apply Forall_app; split; [eapply Forall_lt_mono; [|done]; lia | constructor; [lia | done]].
  - apply NoDup_app; split_and!; [done | | by apply NoDup_singleton].
    intros x Hx ->%list_elem_of_singleton. eapply Forall_forall in H3; [|done]. lia.
Qed.


Lemma delete_out {A} (l : list A) (i : nat) : length l <= i -> delete i l = l.
Proof. intros H. by rewrite delete_take_drop, take_ge, drop_ge, app_nil_r by lia. Qed.

Lemma length_delete_lt {A} (l : list A) (i : nat) : i < length l -> length (delete i l) = length l - 1.
Proof. intros H. apply length_delete. by apply lookup_lt_is_Some_2. Qed.

Lemma current_after_remove_lt (index cur n : nat) :
  index < n -> cur < n -> 1 < n -> current_after_remove index cur n < n - 1.
Proof. intros. unfold current_after_remove. repeat case_match; bool_arith; lia. Qed.

Lemma keeps_wf_close_tab (index : nat) : keeps_wf (close_tab index).
Proof.
  unfold close_tab. apply preserves_pmodify. intros s ((H1 & H2 & H3 & H4) & H5 & H6).
  destruct (1 <? length (pq_tabs s)) eqn:Hn; [apply Nat.ltb_lt in Hn | done].
  destruct (decide (index < length (pq_tabs s))) as [Hi|Hi].
  - rewrite (proj2 (Nat.ltb_lt index (length (pq_chats s)))) by lia.
    unfold pq_wf, pq_wf0; pq_simpl. rewrite !length_delete_lt by lia.
    split_and!; try lia.
    + by apply Forall_delete.
    + eapply sublist_NoDup; [done | apply sublist_delete].
    + apply current_after_remove_lt; lia.
  - rewrite (proj2 (Nat.ltb_ge index (length (pq_chats s)))) by lia.
    unfold current_after_remove. rewrite (proj2 (Nat.ltb_ge index (length (pq_tabs s)))) by lia.
    rewrite !delete_out by lia. split_and!; done.
Qed.

Lemma keeps_wf_set_current (i : nat) : keeps_wf (set_current i).
Proof.
  unfold set_current. apply preserves_pmodify. intros s Hs.
  case_match eqn:E; [apply Nat.ltb_lt in E | done].
  unfold pq_wf in *; pq_simpl. tauto.
Qed.
#[export] Hint Resolve keeps_wf_close_tab keeps_wf_set_current : preserve.

Lemma keeps_wf_load_selected_chat (k : nat) : keeps_wf (load_selected_chat k).
Proof. unfold load_selected_chat. solve_wf. Qed.

Lemma keeps_wf_new_chat : keeps_wf pq_new_chat.
Proof. intros s Hs. unfold pq_new_chat. rewrite pbind_pget. apply create_chat_tab_wf, Hs. Qed.
#[export] Hint Resolve keeps_wf_load_selected_chat keeps_wf_new_chat : preserve.

Lemma keeps_wf_update_models (ms : list json) : keeps_wf (pq_update_models ms).
Proof. unfold pq_update_models, pq_on_model_selected, set_status, show_dialog. solve_wf. Qed.
#[export] Hint Resolve keeps_wf_update_models : preserve.

Lemma keeps_wf_test_body (url : string) (r : http_result) : keeps_wf (test_body url r).
Proof. unfold test_body, set_conn, show_dialog. solve_wf. Qed.

Lemma keeps_wf_fetch_body (r : http_result) : keeps_wf (pq_fetch_body r).
Proof. unfold pq_fetch_body, set_conn, show_dialog. solve_wf. Qed.

Lemma keeps_wf_send_message : keeps_wf pq_send_message.
Proof.
  unfold pq_send_message, pq_add_user_message, set_send_button, set_status, show_dialog,
    add_item, add_worker.
  solve_wf.
Qed.

Lemma keeps_wf_deliver (sg : pq_signal) : keeps_wf (deliver sg).
Proof.
  unfold deliver, handle_response, handle_error, remove_progress, generation_done,
    pq_add_assistant_message, pq_add_system_message, set_send_button, set_status.
  solve_wf.
Qed.

Lemma keeps_wf_handle (ev : pq_event) : keeps_wf (pq_handle ev).
Proof.
  destruct ev; cbn [pq_handle];
    unfold visible_update, update_temperature, update_max_tokens, test_connection,
      pq_fetch_models, attach_file, clear_attachments, insert_code_snippet, save_code_to_file,
      pq_on_model_selected,
      set_conn, set_status, show_dialog, add_worker;
    solve_wf; auto using keeps_wf_send_message.
Qed.

(** A slot that brings a state from [Q] to [P] does so when it aborts
    the program too. *)
Lemma pq_run_post (Q P : pq_state -> Prop) (c : pyM pq_state unit) (s : pq_state) :
  (forall s, P s -> P {| s with pq_crashed := true |}) ->
  (forall s, Q s -> P (fst (c s))) -> Q s -> P (pq_run c s).
Proof.
  intros Hcrash Hc Hs. unfold pq_run. specialize (Hc s Hs).
  destruct (c s) as [s' [?|?]]; cbn in Hc; auto.
Qed.

Lemma pq_init_wf (s : pq_state) : pq_wf0 s -> pq_wf (fst (pq_init s)).
Proof.
  intros Hs. unfold pq_init, pbind at 1.
  unfold pq_new_chat. rewrite pbind_pget.
  pose proof (create_chat_tab_wf (chat_title (length (pq_tabs s) + 1)) _ Hs) as H.
  destruct (create_chat_tab _ s) as [s1 [[]|e]]; cbn in H |- *; [|done].
  assert (keeps_wf (set_status "Ready";; pq_fetch_models)) as K
    by (unfold set_status, pq_fetch_models, set_conn, add_worker; solve_wf).
  exact (K s1 H).
Qed.

Lemma pq_blank_wf0 (url : string) fs hms : pq_wf0 (pq_blank url fs hms).
Proof. unfold pq_wf0; cbn. auto using NoDup_nil_2. Qed.

Lemma pq_main_wf (env arg : option string) fs hms : pq_wf (pq_main env arg fs hms).
Proof.
  unfold pq_main. cbv zeta. eapply pq_run_post; [intros; wf_update | apply pq_init_wf | apply pq_blank_wf0].
Qed.

Lemma pq_step_wf (s s' : pq_state) : pq_step s s' -> pq_wf s -> pq_wf s'.
Proof.
  intros Hstep Hs. destruct Hstep.
  - eapply pq_run_post; [intros; wf_update | apply keeps_wf_handle | done].
  - wf_update.
  - apply keeps_wf_fetch_body. unfold remove_worker. wf_update.
  - apply keeps_wf_test_body. unfold remove_worker. wf_update.
  - eapply pq_run_post; [intros; wf_update | apply keeps_wf_deliver | wf_update].
Qed.

(** An invariant of [pq_main] and of every step holds in every
    reachable state. *)
Lemma pq_reachable_ind (P : pq_state -> Prop) :
  (forall env arg fs hms, P (pq_main env arg fs hms)) ->
  (forall s s', pq_step s s' -> P s -> P s') ->
  forall s, pq_reachable s -> P s.
Proof.
  intros Hmain Hstep s (env & arg & fs & hms & Hr).
  remember (pq_main env arg fs hms) as s0 eqn:E.
  assert (P s0) as H0 by (subst; apply Hmain). clear E.
  induction Hr; eauto.
Qed.

(** ** The settings stay in the widgets' ranges *)

Definition pq_bounds (s : pq_state) : Prop :=
  (0 <= pq_temperature s <= 1)%Q /\ (10 <= pq_max_tokens s <= 4096)%Z.

Abbreviation keeps_bounds := (preserves pq_bounds).

Ltac bounds_update := repeat case_match; unfold pq_bounds in *; pq_simpl; tauto.
Ltac solve_bounds := repeat preserve_step bounds_update.

Lemma keeps_bounds_update_models (ms : list json) : keeps_bounds (pq_update_models ms).
Proof. unfold pq_update_models, pq_on_model_selected, set_status, show_dialog. solve_bounds. Qed.
#[export] Hint Resolve keeps_bounds_update_models : preserve.

Lemma keeps_bounds_page_update (f : pq_page -> pq_page) : keeps_bounds (page_update f).
Proof. unfold page_update. solve_bounds. Qed.
#[export] Hint Resolve keeps_bounds_page_update : preserve.

Lemma keeps_bounds_add_message_widget (t : json) (role : string) :
  keeps_bounds (add_message_widget t role).
Proof. unfold add_message_widget, add_item. solve_bounds. Qed.

Lemma keeps_bounds_history_append (t : json) (role : string) : keeps_bounds (history_append role t).
Proof. unfold history_append. solve_bounds. Qed.
#[export] Hint Resolve keeps_bounds_add_message_widget keeps_bounds_history_append : preserve.

Lemma keeps_bounds_create_chat_tab (t : string) : keeps_bounds (create_chat_tab t).
Proof. unfold create_chat_tab, pq_add_system_message. solve_bounds. Qed.
#[export] Hint Resolve keeps_bounds_create_chat_tab : preserve.

Lemma keeps_bounds_bodies :
  (forall url r, keeps_bounds (test_body url r)) /\ (forall r, keeps_bounds (pq_fetch_body r)) /\
  keeps_bounds pq_send_message /\ (forall sg, keeps_bounds (deliver sg)) /\
  keeps_bounds pq_init.
Proof.
  unfold test_body, pq_fetch_body, pq_send_message, deliver, handle_response, handle_error,
    remove_progress, generation_done, pq_add_user_message, pq_add_assistant_message,
    pq_add_system_message, pq_init, pq_new_chat, pq_fetch_models, set_send_button, set_conn,
    set_status, show_dialog, add_item, add_worker.
  split_and!; solve_bounds.
Qed.

(** The slider gives [0..100], so [value / 100.0] is in [[0, 1]]. *)
Lemma temperature_in_unit (v : Z) : (0 <= v <= 100)%Z -> (0 <= inject_Z v / 100 <= 1)%Q.
Proof. intros Hv. unfold Qle; cbn. lia. Qed.

Lemma bounds_handle (s : pq_state) (ev : pq_event) :
  pq_event_ok s ev = true -> pq_bounds s -> pq_bounds (pq_run (pq_handle ev) s).
Proof.
  intros Hok Hs. eapply pq_run_post; [intros; bounds_update | | exact Hs].
  destruct keeps_bounds_bodies as (_ & _ & Hsend & _ & _).
  change (keeps_bounds (pq_handle ev)).
  destruct ev; cbn [pq_event_ok] in Hok; cbn [pq_handle]; try exact Hsend;
    unfold update_temperature, update_max_tokens, visible_update, load_selected_chat, pq_new_chat,
      set_current, close_tab, test_connection, attach_file, clear_attachments,
      insert_code_snippet, save_code_to_file, pq_on_model_selected, set_conn, set_status,
      show_dialog, add_worker;
    first [ apply preserves_pmodify; intros s' [Ht Hm]; apply andb_true_iff in Hok as [H1 H2];
            bool_arith; split; cbn; first [done | apply temperature_in_unit; lia | lia]
          | solve_bounds ].
Qed.

(** The session above is reachable. *)
Lemma pq_demo_second_reachable : pq_reachable pq_demo_second.
Proof.
  exists None, None, [], "10:00:00".
  apply rtc_l with pq_demo_ready.
  { unfold pq_demo_ready, pq_demo_start.
    refine (PqFetchDone _ 0 (HttpResp 200 "" (Ok pq_demo_tags)) _ _); vm_compute; reflexivity. }
  apply rtc_l with pq_demo_typed.
  { unfold pq_demo_typed. refine (PqUi pq_demo_ready (EvTypeInput "hi") _ _); vm_compute; reflexivity. }
  apply rtc_l with pq_demo_sent.
  { unfold pq_demo_sent. refine (PqUi pq_demo_typed EvSend _ _); vm_compute; reflexivity. }
  apply rtc_once. unfold pq_demo_second. refine (PqUi pq_demo_sent EvNewChat _ _); vm_compute; reflexivity.
Qed.

(** ** Theorems *)

(** C33: In every reachable state the chat list, the histories and the
    tabs have one entry per tab, the current tab and the page the
    handlers write to exist, and no page is shown by two tabs; in
    particular there is always at least one tab, as [close_tab]
    intends. *)
Theorem pq_tabs_wf (s : pq_state) : pq_reachable s -> pq_wf s.
Proof. apply pq_reachable_ind; [apply pq_main_wf | apply pq_step_wf]. Qed.

(** C34: In every reachable state the temperature is in [[0, 1]] and
    the token limit in [[10, 4096]], the ranges of the slider and of
    the spin box. *)
Theorem pq_settings_bounds (s : pq_state) : pq_reachable s -> pq_bounds s.
Proof.
  apply pq_reachable_ind.
  - intros. unfold pq_main. cbv zeta. eapply pq_run_post; [intros; bounds_update | apply keeps_bounds_bodies |].
    unfold pq_bounds; cbn. split; [unfold Qle; cbn; lia | lia].
  - intros s1 s2 Hstep Hs. destruct keeps_bounds_bodies as (Ht & Hf & _ & Hd & _).
    destruct Hstep.
    + by apply bounds_handle.
    + bounds_update.
    + apply Hf. unfold remove_worker. bounds_update.
    + apply Ht. unfold remove_worker. bounds_update.
    + eapply pq_run_post; [intros; bounds_update | apply Hd | bounds_update].
Qed.

Lemma pq_tabs_wf_witness : pq_reachable pq_demo_second /\ pq_wf pq_demo_second.
Proof. split; [apply pq_demo_second_reachable | apply pq_tabs_wf, pq_demo_second_reachable]. Defined.

Lemma pq_settings_bounds_witness : pq_reachable pq_demo_second /\ pq_bounds pq_demo_second.
Proof.
  split; [apply pq_demo_second_reachable | apply pq_settings_bounds, pq_demo_second_reachable].
Defined.

(** ** The handlers and the widgets of the last page *)

#[export] Instance pq_wf_dec (s : pq_state) : Decision (pq_wf s).
Proof. unfold pq_wf, pq_wf0. apply _. Defined.

Lemma NoDup_delete_not_elem {A} (l : list A) (i : nat) (x : A) :
  NoDup l -> l !! i = Some x -> x ∉ delete i l.
Proof.
  intros Hnd Hi (j & Hj)%list_elem_of_lookup.
  destruct (decide (j < i)).
  - rewrite list_lookup_delete_lt in Hj by lia.
    pose proof (NoDup_lookup _ _ _ _ Hnd Hi Hj). lia.
  - rewrite list_lookup_delete_ge in Hj by lia.
    pose proof (NoDup_lookup _ _ _ _ Hnd Hi Hj). lia.
Qed.

(** The send button of page [pid]. *)
Definition send_button_of (s : pq_state) (pid : nat) : option bool :=
  pg_send_enabled <$> pq_pages s !! pid.

Lemma lookup_map_list {A B} (f : A -> B) (l : list A) (i : nat) : map f l !! i = f <$> l !! i.
Proof. revert i; induction l as [|x l IH]; intros [|i]; cbn; auto. Qed.

(** A state update that keeps the last page and the send button of a
    page that is not the last. *)
Ltac other_update :=
  cbv beta in *;
  match goal with
  | H : _ /\ _ |- _ =>
      let HL := fresh "HL" in let HB := fresh "HB" in
      destruct H as [HL HB];
      repeat case_match;
      (split; [pq_simpl; done |
               rewrite <- HB; unfold send_button_of; pq_simpl;
               rewrite ?list_lookup_alter_ne by congruence; rewrite ?lookup_map_list;
               match goal with |- context [pq_pages ?s !! ?i] => destruct (pq_pages s !! i) end;
               reflexivity])
  end.

Lemma deliver_keeps_other_button (sg : pq_signal) (L pid : nat) (b : option bool) :
  pid <> L ->
  preserves (fun s => pq_last s = L /\ send_button_of s pid = b) (deliver sg).
Proof.
  intros Hne.
  unfold deliver, handle_response, handle_error, remove_progress, generation_done,
    pq_add_assistant_message, pq_add_system_message, add_message_widget, add_item,
    history_append, set_send_button, page_update, set_status.
  destruct sg; repeat preserve_step other_update.
Qed.

(** C36: [send_message] reads the question from [self.input_edit], the
    input box of the page created last: when that box is blank, pressing
    Send does nothing at all, whatever the box of the tab shown holds.
    After a second chat is opened, the first tab cannot send. *)
Theorem pq_send_reads_last_input (s : pq_state) :
  pq_generating s = false -> py_strip (pg_input (last_page s)) = "" ->
  pq_send_message s = (s, Ok tt).
Proof.
  intros Hg Hm. unfold pq_send_message. rewrite pbind_pget, Hg. cbv zeta. by rewrite Hm.
Qed.

(** The statements of [handle_response], one at a time. *)
Lemma add_message_widget_str (t role : string) (k : unit -> pyM pq_state unit) (s : pq_state) :
  pbind (add_message_widget (JStr t) role) k s = k tt (fst (add_message_widget (JStr t) role s)).
Proof. reflexivity. Qed.

Lemma add_message_widget_frame (t : json) (role : string) (s : pq_state) :
  pq_chats (fst (add_message_widget t role s)) = pq_chats s /\
  pq_current (fst (add_message_widget t role s)) = pq_current s.
Proof.
  unfold add_message_widget, pbind, pget, plift. cbn [fst].
  destruct (message_widget t role (pq_clock s)); split; reflexivity.
Qed.

Lemma history_append_chats (role : string) (t : json) (s : pq_state) :
  pq_current s < length (pq_chats s) ->
  pq_chats (fst (history_append role t s))
  = alter (fun '(ti, h) => (ti, h ++ [chat_msg role t])) (pq_current s) (pq_chats s).
Proof. intros H. unfold history_append, pmodify; cbn [fst]. apply Nat.ltb_lt in H. by rewrite H. Qed.

Lemma remove_progress_frame (id : nat) (s : pq_state) :
  pq_chats (fst (remove_progress id s)) = pq_chats s /\
  pq_current (fst (remove_progress id s)) = pq_current s.
Proof. split; reflexivity. Qed.

Lemma generation_done_fields (st : string) (s : pq_state) :
  pq_chats (fst (generation_done st s)) = pq_chats s /\
  pq_generating (fst (generation_done st s)) = false.
Proof. split; reflexivity. Qed.

Lemma add_message_widget_str_run (t role : string) (s : pq_state) :
  fst (add_message_widget (JStr t) role s)
  = {| s with pq_pages := alter (fun p => {| p with pg_items := pg_items p ++
         [IMsg (MsgWidget role (py_capitalize role) (pq_clock s) (process_text t))] |})
         (pq_last s) (pq_pages s) |}.
Proof. by destruct s. Qed.

Lemma file_message_ext (s t : pq_state) :
  pq_attached s = pq_attached t -> pq_fs s = pq_fs t -> file_message s = file_message t.
Proof. destruct s, t; cbn. by intros -> ->. Qed.

Lemma alter_lookup_same {A} (f : A -> A) (g : A -> bool) (l : list A) (i : nat) (d : A) :
  (forall x, g (f x) = g x) -> g (default d (alter f i l !! i)) = g (default d (l !! i)).
Proof. intros Hf. rewrite list_lookup_alter_eq. destruct (l !! i); cbn; [apply Hf | done]. Qed.

Lemma current_history_alter (s : pq_state) (x : json) (cur : nat) (chats : list (string * list json)) :
  cur < length chats ->
  (if cur <? length (alter (fun '(t, h) => (t, h ++ [x])) cur chats)
   then default [] (snd <$> alter (fun '(t, h) => (t, h ++ [x])) cur chats !! cur) else [])
  = (if cur <? length chats then default [] (snd <$> chats !! cur) else []) ++ [x].
Proof.
  intros H. rewrite length_alter, list_lookup_alter_eq. apply Nat.ltb_lt in H as H'. rewrite H'.
  destruct (chats !! cur) as [[t h]|] eqn:E; [done | apply lookup_ge_None in E; lia].
Qed.

(** C35: With the client idle, a question in the last page's input box
    and a model selected, [send_message] starts one [ApiThread] that
    posts to [{api_url}/chat] the system prompt, the reasoning
    instruction, the attached files and the current tab's history,
    which now ends with the question; the client is generating; and
    the attachments stay attached, to be sent again with the next
    question. *)
Theorem pq_send_message_ok (s : pq_state) (m : string) :
  pq_generating s = false -> py_strip (pg_input (last_page s)) = m -> String.eqb m "" = false ->
  String.eqb (pq_selected s) "" = false -> pq_current s < length (pq_chats s) ->
  pq_workers (fst (pq_send_message s))
  = pq_workers s ++ [PqApi (pq_next_progress s) (pq_api_url s +:+ "/chat")
                       (pq_payload s (pq_build_messages s ++ [chat_msg "user" (JStr m)]))] /\
  pq_generating (fst (pq_send_message s)) = true /\
  pq_attached (fst (pq_send_message s)) = pq_attached s.
Proof.
  intros Hg Hm He Hs Hc. unfold pq_send_message. rewrite pbind_pget, Hg. cbv zeta. rewrite Hm, He, Hs.
  cbn [negb orb andb]. unfold pq_add_user_message. rewrite !pbind_assoc, add_message_widget_str. cbv beta.
  rewrite add_message_widget_str_run.
  unfold history_append. rewrite pbind_pmodify. cbv beta. pq_simpl.
  apply Nat.ltb_lt in Hc as Hc'. rewrite Hc'. pq_simpl.
  unfold page_update. rewrite pbind_pmodify. cbv beta. pq_simpl. rewrite pbind_pget. cbv beta.
  match goal with |- context [pq_build_messages ?x] => set (s2 := x) end.
  assert (pq_build_messages s2 = pq_build_messages s ++ [chat_msg "user" (JStr m)]) as Hb.
  { unfold pq_build_messages, current_history, last_page, s2. pq_simpl.
    rewrite current_history_alter by done. rewrite <- !app_assoc.
    rewrite !(alter_lookup_same _ pg_reasoning) by done.
    by erewrite (file_message_ext _ s). }
  assert (pq_workers s2 = pq_workers s /\ pq_next_progress s2 = pq_next_progress s /\
          pq_api_url s2 = pq_api_url s /\ pq_attached s2 = pq_attached s /\
          pq_selected s2 = pq_selected s /\ pq_temperature s2 = pq_temperature s /\
          pq_max_tokens s2 = pq_max_tokens s) as (W1 & W2 & W3 & W4 & W5 & W6 & W7)
    by (unfold s2; by destruct s).
  clearbody s2. rewrite Hb. clear Hb.
  unfold set_send_button, set_status, add_item, add_worker, page_update.
  pq_run. unfold pq_payload. pq_simpl. rewrite W1, W2, W3, W4, W5, W6, W7. done.
Qed.

(** C37: The reply is added to the history of the tab that is current
    when it arrives, not of the tab that asked: with the question asked
    in one tab and another tab shown, the answer goes to the other
    tab's history; and the client is ready to send again. *)
Theorem pq_reply_current_tab (s : pq_state) (data : json) (c : string) (id : nat) :
  pq_current s < length (pq_chats s) -> read_reply data = Ok (Some (JStr c)) ->
  pq_chats (fst (handle_response data id s))
  = alter (fun '(t, h) => (t, h ++ [chat_msg "assistant" (JStr c)])) (pq_current s) (pq_chats s) /\
  pq_generating (fst (handle_response data id s)) = false.
Proof.
  intros Hc Hr.
  assert (handle_response data id s
          = generation_done "Response received"
              (fst (history_append "assistant" (JStr c)
                      (fst (add_message_widget (JStr c) "assistant" (fst (remove_progress id s))))))) as E.
  { unfold handle_response. unfold remove_progress at 1. rewrite pbind_pmodify. cbv beta.
    rewrite Hr, pbind_plift_ok. cbv beta iota. unfold pq_add_assistant_message.
    rewrite pbind_assoc, add_message_widget_str. cbv beta.
    unfold history_append at 1. rewrite pbind_pmodify. reflexivity. }
  rewrite E. destruct (generation_done_fields "Response received"
    (fst (history_append "assistant" (JStr c)
      (fst (add_message_widget (JStr c) "assistant" (fst (remove_progress id s))))))) as [G1 G2].
  rewrite G1, G2. split; [|done].
  destruct (add_message_widget_frame (JStr c) "assistant" (fst (remove_progress id s))) as [F1 F2].
  destruct (remove_progress_frame id s) as [R1 R2].
  rewrite history_append_chats; rewrite ?F1, ?F2, ?R1, ?R2; done.
Qed.

(** C38: Closing the tab of the page created last leaves
    [self.messages_layout], [self.input_edit] and [self.send_btn]
    bound to a page no tab shows: every message shown afterwards, in
    any tab, goes to that hidden page. *)
Theorem pq_close_newest_tab (s : pq_state) (i : nat) :
  pq_wf s -> 1 < length (pq_tabs s) -> pq_tabs s !! i = Some (pq_last s) ->
  pq_last (fst (close_tab i s)) = pq_last s /\
  pq_last (fst (close_tab i s)) ∉ pq_tabs (fst (close_tab i s)).
Proof.
  intros ((_ & _ & _ & Hnd) & _) Hn Hi. unfold close_tab, pmodify; cbn [fst].
  apply Nat.ltb_lt in Hn. rewrite Hn. pq_simpl.
  split; [done | exact (NoDup_delete_not_elem _ i _ Hnd Hi)].
Qed.

(** C39: Clicking a chat of the list selects the first chat with the
    same title: a chat that an earlier chat shares its title with
    cannot be selected from the list.  [new_chat] names a chat after
    the number of tabs, so titles repeat once a tab is closed. *)
Theorem pq_chat_list_first_title (s : pq_state) (i k : nat) :
  pq_wf s -> i < k -> k < length (pq_chat_list s) -> pq_chat_list s !! i = pq_chat_list s !! k ->
  pq_current (fst (load_selected_chat k s)) <= i.
Proof.
  intros ((Hl & _) & _) Hik Hk Heq. unfold load_selected_chat. rewrite pbind_pget.
  destruct (pq_chat_list s !! k) as [t|] eqn:Ht; [|apply lookup_ge_None in Ht; lia].
  destruct (list_find (fun x => x = t) (pq_chat_list s)) as [[j x]|] eqn:Hf.
  - apply list_find_Some in Hf as (Hj & -> & Hbefore).
    assert (j <= i) as Hji.
    { destruct (decide (j <= i)) as [|Hgt]; [done|]. exfalso. apply (Hbefore i t); [by rewrite Heq | lia | done]. }
    unfold set_current, pmodify; cbn [fst].
    rewrite (proj2 (Nat.ltb_lt j (length (pq_tabs s)))) by lia. done.
  - apply list_find_None in Hf. rewrite Forall_lookup in Hf. by destruct (Hf k t Ht).
Qed.

(** C40: The end of a request re-enables only the send button of the
    page created last: when a chat was opened while the reply was
    pending, the send button of the page that sent stays disabled. *)
Theorem pq_deliver_other_buttons (sg : pq_signal) (s : pq_state) (pid : nat) :
  pid <> pq_last s -> send_button_of (pq_run (deliver sg) s) pid = send_button_of s pid.
Proof.
  intros Hne.
  apply (pq_run_post (fun s' => pq_last s' = pq_last s /\ send_button_of s' pid = send_button_of s pid)
                     (fun s' => pq_last s' = pq_last s /\ send_button_of s' pid = send_button_of s pid));
    [by intros ? [] | apply deliver_keeps_other_button, Hne | done].
Qed.

(** Witnesses. *)

Lemma pq_send_reads_last_input_witness :
  pg_input (default fresh_page (pq_pages pq_demo_back !! 0)) = "and then?" /\
  pq_current pq_demo_back = 0 /\
  pq_generating pq_demo_back = false /\ py_strip (pg_input (last_page pq_demo_back)) = "" /\
  pq_send_message pq_demo_back = (pq_demo_back, Ok tt).
Proof.
  split_and!; [vm_compute; reflexivity.. | apply pq_send_reads_last_input; vm_compute; reflexivity].
Defined.

Lemma pq_reply_current_tab_witness :
  pq_chat_list pq_demo_second !! pq_current pq_demo_second = Some "Chat 2" /\
  pq_current pq_demo_second < length (pq_chats pq_demo_second) /\
  read_reply pq_demo_reply = Ok (Some (JStr "Hello!")) /\
  pq_chats (fst (handle_response pq_demo_reply 0 pq_demo_second))
  = alter (fun '(t, h) => (t, h ++ [chat_msg "assistant" (JStr "Hello!")]))
      (pq_current pq_demo_second) (pq_chats pq_demo_second) /\
  pq_generating (fst (handle_response pq_demo_reply 0 pq_demo_second)) = false.
Proof.
  assert (pq_current pq_demo_second < length (pq_chats pq_demo_second)) as Hc
    by (vm_compute; lia).
  destruct (pq_reply_current_tab pq_demo_second pq_demo_reply "Hello!" 0 Hc eq_refl) as [H1 H2].
  split_and!; [vm_compute; reflexivity | exact Hc | reflexivity | exact H1 | exact H2].
Defined.

Lemma pq_close_newest_tab_witness :
  pq_wf pq_demo_second /\ 1 < length (pq_tabs pq_demo_second) /\
  pq_tabs pq_demo_second !! 1 = Some (pq_last pq_demo_second) /\
  pq_last (fst (close_tab 1 pq_demo_second)) = pq_last pq_demo_second /\
  pq_last (fst (close_tab 1 pq_demo_second)) ∉ pq_tabs (fst (close_tab 1 pq_demo_second)).
Proof.
  assert (pq_wf pq_demo_second) as Hw
    by (apply (bool_decide_eq_true_1 (pq_wf pq_demo_second)); vm_compute; reflexivity).
  assert (1 < length (pq_tabs pq_demo_second)) as Hn by (vm_compute; lia).
  assert (pq_tabs pq_demo_second !! 1 = Some (pq_last pq_demo_second)) as Hi
    by (vm_compute; reflexivity).
  destruct (pq_close_newest_tab pq_demo_second 1 Hw Hn Hi) as [H1 H2].
  split_and!; assumption.
Defined.

Lemma pq_chat_list_first_title_witness :
  pq_chat_list pq_demo_renamed = ["Chat 2"; "Chat 2"] /\
  pq_wf pq_demo_renamed /\ 0 < 1 /\ 1 < length (pq_chat_list pq_demo_renamed) /\
  pq_chat_list pq_demo_renamed !! 0 = pq_chat_list pq_demo_renamed !! 1 /\
  pq_current (fst (load_selected_chat 1 pq_demo_renamed)) <= 0.
Proof.
  assert (pq_wf pq_demo_renamed) as Hw
    by (apply (bool_decide_eq_true_1 (pq_wf pq_demo_renamed)); vm_compute; reflexivity).
  assert (1 < length (pq_chat_list pq_demo_renamed)) as Hk by (vm_compute; lia).
  assert (pq_chat_list pq_demo_renamed !! 0 = pq_chat_list pq_demo_renamed !! 1) as He
    by (vm_compute; reflexivity).
  split_and!; [vm_compute; reflexivity | exact Hw | lia | exact Hk | exact He |].
  apply pq_chat_list_first_title; [exact Hw | lia | exact Hk | exact He].
Defined.

Lemma pq_deliver_other_buttons_witness :
  pq_last pq_demo_second = 1 /\ send_button_of pq_demo_second 0 = Some false /\
  send_button_of (pq_run (deliver (SigResponse pq_demo_reply 0)) pq_demo_second) 0
  = send_button_of pq_demo_second 0.
Proof.
  split_and!; [vm_compute; reflexivity | vm_compute; reflexivity |].
  apply pq_deliver_other_buttons. vm_compute. discriminate.
Defined.

Lemma pq_send_message_ok_witness :
  pq_generating pq_demo_typed = false /\ py_strip (pg_input (last_page pq_demo_typed)) = "hi" /\
  String.eqb "hi" "" = false /\ String.eqb (pq_selected pq_demo_typed) "" = false /\
  pq_current pq_demo_typed < length (pq_chats pq_demo_typed) /\
  pq_attached (fst (pq_send_message pq_demo_typed)) = pq_attached pq_demo_typed.
Proof.
  assert (pq_current pq_demo_typed < length (pq_chats pq_demo_typed)) as Hc by (vm_compute; lia).
  assert (pq_generating pq_demo_typed = false) as Hg by (vm_compute; reflexivity).
  assert (py_strip (pg_input (last_page pq_demo_typed)) = "hi") as Hm by (vm_compute; reflexivity).
  assert (String.eqb (pq_selected pq_demo_typed) "" = false) as Hs by (vm_compute; reflexivity).
  destruct (pq_send_message_ok pq_demo_typed "hi" Hg Hm eq_refl Hs Hc) as (_ & _ & H3).
  split_and!; [exact Hg | exact Hm | reflexivity | exact Hs | exact Hc | exact H3].
Defined.
